(** * cv-scorer: batch scoring and aggregation core

    A shallow embedding of the scoring, caching, voting, aggregation,
    filtering and progress-tracking code of the repository
    ([modules/ai_scoring.py], [modules/data_handling.py],
    [modules/filters.py], [modules/batch_processing.py],
    [modules/pdf_processor.py]) together with the properties its
    specification states about them, and further properties of this code
    and of the pure helpers of [app.py] and
    [modules/skill_verification.py].

    Conventions of the embedding.
    - Python [int] is [Z]; Python [float] scores are exact rationals [Q]
      (binary64 rounding is not represented, the non-finite values [inf] and
      [nan] are, since the code can meet them when it parses an oracle reply).
    - Python [str] is [string]; a character is an [ascii] code point.
    - Python exceptions are values of [exn]; a computation that may raise
      returns a [result].  Code that mutates the Streamlit session, calls the
      oracle or reads the clock is written in the state-and-exception monad
      [M], whose state survives a raise, as a Python object does.
    - The presentation calls ([st.error], progress bars, counters) have no
      effect on the values computed and are left out. *)

From Stdlib Require Import ZArith QArith Qround Qabs String Ascii List Lia Lqa
  DecimalString Sorted Permutation.
From stdpp Require Import gmap strings.
Import ListNotations.

Local Open Scope Z_scope.

(* ===================================================================== *)
(** * Python runtime *)
(* ===================================================================== *)

Module Py.

(** The exceptions the modelled code can raise or meet.  [APIError] stands
    for any [Exception] raised by the OpenAI client or while reading the
    reply; [IOError] for a failing archive read; [BadZipFile],
    [RuntimeError] and [NotImplementedError] are what [zipfile] raises for
    an archive or a member it cannot open (damaged, encrypted, compressed by
    a method it does not support); [RerunException] is Streamlit's
    control-flow exception, which derives from [BaseException] and is
    therefore not caught by [except Exception]. *)
Inductive exn : Type :=
| ValueError
| OverflowError
| ZeroDivisionError
| IndexError
| KeyError (key : string)
| APIError (msg : string)
| IOError (msg : string)
| BadZipFile
| RuntimeError (msg : string)
| NotImplementedError (msg : string)
| RerunException.

Definition is_Exception (e : exn) : bool :=
  match e with
  | RerunException => false
  | _ => true
  end.

Definition is_ValueError (e : exn) : bool :=
  match e with
  | ValueError => true
  | _ => false
  end.

Inductive result (A : Type) : Type :=
| Ok (a : A)
| Raise (e : exn).
Arguments Ok {A} a.
Arguments Raise {A} e.

Definition result_bind {A B} (r : result A) (k : A -> result B) : result B :=
  match r with
  | Ok a => k a
  | Raise e => Raise e
  end.

(** [a / b] on numbers: true division, raising on a zero divisor. *)
Definition truediv (a b : Q) : result Q :=
  if Qeq_bool b 0 then Raise ZeroDivisionError else Ok (a / b)%Q.

(** [a < b] on numbers. *)
Definition lt (a b : Q) : bool := negb (Qle_bool b a).

(** [int(x)] on a finite float: truncation toward zero. *)
Definition int_of_float (q : Q) : Z :=
  if Qle_bool 0 q then Qfloor q else Qceiling q.

(** [round(x)] on a finite float: nearest integer, ties to even. *)
Definition round_half_even (q : Q) : Z :=
  let f := Qfloor q in
  match Qcompare (q - inject_Z f) (1 # 2) with
  | Lt => f
  | Gt => f + 1
  | Eq => if Z.even f then f else f + 1
  end.

(** A parsed float: finite, signed infinity, or not-a-number. *)
Inductive pyfloat : Type :=
| Finite (q : Q)
| Inf (negative : bool)
| NaN.

(** [round(x)]: [OverflowError] on an infinity, [ValueError] on a NaN. *)
Definition round (x : pyfloat) : result Z :=
  match x with
  | Finite q => Ok (round_half_even q)
  | Inf _ => Raise OverflowError
  | NaN => Raise ValueError
  end.

(** [b > a] and [b < a] against a finite bound; every comparison with a NaN
    is false. *)
Definition float_gt (b : pyfloat) (a : Q) : bool :=
  match b with
  | Finite q => lt a q
  | Inf negative => negb negative
  | NaN => false
  end.

Definition float_lt (b : pyfloat) (a : Q) : bool :=
  match b with
  | Finite q => lt q a
  | Inf negative => negative
  | NaN => false
  end.

(** [max(a, b)] returns [b] when [b > a], else [a]; [min(a, b)] returns [b]
    when [b < a], else [a]. *)
Definition max (a : Q) (b : pyfloat) : pyfloat :=
  if float_gt b a then b else Finite a.

Definition min (a : Q) (b : pyfloat) : pyfloat :=
  if float_lt b a then b else Finite a.

(** ** Strings *)

Definition code (c : ascii) : Z := Z.of_nat (nat_of_ascii c).

(** [str.isspace] on the code points below 256. *)
Definition is_space (c : ascii) : bool :=
  let n := code c in
  ((9 <=? n) && (n <=? 13)) || ((28 <=? n) && (n <=? 32))
  || (n =? 133) || (n =? 160).

Definition is_digit (c : ascii) : bool :=
  let n := code c in (48 <=? n) && (n <=? 57).

Definition digit_value (c : ascii) : Z := code c - 48.

(** [str.lower] on one code point below 256: the ASCII capitals and the
    Latin-1 capitals (all of 192..222 but the multiplication sign). *)
Definition lower_char (c : ascii) : ascii :=
  let n := code c in
  if ((65 <=? n) && (n <=? 90))
     || ((192 <=? n) && (n <=? 222) && negb (n =? 215))
  then ascii_of_nat (Z.to_nat (n + 32)) else c.

Fixpoint lower (s : string) : string :=
  match s with
  | EmptyString => EmptyString
  | String c r => String (lower_char c) (lower r)
  end.

Fixpoint lstrip (s : string) : string :=
  match s with
  | EmptyString => EmptyString
  | String c r => if is_space c then lstrip r else s
  end.

Fixpoint rstrip (s : string) : string :=
  match s with
  | EmptyString => EmptyString
  | String c r =>
      match rstrip r with
      | EmptyString => if is_space c then EmptyString else String c EmptyString
      | r' => String c r'
      end
  end.

Definition strip (s : string) : string := rstrip (lstrip s).

Fixpoint prefix (n : nat) (s : string) : string :=
  match n, s with
  | O, _ => EmptyString
  | _, EmptyString => EmptyString
  | S n', String c r => String c (prefix n' r)
  end.

(** [s[:n]] for a bound [n >= 0]: the first [n] characters, the whole
    string when it is shorter. *)
Definition slice_to (n : Z) (s : string) : string := prefix (Z.to_nat n) s.

Fixpoint endswith_bool (s suffix : string) : bool :=
  if String.eqb s suffix then true
  else match s with
       | EmptyString => false
       | String _ r => endswith_bool r suffix
       end.

(** [s.encode()]: the UTF-8 bytes of a string of code points below 256. *)
Fixpoint encode (s : string) : list Z :=
  match s with
  | EmptyString => []
  | String c r =>
      let n := code c in
      if n <? 128 then n :: encode r
      else (192 + n / 64) :: (128 + n mod 64) :: encode r
  end.

(** [str(n)] for an integer. *)
Definition str_of_int (n : Z) : string := NilZero.string_of_int (Z.to_int n).

(** ["%02d" % n] for a non-negative [n]. *)
Definition two_digits (n : Z) : string :=
  if n <? 10 then String "0" (str_of_int n) else str_of_int n.

(** [str(timedelta(seconds=n))] for an integer number of seconds: the
    constructor normalises to days and seconds of the day and rejects more
    than 999999999 days. *)
Definition str_timedelta (n : Z) : result string :=
  let days := n / 86400 in
  let secs := n mod 86400 in
  if (days <? -999999999) || (999999999 <? days) then Raise OverflowError
  else
    let mm := secs / 60 in
    let ss := secs mod 60 in
    let hh := mm / 60 in
    let mm := mm mod 60 in
    let s := (str_of_int hh ++ ":" ++ two_digits mm ++ ":" ++ two_digits ss)%string in
    let plural := if Z.abs days =? 1 then ""%string else "s"%string in
    if days =? 0 then Ok s
    else Ok (str_of_int days ++ " day" ++ plural ++ ", " ++ s)%string.

(** ** [float(str)] *)

(** A [digitpart]: digits, single underscores allowed between two digits.
    Returns the digits read and the unread rest. *)
Fixpoint digitpart_rest (s : string) (acc : list Z) : list Z * string :=
  match s with
  | String c r =>
      if is_digit c then digitpart_rest r (acc ++ [digit_value c])
      else if Ascii.eqb c "_" then
        match r with
        | String d r' =>
            if is_digit d then digitpart_rest r' (acc ++ [digit_value d])
            else (acc, s)
        | EmptyString => (acc, s)
        end
      else (acc, s)
  | EmptyString => (acc, s)
  end.

Definition digitpart (s : string) : option (list Z * string) :=
  match s with
  | String c r => if is_digit c then Some (digitpart_rest r [digit_value c]) else None
  | EmptyString => None
  end.

Definition int_of_digits (ds : list Z) : Z :=
  fold_left (fun n d => 10 * n + d) ds 0.

Definition read_sign (s : string) : bool * string :=
  match s with
  | String "-" r => (true, r)
  | String "+" r => (false, r)
  | _ => (false, s)
  end.

(** [number ::= [digitpart] "." digitpart | digitpart ["."]]: the integer
    digits, the fraction digits and the rest. *)
Definition number (s : string) : option (list Z * list Z * string) :=
  match digitpart s with
  | Some (ip, String "." r) =>
      match digitpart r with
      | Some (fp, r') => Some (ip, fp, r')
      | None => Some (ip, [], r)
      end
  | Some (ip, r) => Some (ip, [], r)
  | None =>
      match s with
      | String "." r =>
          match digitpart r with
          | Some (fp, r') => Some ([], fp, r')
          | None => None
          end
      | _ => None
      end
  end.

(** [exponent ::= ("e" | "E") [sign] digitpart], absent when the rest is
    empty. *)
Definition exponent (s : string) : option Z :=
  match s with
  | EmptyString => Some 0
  | String c r =>
      if Ascii.eqb (lower_char c) "e" then
        let '(neg, r1) := read_sign r in
        match digitpart r1 with
        | Some (ds, EmptyString) =>
            Some (if neg then - int_of_digits ds else int_of_digits ds)
        | _ => None
        end
      else None
  end.

(** The finite values of binary64 are below [2^1024 - 2^970] in magnitude;
    a decimal at or above it converts to an infinity. *)
Definition float_overflows (q : Q) : bool :=
  Qle_bool (inject_Z (2 ^ 1024 - 2 ^ 970)) (Qabs q).

Definition scale10 (m e : Z) : Q :=
  if 0 <=? e then inject_Z (m * 10 ^ e) else (m # Z.to_pos (10 ^ (- e)))%Q.

(** [float(s)]: [None] stands for the [ValueError] of an unparsable string. *)
Definition float_of_str (s : string) : option pyfloat :=
  let '(neg, body) := read_sign (strip s) in
  let word := lower body in
  if String.eqb word "inf" || String.eqb word "infinity" then Some (Inf neg)
  else if String.eqb word "nan" then Some NaN
  else
    match number body with
    | Some (ip, fp, r) =>
        match exponent r with
        | Some e =>
            let m := int_of_digits (ip ++ fp) in
            let q := scale10 (if neg then - m else m) (e - Z.of_nat (length fp)) in
            Some (if float_overflows q then Inf neg else Finite q)
        | None => None
        end
    | None => None
    end.

Definition float (s : string) : result pyfloat :=
  match float_of_str s with
  | Some x => Ok x
  | None => Raise ValueError
  end.

(** ** [re.search(r'\d+', s)]: the first maximal run of digits. *)
Fixpoint take_digits (s : string) : string :=
  match s with
  | String c r => if is_digit c then String c (take_digits r) else EmptyString
  | EmptyString => EmptyString
  end.

Fixpoint search_digits (s : string) : option string :=
  match s with
  | EmptyString => None
  | String c r => if is_digit c then Some (take_digits s) else search_digits r
  end.

(** ** Lists *)

(** [l[i]] with Python's negative indices. *)
Definition index {A} (l : list A) (i : Z) : result A :=
  let n := Z.of_nat (length l) in
  let j := if i <? 0 then i + n else i in
  if (j <? 0) || (n <=? j) then Raise IndexError
  else match nth_error l (Z.to_nat j) with
       | Some x => Ok x
       | None => Raise IndexError
       end.

(** [l.count(x)] on numbers, compared with [==]. *)
Definition count (x : Q) (l : list Q) : Z :=
  Z.of_nat (length (List.filter (fun y => Qeq_bool y x) l)).

Fixpoint insert_sorted (x : Q) (l : list Q) : list Q :=
  match l with
  | [] => [x]
  | y :: r => if Qle_bool y x then y :: insert_sorted x r else x :: l
  end.

(** [l.sort()]: a stable ascending sort. *)
Definition sort (l : list Q) : list Q :=
  fold_left (fun acc x => insert_sorted x acc) l [].

Definition sum (l : list Q) : Q := fold_left Qplus l 0%Q.

End Py.

(* ===================================================================== *)
(** * [hashlib.md5(...).hexdigest()] (RFC 1321) *)
(* ===================================================================== *)

Module MD5.

(** 32-bit words are [Z] masked to 32 bits after every addition and
    rotation. *)
Definition mask32 (x : Z) : Z := Z.land x 4294967295.

Definition leftrotate (x c : Z) : Z :=
  mask32 (Z.lor (Z.shiftl x c) (Z.shiftr (mask32 x) (32 - c))).

Definition s_table : list Z :=
  [7; 12; 17; 22; 7; 12; 17; 22; 7; 12; 17; 22; 7; 12; 17; 22;
   5; 9; 14; 20; 5; 9; 14; 20; 5; 9; 14; 20; 5; 9; 14; 20;
   4; 11; 16; 23; 4; 11; 16; 23; 4; 11; 16; 23; 4; 11; 16; 23;
   6; 10; 15; 21; 6; 10; 15; 21; 6; 10; 15; 21; 6; 10; 15; 21].

Definition K_table : list Z :=
  [3614090360; 3905402710; 606105819; 3250441966; 4118548399; 1200080426; 2821735955; 4249261313; 1770035416; 2336552879; 4294925233; 2304563134; 1804603682; 4254626195; 2792965006; 1236535329; 4129170786; 3225465664; 643717713; 3921069994; 3593408605; 38016083; 3634488961; 3889429448; 568446438; 3275163606; 4107603335; 1163531501; 2850285829; 4243563512; 1735328473; 2368359562; 4294588738; 2272392833; 1839030562; 4259657740; 2763975236; 1272893353; 4139469664; 3200236656; 681279174; 3936430074; 3572445317; 76029189; 3654602809; 3873151461; 530742520; 3299628645; 4096336452; 1126891415; 2878612391; 4237533241; 1700485571; 2399980690; 4293915773; 2240044497; 1873313359; 4264355552; 2734768916; 1309151649; 4149444226; 3174756917; 718787259; 3951481745].

Definition le_bytes (n : nat) (x : Z) : list Z :=
  map (fun i => Z.land (Z.shiftr x (8 * Z.of_nat i)) 255) (seq 0 n).

Fixpoint le_word (bs : list Z) : Z :=
  match bs with
  | [] => 0
  | b :: r => b + 256 * le_word r
  end.

Definition padding (len : Z) : list Z :=
  128 :: repeat 0 (Z.to_nat ((55 - len) mod 64)) ++ le_bytes 8 (Z.land (8 * len) (2 ^ 64 - 1)).

Fixpoint chunks (fuel : nat) (n : nat) (bs : list Z) : list (list Z) :=
  match fuel, bs with
  | O, _ | _, [] => []
  | S f, _ => firstn n bs :: chunks f n (skipn n bs)
  end.

Definition round_step (M : list Z) (st : Z * Z * Z * Z) (i : nat) : Z * Z * Z * Z :=
  let '(A, B, C, D) := st in
  let iz := Z.of_nat i in
  let '(F, g) :=
    if iz <? 16 then (Z.lor (Z.land B C) (Z.land (Z.lxor B 4294967295) D), iz)
    else if iz <? 32 then (Z.lor (Z.land D B) (Z.land (Z.lxor D 4294967295) C), (5 * iz + 1) mod 16)
    else if iz <? 48 then (Z.lxor (Z.lxor B C) D, (3 * iz + 5) mod 16)
    else (Z.lxor C (Z.lor B (Z.lxor D 4294967295)), (7 * iz) mod 16) in
  let F' := mask32 (F + A + nth i K_table 0 + nth (Z.to_nat g) M 0) in
  (D, mask32 (B + leftrotate F' (nth i s_table 0)), B, C).

Definition process_chunk (st : Z * Z * Z * Z) (chunk : list Z) : Z * Z * Z * Z :=
  let M := map le_word (chunks 16 4 chunk) in
  let '(a0, b0, c0, d0) := st in
  let '(A, B, C, D) := fold_left (round_step M) (seq 0 64) st in
  (mask32 (a0 + A), mask32 (b0 + B), mask32 (c0 + C), mask32 (d0 + D)).

Definition digest (msg : list Z) : list Z :=
  let padded := msg ++ padding (Z.of_nat (length msg)) in
  let '(a, b, c, d) :=
    fold_left process_chunk (chunks (length padded) 64 padded)
              (1732584193, 4023233417, 2562383102, 271733878) in
  le_bytes 4 a ++ le_bytes 4 b ++ le_bytes 4 c ++ le_bytes 4 d.

Definition hex_digit (n : Z) : ascii :=
  ascii_of_nat (Z.to_nat (if n <? 10 then 48 + n else 87 + n)).

Fixpoint hex_of_bytes (bs : list Z) : string :=
  match bs with
  | [] => EmptyString
  | b :: r => String (hex_digit (b / 16)) (String (hex_digit (b mod 16)) (hex_of_bytes r))
  end.

(** [hashlib.md5(data).hexdigest()] *)
Definition hexdigest (data : list Z) : string := hex_of_bytes (digest data).

End MD5.

(* ===================================================================== *)
(** * Data model and session *)
(* ===================================================================== *)

Import Py.

(** A requirement is the dict [{"text": ..., "weight": ..., "type": ...}];
    weight and type are the strings the code compares and looks up. *)
Record Requirement : Type := {
  req_text : string;
  req_weight : string;
  req_type : string
}.

(** A score record is the dict
    [{"requirement": ..., "score": ..., "priority": ..., "type": ...}]. *)
Record ScoreRecord : Type := {
  requirement : string;
  score : Q;
  priority : string;
  score_type : string
}.

(** A [dict] from names to score lists, in insertion order. *)
Definition ResultSet : Type := list (string * list ScoreRecord).

(** [d[k] = v]: replaces the value of an existing key in place, appends a
    new key. *)
Fixpoint dict_set (d : ResultSet) (k : string) (v : list ScoreRecord) : ResultSet :=
  match d with
  | [] => [(k, v)]
  | (k', v') :: r => if String.eqb k' k then (k, v) :: r else (k', v') :: dict_set r k v
  end.

(** What the OpenAI client gives back for one request: the text of the
    first choice, or an exception. *)
Inductive completion : Type :=
| Content (content : string)
| ClientError (msg : string).

(** [BatchProcessingTracker]'s attributes; [None] is Python's [None]. *)
Record BatchProcessingTracker : Type := {
  start_time : Q;
  total_files : Z;
  total_requirements : Z;
  total_operations : Z;
  completed_operations : Z;
  file_times : list Q;
  req_times : list Q;
  current_file_start : option Q;
  current_req_start : option Q
}.

(** The world the code runs in: the Streamlit session state it mutates
    ([score_cache], [requirements], [processing]), the tracker object the
    batch functions share by reference, and the two collaborators it
    consults, with the number of times each has been consulted.  [oracle n
    model system user] is the outcome of the request made after [n] earlier
    ones; [clock n] is the value of the [n]-th [time.time()]. *)
Record Session : Type := {
  oracle : nat -> string -> string -> string -> completion;
  oracle_calls : nat;
  clock : nat -> Q;
  clock_reads : nat;
  score_cache : gmap string Q;
  requirements : list Requirement;
  processed_files : gmap string string;
  current_results : ResultSet;
  tracker : BatchProcessingTracker
}.

Definition set_oracle_calls (n : nat) (s : Session) : Session :=
  {| oracle := oracle s; oracle_calls := n; clock := clock s;
     clock_reads := clock_reads s; score_cache := score_cache s;
     requirements := requirements s; processed_files := processed_files s;
     current_results := current_results s; tracker := tracker s |}.

Definition set_clock_reads (n : nat) (s : Session) : Session :=
  {| oracle := oracle s; oracle_calls := oracle_calls s; clock := clock s;
     clock_reads := n; score_cache := score_cache s;
     requirements := requirements s; processed_files := processed_files s;
     current_results := current_results s; tracker := tracker s |}.

Definition set_score_cache (c : gmap string Q) (s : Session) : Session :=
  {| oracle := oracle s; oracle_calls := oracle_calls s; clock := clock s;
     clock_reads := clock_reads s; score_cache := c;
     requirements := requirements s; processed_files := processed_files s;
     current_results := current_results s; tracker := tracker s |}.

Definition set_processed_files (p : gmap string string) (s : Session) : Session :=
  {| oracle := oracle s; oracle_calls := oracle_calls s; clock := clock s;
     clock_reads := clock_reads s; score_cache := score_cache s;
     requirements := requirements s; processed_files := p;
     current_results := current_results s; tracker := tracker s |}.

Definition set_current_results (r : ResultSet) (s : Session) : Session :=
  {| oracle := oracle s; oracle_calls := oracle_calls s; clock := clock s;
     clock_reads := clock_reads s; score_cache := score_cache s;
     requirements := requirements s; processed_files := processed_files s;
     current_results := r; tracker := tracker s |}.

Definition set_tracker (t : BatchProcessingTracker) (s : Session) : Session :=
  {| oracle := oracle s; oracle_calls := oracle_calls s; clock := clock s;
     clock_reads := clock_reads s; score_cache := score_cache s;
     requirements := requirements s; processed_files := processed_files s;
     current_results := current_results s; tracker := t |}.

(** ** The state-and-exception monad *)

Definition M (A : Type) : Type := Session -> result A * Session.

Definition ret {A} (a : A) : M A := fun s => (Ok a, s).

Definition bind {A B} (m : M A) (k : A -> M B) : M B :=
  fun s =>
    match m s with
    | (Ok a, s') => k a s'
    | (Raise e, s') => (Raise e, s')
    end.

Definition raise {A} (e : exn) : M A := fun s => (Raise e, s).

Definition lift {A} (r : result A) : M A := fun s => (r, s).

Definition get : M Session := fun s => (Ok s, s).

Definition modify (f : Session -> Session) : M unit := fun s => (Ok tt, f s).

(** [try: body except <catches> as e: handler e]; the handler runs in the
    state the body had reached when it raised. *)
Definition try_except {A} (body : M A) (catches : exn -> bool) (handler : exn -> M A) : M A :=
  fun s =>
    match body s with
    | (Raise e, s') => if catches e then handler e s' else (Raise e, s')
    | ok => ok
    end.

Declare Scope m_scope.
Delimit Scope m_scope with M.
Notation "x <- m ;; k" := (bind m (fun x => k))
  (at level 100, m at next level, right associativity) : m_scope.
Notation "m ;; k" := (bind m (fun _ => k))
  (at level 100, right associativity) : m_scope.
Local Open Scope m_scope.

(** [for x in l: body x], threading an accumulator. *)
Fixpoint for_each {A B} (l : list A) (acc : B) (body : B -> A -> M B) : M B :=
  match l with
  | [] => ret acc
  | x :: r => acc' <- body acc x ;; for_each r acc' body
  end.

(** [time.time()] *)
Definition time_time : M Q :=
  fun s => (Ok (clock s (clock_reads s)), set_clock_reads (S (clock_reads s)) s).

(** [client.chat.completions.create(model=..., messages=[system, user],
    temperature=0)] followed by [.choices[0].message.content]. *)
Definition chat_completions_create (model system user : string) : M string :=
  fun s =>
    let s' := set_oracle_calls (S (oracle_calls s)) s in
    match oracle s (oracle_calls s) model system user with
    | Content c => (Ok c, s')
    | ClientError msg => (Raise (APIError msg), s')
    end.

(* ===================================================================== *)
(** * [modules/ai_scoring.py] *)
(* ===================================================================== *)

Module AiScoring.

Local Open Scope string_scope.

Definition nl : string := String (ascii_of_nat 10) EmptyString.

(** [get_cache_key]; the cache of the session always exists here, which is
    what [ensure_cache_exists] sees to. *)
Definition get_cache_key (requirement : Requirement) (cv_text model : string) : string :=
  let cache_str :=
    model ++ ":" ++ req_text requirement ++ ":" ++ req_type requirement ++ ":"
    ++ req_weight requirement ++ ":" ++ slice_to 1000 cv_text in
  MD5.hexdigest (encode cache_str).

Definition scoring_type_line (requirement : Requirement) : string :=
  if String.eqb (req_type requirement) "boolean" then "Boolean (0 or 1)" else "Score (0-100)".

(** The f-string both scoring functions start from. *)
Definition prompt_body (requirement : Requirement) (cv_text : string) : string :=
  nl ++
  "    Based on the following job requirement and CV content, provide a score." ++ nl ++
  "    " ++ nl ++
  "    Requirement: " ++ req_text requirement ++ nl ++
  "    Scoring Type: " ++ scoring_type_line requirement ++ nl ++
  "    Priority: " ++ req_weight requirement ++ nl ++
  "    " ++ nl ++
  "    CV Content:" ++ nl ++
  "    " ++ slice_to 8000 cv_text ++ "  # Limiting CV content length for API" ++ nl ++
  "    " ++ nl ++
  "    Please analyze if the CV meets this requirement." ++ nl ++
  "    If scoring type is Boolean, respond with either 0 or 1." ++ nl ++
  "    If scoring type is Score, provide a score from 0 to 100." ++ nl ++
  "    Only respond with the numeric score, nothing else." ++ nl.

Definition single_prompt (requirement : Requirement) (cv_text : string) : string :=
  prompt_body requirement cv_text ++ "    ".

Definition voting_prompt (requirement : Requirement) (cv_text : string) : string :=
  prompt_body requirement cv_text ++
  "    Do not include words like 'Score:' or any other text." ++ nl ++ "    ".

Definition single_system : string :=
  "You are a CV analysis expert. Provide only numeric scores based on how well a CV matches given requirements.".

Definition voting_system : string :=
  "You are a CV analysis expert. Your job is to provide ONLY a numeric score based on how well a CV matches given requirements with no additional text or explanation.".

(** [min(100, max(0, score))]: the result is finite whatever the float (see
    [clamp_finite]), so the last branch is never taken. *)
Definition clamp_score (x : pyfloat) : Q :=
  match Py.min 100 (Py.max 0 x) with
  | Finite q => q
  | _ => 0%Q
  end.

(** [min(1, max(0, round(score)))] *)
Definition clamp_boolean (x : pyfloat) : result Q :=
  result_bind (Py.round x) (fun n => Ok (inject_Z (Z.min 1 (Z.max 0 n)))).

(** The normalisation both functions apply to a parsed score. *)
Definition normalise (requirement : Requirement) (x : pyfloat) : result Q :=
  if String.eqb (req_type requirement) "boolean" then clamp_boolean x
  else Ok (clamp_score x).

Definition cache_put (key : string) (value : Q) : M unit :=
  modify (fun s => set_score_cache (<[key := value]> (score_cache s)) s).

Definition get_openai_score (requirement : Requirement) (cv_text : string) : M Q :=
  let cache_key := get_cache_key requirement cv_text "gpt-4o-mini" in
  s <- get ;;
  match score_cache s !! cache_key with
  | Some cached => ret cached
  | None =>
      try_except
        (content <- chat_completions_create "gpt-4o-mini" single_system
                      (single_prompt requirement cv_text) ;;
         x <- lift (Py.float (strip content)) ;;
         score <- lift (normalise requirement x) ;;
         cache_put cache_key score ;;
         ret score)
        (fun e => is_ValueError e || is_Exception e)
        (fun e => if is_ValueError e then ret 0%Q else ret 0%Q)
  end.

Definition models : list string := ["gpt-4o"; "gpt-4o-mini"; "gpt-4o-2024-11-20"].

(** [0 if requirement['type'] == 'boolean' else 50] *)
Definition fallback (requirement : Requirement) : Q :=
  if String.eqb (req_type requirement) "boolean" then 0%Q else 50%Q.

(** The body of [for model in models], appending one answer to [results]. *)
Definition ask_model (requirement : Requirement) (cv_text : string)
    (results : list Q) (model : string) : M (list Q) :=
  let model_cache_key := get_cache_key requirement cv_text model in
  s <- get ;;
  match score_cache s !! model_cache_key with
  | Some cached => ret (results ++ [cached])%list
  | None =>
      try_except
        (content <- chat_completions_create model voting_system
                      (voting_prompt requirement cv_text) ;;
         let raw_response := strip content in
         match search_digits raw_response with
         | Some number_match =>
             x <- lift (Py.float number_match) ;;
             score <- lift (normalise requirement x) ;;
             cache_put model_cache_key score ;;
             ret (results ++ [score])%list
         | None => ret (results ++ [fallback requirement])%list
         end)
        is_Exception
        (fun e => ret (results ++ [fallback requirement])%list)
  end.

(** "Determine final score based on type": the reduction of the collected
    answers, lines 162-176. *)
Definition reduce_votes (requirement : Requirement) (results : list Q) : result Q :=
  if String.eqb (req_type requirement) "boolean" then
    let ones := Py.count 1 results in
    let zeros := Py.count 0 results in
    Ok (if (zeros <? ones)%Z then 1%Q else 0%Q)
  else
    let results := Py.sort results in
    let n := Z.of_nat (length results) in
    if (n mod 2 =? 0)%Z then
      result_bind (Py.index results (n / 2 - 1)) (fun a =>
      result_bind (Py.index results (n / 2)) (fun b =>
      Ok ((a + b) / 2)%Q))
    else Py.index results (n / 2).

Definition get_openai_score_with_voting (requirement : Requirement) (cv_text : string) : M Q :=
  let voting_cache_key := get_cache_key requirement cv_text "voting" in
  s <- get ;;
  match score_cache s !! voting_cache_key with
  | Some cached => ret cached
  | None =>
      results <- for_each models [] (ask_model requirement cv_text) ;;
      final_score <- lift (reduce_votes requirement results) ;;
      cache_put voting_cache_key final_score ;;
      ret final_score
  end.

End AiScoring.

(* ===================================================================== *)
(** * [modules/data_handling.py] *)
(* ===================================================================== *)

Module DataHandling.

Local Open Scope string_scope.

(** [weight_map[label]]: a label outside the dict raises [KeyError]. *)
Definition weight_map (label : string) : result Z :=
  if String.eqb label "Low" then Ok 1%Z
  else if String.eqb label "Medium" then Ok 2%Z
  else if String.eqb label "High" then Ok 3%Z
  else Raise (KeyError label).

(** The body of [for score in scores], on the two lists it appends to. *)
Definition accumulate (acc : result (list Q * list Z)) (score_rec : ScoreRecord)
    : result (list Q * list Z) :=
  result_bind acc (fun '(weighted_scores, weights) =>
  result_bind (weight_map (priority score_rec)) (fun weight =>
    let value :=
      if String.eqb (score_type score_rec) "boolean" then (score score_rec * 100)%Q
      else score score_rec in
    Ok ((weighted_scores ++ [value * inject_Z weight])%Q%list,
        (weights ++ [weight])%list))).

(** [calculate_weighted_score]; [st.cache_data] memoises a function of its
    argument alone and is left out. *)
Definition calculate_weighted_score (scores : list ScoreRecord) : result Q :=
  result_bind (fold_left accumulate scores (Ok ([], []))) (fun '(weighted_scores, weights) =>
    let total_weight := fold_left Z.add weights 0%Z in
    if (total_weight =? 0)%Z then Ok 0%Q
    else truediv (Py.sum weighted_scores) (inject_Z total_weight)).

End DataHandling.

(* ===================================================================== *)
(** * [modules/filters.py] *)
(* ===================================================================== *)

Module Filters.

Local Open Scope string_scope.

(** The [filter_params] dict. *)
Record FilterParams : Type := {
  min_score : Q;
  selected_requirements : list string;
  must_meet_all_boolean : bool
}.

Definition is_boolean (r : ScoreRecord) : bool := String.eqb (score_type r) "boolean".

(** [x in selected] on a list of strings. *)
Definition contains (selected : list string) (x : string) : bool :=
  existsb (String.eqb x) selected.

(** One iteration of [for cv_name, scores in all_results.items()]:
    [Ok None] is a [continue]. *)
Definition keep (filter_params : FilterParams) (scores : list ScoreRecord)
    : result (option (list ScoreRecord)) :=
  result_bind (DataHandling.calculate_weighted_score scores) (fun cv_score =>
    if Py.lt cv_score (min_score filter_params) then Ok None
    else
      let boolean_scores := List.filter is_boolean scores in
      if must_meet_all_boolean filter_params
         && negb (forallb (fun r => Qeq_bool (score r) 1) boolean_scores)
      then Ok None
      else
        match selected_requirements filter_params with
        | [] => Ok (Some scores)
        | _ =>
            let filtered_scores :=
              List.filter (fun r => contains (selected_requirements filter_params) (requirement r))
                          scores in
            match filtered_scores with
            | [] => Ok None
            | _ => Ok (Some filtered_scores)
            end
        end).

Definition apply_filters (all_results : ResultSet) (filter_params : FilterParams)
    : result ResultSet :=
  fold_left
    (fun acc '(cv_name, scores) =>
       result_bind acc (fun filtered_results =>
       result_bind (keep filter_params scores) (fun kept =>
         match kept with
         | Some filtered_scores => Ok (dict_set filtered_results cv_name filtered_scores)
         | None => Ok filtered_results
         end)))
    all_results (Ok []).

End Filters.

(* ===================================================================== *)
(** * [modules/pdf_processor.py] *)
(* ===================================================================== *)

Module PdfProcessor.

(** What [PdfReader] makes of a byte stream: an exception, or pages with
    their extracted text. *)
Inductive pdf_source : Type :=
| Unreadable
| Pages (texts : list string).

(** A file-like object: the bytes [read()] yields, or [None] when reading
    raises. *)
Record FileObj : Type := { content : option pdf_source }.

(** [file_obj.read()] *)
Definition read (file_obj : FileObj) : result pdf_source :=
  match content file_obj with
  | Some data => Ok data
  | None => Raise (IOError "read failed")
  end.

(** [io.BytesIO(data)] *)
Definition BytesIO (data : pdf_source) : FileObj := {| content := Some data |}.

(** [process_pdf]: every exception, of the reader or of the file read
    beneath it, ends in the empty string. *)
Definition process_pdf (pdf_file : FileObj) : string :=
  match read pdf_file with
  | Ok (Pages texts) => fold_left String.append texts EmptyString
  | Ok Unreadable => EmptyString
  | Raise _ => EmptyString
  end.

End PdfProcessor.

(* ===================================================================== *)
(** * [modules/batch_processing.py] *)
(* ===================================================================== *)

Module BatchProcessing.

Import PdfProcessor.
Local Open Scope string_scope.

(** An uploaded file: its name, its declared MIME [type], its bytes as a
    file object, and its entries when the bytes are a ZIP archive ([None]:
    [zipfile.ZipFile] raises [BadZipFile]).  An entry is a name with what
    opening it gives: a file object, or the exception [zipfile] raises for
    it (a damaged local header, an encrypted member, an unsupported
    compression method). *)
Record UploadedFile : Type := {
  name : string;
  type : string;
  file : FileObj;
  archive : option (list (string * result FileObj))
}.

(** Truth value of [self.current_file_start]: false for [None] and for
    [0.0]. *)
Definition truthy (t : option Q) : bool :=
  match t with
  | Some x => negb (Qeq_bool x 0)
  | None => false
  end.

Definition modify_tracker (f : BatchProcessingTracker -> BatchProcessingTracker) : M unit :=
  modify (fun s => set_tracker (f (tracker s)) s).

Definition get_tracker : M BatchProcessingTracker :=
  s <- get ;; ret (tracker s).

(** [BatchProcessingTracker(total_files, total_requirements)], stored as the
    session's tracker. *)
Definition init (total_files total_requirements : Z) : M unit :=
  now <- time_time ;;
  modify (set_tracker
    {| start_time := now;
       total_files := total_files;
       total_requirements := total_requirements;
       total_operations := total_files * total_requirements;
       completed_operations := 0;
       file_times := [];
       req_times := [];
       current_file_start := None;
       current_req_start := None |}).

Definition with_current_file_start (v : option Q) (t : BatchProcessingTracker) :=
  {| start_time := start_time t; total_files := total_files t;
     total_requirements := total_requirements t;
     total_operations := total_operations t;
     completed_operations := completed_operations t;
     file_times := file_times t; req_times := req_times t;
     current_file_start := v; current_req_start := current_req_start t |}.

Definition with_current_req_start (v : option Q) (t : BatchProcessingTracker) :=
  {| start_time := start_time t; total_files := total_files t;
     total_requirements := total_requirements t;
     total_operations := total_operations t;
     completed_operations := completed_operations t;
     file_times := file_times t; req_times := req_times t;
     current_file_start := current_file_start t; current_req_start := v |}.

Definition with_file_times (l : list Q) (t : BatchProcessingTracker) :=
  {| start_time := start_time t; total_files := total_files t;
     total_requirements := total_requirements t;
     total_operations := total_operations t;
     completed_operations := completed_operations t;
     file_times := l; req_times := req_times t;
     current_file_start := current_file_start t;
     current_req_start := current_req_start t |}.

Definition with_req_times (l : list Q) (t : BatchProcessingTracker) :=
  {| start_time := start_time t; total_files := total_files t;
     total_requirements := total_requirements t;
     total_operations := total_operations t;
     completed_operations := completed_operations t;
     file_times := file_times t; req_times := l;
     current_file_start := current_file_start t;
     current_req_start := current_req_start t |}.

Definition with_completed_operations (n : Z) (t : BatchProcessingTracker) :=
  {| start_time := start_time t; total_files := total_files t;
     total_requirements := total_requirements t;
     total_operations := total_operations t;
     completed_operations := n;
     file_times := file_times t; req_times := req_times t;
     current_file_start := current_file_start t;
     current_req_start := current_req_start t |}.

Definition start_file : M unit :=
  now <- time_time ;;
  modify_tracker (with_current_file_start (Some now)).

Definition complete_file : M unit :=
  t <- get_tracker ;;
  if truthy (current_file_start t) then
    now <- time_time ;;
    let elapsed := (now - default 0 (current_file_start t))%Q in
    modify_tracker (fun t =>
      with_current_file_start None (with_file_times (file_times t ++ [elapsed])%list t))
  else ret tt.

Definition start_requirement : M unit :=
  now <- time_time ;;
  modify_tracker (with_current_req_start (Some now)).

Definition complete_requirement : M unit :=
  t <- get_tracker ;;
  (if truthy (current_req_start t) then
     now <- time_time ;;
     let elapsed := (now - default 0 (current_req_start t))%Q in
     modify_tracker (fun t =>
       with_current_req_start None (with_req_times (req_times t ++ [elapsed])%list t))
   else ret tt) ;;
  modify_tracker (fun t => with_completed_operations (completed_operations t + 1) t).

Definition get_estimated_time_remaining : M string :=
  t <- get_tracker ;;
  if (completed_operations t =? 0)%Z then ret "Calculating..."
  else
    now <- time_time ;;
    let elapsed := (now - start_time t)%Q in
    rate <- lift (truediv (inject_Z (completed_operations t)) elapsed) ;;
    let remaining_operations := (total_operations t - completed_operations t)%Z in
    if Py.lt 0 rate then
      seconds_remaining <- lift (truediv (inject_Z remaining_operations) rate) ;;
      lift (str_timedelta (int_of_float seconds_remaining))
    else ret "Calculating...".

Definition get_progress_percentage : M Q :=
  t <- get_tracker ;;
  ratio <- lift (truediv (inject_Z (completed_operations t)) (inject_Z (total_operations t))) ;;
  ret (ratio * 100)%Q.

(** [f.lower().endswith('.pdf')] *)
Definition is_pdf_name (f : string) : bool := endswith_bool (lower f) ".pdf".

(** [zipfile.ZipFile(file)] *)
Definition ZipFile (f : UploadedFile) : result (list (string * result FileObj)) :=
  match archive f with
  | Some z => Ok z
  | None => Raise BadZipFile
  end.

Definition namelist (z : list (string * result FileObj)) : list string := map fst z.

(** [z.open(filename)]: the archive's directory maps a name to its last
    entry, and opening that entry returns its file object or raises its
    exception; a name that is not in the directory raises [KeyError]. *)
Definition zip_open (z : list (string * result FileObj)) (filename : string)
    : result FileObj :=
  match List.find (fun e => String.eqb (fst e) filename) (rev z) with
  | Some e => snd e
  | None => Raise (KeyError filename)
  end.

Definition count_total_files (uploaded_files : list UploadedFile) : result Z :=
  fold_left
    (fun acc f =>
       result_bind acc (fun total =>
         if String.eqb (type f) "application/zip" then
           result_bind (ZipFile f) (fun z =>
             Ok (total + Z.of_nat (length (List.filter is_pdf_name (namelist z))))%Z)
         else if String.eqb (type f) "application/pdf" then Ok (total + 1)%Z
         else Ok total))
    uploaded_files (Ok 0%Z).

(** The body of [for j, req in enumerate(st.session_state.requirements)]. *)
Definition score_requirement (use_voting_system : bool) (cv_text : string)
    (scores : list ScoreRecord) (req : Requirement) : M (list ScoreRecord) :=
  start_requirement ;;
  score <- (if use_voting_system
            then AiScoring.get_openai_score_with_voting req cv_text
            else AiScoring.get_openai_score req cv_text) ;;
  let scores :=
    (scores ++ [ {| requirement := req_text req; score := score;
                    priority := req_weight req; score_type := req_type req |} ])%list in
  complete_requirement ;;
  ret scores.

(** "Extract text from PDF": the bytes of an archive member are read first,
    outside [process_pdf]. *)
Definition extract_text (file_obj : FileObj) (is_zip : bool) : M string :=
  if is_zip then
    pdf_bytes <- lift (read file_obj) ;;
    ret (process_pdf (BytesIO pdf_bytes))
  else ret (process_pdf file_obj).

(** The branch [if cv_text:], up to its [return scores]. *)
Definition score_file (filename cv_text : string) (use_voting_system : bool)
    : M (list ScoreRecord) :=
  modify (fun s => set_processed_files (<[filename := cv_text]> (processed_files s)) s) ;;
  s <- get ;;
  scores <- for_each (requirements s) [] (score_requirement use_voting_system cv_text) ;;
  complete_file ;;
  ret scores.

(** [process_single_file], run on the session's tracker; [None] is the
    [return None] after the [try]. *)
Definition process_single_file (filename : string) (file_obj : FileObj)
    (is_zip use_voting_system : bool) : M (option (list ScoreRecord)) :=
  start_file ;;
  attempt <-
    try_except
      (cv_text <- extract_text file_obj is_zip ;;
       if negb (String.eqb cv_text "") then
         scores <- score_file filename cv_text use_voting_system ;;
         ret (Some scores)
       else ret None)
      is_Exception
      (fun e => ret None) ;;
  match attempt with
  | Some scores => ret (Some scores)
  | None => complete_file ;; ret None
  end.

(** A list is true when it is not empty. *)
Definition nonempty {A} (r : option (list A)) : option (list A) :=
  match r with
  | Some (x :: l) => Some (x :: l)
  | _ => None
  end.

(** The body of [for i, filename in enumerate(pdf_files)]. *)
Definition process_member (z : list (string * result FileObj))
    (use_voting_system background_processing : bool)
    (state : ResultSet * Z * Z) (filename : string) : M (ResultSet * Z * Z) :=
  let '(all_results, file_counter_value, i) := state in
  file_obj <- lift (zip_open z filename) ;;
  result <- process_single_file filename file_obj true use_voting_system ;;
  all_results <-
    match nonempty result with
    | Some result =>
        modify (fun s => set_current_results (dict_set (current_results s) filename result) s) ;;
        if background_processing && (i mod 2 =? 0)%Z && (0 <? i)%Z
        then raise RerunException
        else ret (dict_set all_results filename result)
    | None => ret all_results
    end ;;
  ret (all_results, (file_counter_value + 1)%Z, (i + 1)%Z).

(** The body of [for file_idx, uploaded_file in enumerate(uploaded_files)]. *)
Definition process_upload (use_voting_system background_processing : bool)
    (state : ResultSet * Z) (uploaded_file : UploadedFile) : M (ResultSet * Z) :=
  let '(all_results, file_counter_value) := state in
  if String.eqb (type uploaded_file) "application/zip" then
    z <- lift (ZipFile uploaded_file) ;;
    let pdf_files := List.filter is_pdf_name (namelist z) in
    out <- for_each pdf_files (all_results, file_counter_value, 0%Z)
             (process_member z use_voting_system background_processing) ;;
    ret (fst out)
  else if String.eqb (type uploaded_file) "application/pdf" then
    result <- process_single_file (name uploaded_file) (file uploaded_file)
                false use_voting_system ;;
    all_results <-
      match nonempty result with
      | Some result =>
          modify (fun s =>
            set_current_results (dict_set (current_results s) (name uploaded_file) result) s) ;;
          ret (dict_set all_results (name uploaded_file) result)
      | None => ret all_results
      end ;;
    ret (all_results, (file_counter_value + 1)%Z)
  else ret (all_results, file_counter_value).

Definition process_files (uploaded_files : list UploadedFile)
    (use_voting_system background_processing : bool) : M ResultSet :=
  out <- for_each uploaded_files ([], 0%Z)
           (process_upload use_voting_system background_processing) ;;
  ret (fst out).

End BatchProcessing.

(* ===================================================================== *)
(** * [modules/data_handling.py], continued *)
(* ===================================================================== *)

Module DataHandlingMore.

Import PdfProcessor BatchProcessing.
Local Open Scope string_scope.

(** [sum(1 for score in scores if test(score))] *)
Definition count_if (test : ScoreRecord -> bool) (scores : list ScoreRecord) : Z :=
  Z.of_nat (length (List.filter test scores)).

Definition is_type (label : string) (r : ScoreRecord) : bool := String.eqb (score_type r) label.

(** [get_requirement_stats]: the tuple [(boolean_reqs, met_boolean,
    score_reqs, high_scores, score_based_avg)]. *)
Definition get_requirement_stats (scores : list ScoreRecord) : result (Z * Z * Z * Z * Q) :=
  let boolean_reqs := count_if (is_type "boolean") scores in
  let score_reqs := (Z.of_nat (length scores) - boolean_reqs)%Z in
  let met_boolean :=
    count_if (fun r => is_type "boolean" r && Qeq_bool (score r) 1) scores in
  let high_scores :=
    count_if (fun r => is_type "score" r && Qle_bool 70 (score r)) scores in
  result_bind
    (if (0 <? score_reqs)%Z then
       truediv (Py.sum (map score (List.filter (is_type "score") scores)))
               (inject_Z score_reqs)
     else Ok 0%Q)
    (fun score_based_avg =>
       Ok (boolean_reqs, met_boolean, score_reqs, high_scores, score_based_avg)).

(** The body of [for filename in z.namelist()]. *)
Definition collect_pdf (z : list (string * result FileObj))
    (acc : result (list (string * FileObj))) (filename : string)
    : result (list (string * FileObj)) :=
  result_bind acc (fun pdf_files =>
    if is_pdf_name filename then
      result_bind (zip_open z filename) (fun pdf_file =>
      result_bind (read pdf_file) (fun data =>
        Ok (pdf_files ++ [(filename, BytesIO data)])%list))
    else Ok pdf_files).

(** [get_pdfs_from_zip] *)
Definition get_pdfs_from_zip (zip_file : UploadedFile) : result (list (string * FileObj)) :=
  result_bind (ZipFile zip_file) (fun z =>
    fold_left (collect_pdf z) (namelist z) (Ok [])).

End DataHandlingMore.

(* ===================================================================== *)
(** * [app.py] *)
(* ===================================================================== *)

Module App.

Local Open Scope string_scope.

(** The [risk_indicators] dict. *)
Record RiskIndicators : Type := {
  low_score_requirements : Z;
  boolean_failures : Z;
  overall_risk_level : string
}.

(** [CVScoringApplication._assess_candidate_risk] *)
Definition assess_candidate_risk (scores : list ScoreRecord) : RiskIndicators :=
  let low := DataHandlingMore.count_if (fun r => Py.lt (score r) 40) scores in
  let failures :=
    DataHandlingMore.count_if
      (fun r => DataHandlingMore.is_type "boolean" r && Qeq_bool (score r) 0) scores in
  {| low_score_requirements := low;
     boolean_failures := failures;
     overall_risk_level :=
       if (2 <? low)%Z then "High"
       else if (1 <? failures)%Z then "High"
       else if (0 <? low)%Z then "Medium"
       else "Low" |}.

End App.

(* ===================================================================== *)
(** * [modules/skill_verification.py] *)
(* ===================================================================== *)

Module SkillVerification.

Local Open Scope string_scope.

(** Two characters match under [re.IGNORECASE]. *)
Definition same_letter (a b : ascii) : bool := Ascii.eqb (lower_char a) (lower_char b).

(** The escaped pattern, a literal, matches at the start of the text. *)
Fixpoint matches_here (pattern text : string) : bool :=
  match pattern, text with
  | EmptyString, _ => true
  | String p ps, String t ts => same_letter p t && matches_here ps ts
  | String _ _, EmptyString => false
  end.

(** [pattern.search(text)] is not [None]. *)
Fixpoint search (pattern text : string) : bool :=
  matches_here pattern text
  || match text with
     | EmptyString => false
     | String _ rest => search pattern rest
     end.

(** [len(re.findall(pattern, text))]: the matches are taken left to right
    and do not overlap; [skip] counts the characters of the last match that
    are still to be passed. *)
Fixpoint findall_count (pattern text : string) (skip : nat) {struct text} : nat :=
  match text with
  | EmptyString =>
      match skip with
      | O => if matches_here pattern EmptyString then 1 else 0
      | S _ => 0
      end
  | String _ rest =>
      match skip with
      | S k => findall_count pattern rest k
      | O =>
          if matches_here pattern text
          then S (findall_count pattern rest (String.length pattern - 1))
          else findall_count pattern rest 0
      end
  end.

Fixpoint starts_with (needle haystack : string) : bool :=
  match needle, haystack with
  | EmptyString, _ => true
  | String n ns, String h hs => Ascii.eqb n h && starts_with ns hs
  | String _ _, EmptyString => false
  end.

(** [needle in haystack] *)
Fixpoint contains (needle haystack : string) : bool :=
  starts_with needle haystack
  || match haystack with
     | EmptyString => false
     | String _ rest => contains needle rest
     end.

(** [any(word in text for word in words)] *)
Definition any_in (words : list string) (text : string) : bool :=
  existsb (fun word => contains word text) words.

(** The two word lists of [_basic_skill_check]. *)
Definition context_words : list string :=
  ["experience"; "worked"; "project"; "developed"; "implemented"].

Definition related_words : list string := ["expertise"; "specialized"; "proficient"].

(** [SkillVerificationEngine._basic_skill_check] *)
Definition basic_skill_check (skill cv_text : string) : Z :=
  let factors :=
    [ if search skill cv_text then 50 else 0;
      if any_in context_words (lower cv_text) then 20 else 0;
      if (1 <? findall_count skill cv_text 0)%nat then 10 else 0;
      if any_in related_words (lower cv_text) then 10 else 0 ]%Z in
  Z.min (fold_left Z.add factors 0%Z) 100.




End SkillVerification.


(* ===================================================================== *)
(** * The specification's notions *)
(* ===================================================================== *)

(** What the specification says in words, written independently of the
    code above, to be compared with it. *)
Module Spec.

Import Filters PdfProcessor BatchProcessing.
Local Open Scope string_scope.

(** ** Weighted composite (section 4.4) *)

Definition valid_priority (label : string) : Prop :=
  label = "Low" \/ label = "Medium" \/ label = "High".

Definition weight (label : string) : Z :=
  if String.eqb label "Low" then 1%Z
  else if String.eqb label "Medium" then 2%Z
  else if String.eqb label "High" then 3%Z
  else 0%Z.

Definition value (r : ScoreRecord) : Q :=
  if String.eqb (score_type r) "boolean" then (score r * 100)%Q else score r.

Fixpoint weighted_total (scores : list ScoreRecord) : Q :=
  match scores with
  | [] => 0%Q
  | r :: rest => (value r * inject_Z (weight (priority r)) + weighted_total rest)%Q
  end.

Fixpoint weight_total (scores : list ScoreRecord) : Z :=
  match scores with
  | [] => 0%Z
  | r :: rest => (weight (priority r) + weight_total rest)%Z
  end.

Definition composite (scores : list ScoreRecord) : Q :=
  if (weight_total scores =? 0)%Z then 0%Q
  else (weighted_total scores / inject_Z (weight_total scores))%Q.

(** ** Median (section 4.3) *)

(** The median of a list of numbers: the middle element of a sorted
    rearrangement, or the mean of its two middle elements. *)
Definition is_median (l : list Q) (m : Q) : Prop :=
  exists s,
    Permutation s l /\ Sorted Qle s /\
    let n := length s in
    (m == if Nat.even n
          then (nth (n / 2 - 1) s 0 + nth (n / 2) s 0) / 2
          else nth (n / 2) s 0)%Q.

(** ** Filter conditions (section 4.6) *)

(** The records of [scores] whose requirement text is selected. *)
Definition projection (selected : list string) (scores : list ScoreRecord) : list ScoreRecord :=
  List.filter (fun r => if in_dec string_dec (requirement r) selected then true else false) scores.

(** Every boolean-type record equals 1. *)
Definition meets_all_boolean (scores : list ScoreRecord) : Prop :=
  Forall (fun r => score_type r = "boolean" -> (score r == 1)%Q) scores.

(** The three conditions under which a document is kept, and the records it
    is kept with. *)
Definition kept (p : FilterParams) (scores recs : list ScoreRecord) : Prop :=
  (exists composite,
     DataHandling.calculate_weighted_score scores = Ok composite /\
     (min_score p <= composite)%Q) /\
  (must_meet_all_boolean p = true -> meets_all_boolean scores) /\
  (selected_requirements p = [] -> recs = scores) /\
  (selected_requirements p <> [] ->
     recs = projection (selected_requirements p) scores /\ recs <> []).

(** ** Documents that yield text (section 4.5) *)

(** A document whose extraction neither raises nor comes back empty. *)
Definition has_text (f : FileObj) : bool := negb (String.eqb (process_pdf f) "").

Definition member_has_text (z : list (string * result FileObj)) (filename : string) : bool :=
  match zip_open z filename with
  | Ok f => has_text f
  | Raise _ => false
  end.

(** The number of documents of one upload that yield text. *)
Definition successes_in (u : UploadedFile) : Z :=
  if String.eqb (type u) "application/zip" then
    match archive u with
    | Some z => Z.of_nat (length (List.filter (member_has_text z)
                                   (List.filter is_pdf_name (namelist z))))
    | None => 0
    end
  else if String.eqb (type u) "application/pdf" then
    (if has_text (file u) then 1 else 0)
  else 0.

Definition successes (uploaded_files : list UploadedFile) : Z :=
  fold_right Z.add 0 (map successes_in uploaded_files).

End Spec.

(* ===================================================================== *)
(** * Notions used in the proofs *)
(* ===================================================================== *)

(** The session after one oracle request. *)
Definition asked (s : Session) : Session := set_oracle_calls (S (oracle_calls s)) s.

(** The reply the single-model oracle gives in [s] to the question about
    [requirement] and [cv_text]. *)
Definition single_reply (requirement : Requirement) (cv_text : string) (s : Session)
    : completion :=
  oracle s (oracle_calls s) "gpt-4o-mini"%string AiScoring.single_system
         (AiScoring.single_prompt requirement cv_text).

(** The oracle answers with a text that parses and normalises to [v]. *)
Definition answers (requirement : Requirement) (cv_text : string) (s : Session) (v : Q)
    : Prop :=
  exists content x,
    single_reply requirement cv_text s = Content content /\
    float_of_str (strip content) = Some x /\
    AiScoring.normalise requirement x = Ok v.

(** The oracle raises, or its reply is not a number, or the number cannot be
    rounded. *)
Definition falls_back (requirement : Requirement) (cv_text : string) (s : Session)
    : Prop :=
  match single_reply requirement cv_text s with
  | ClientError _ => True
  | Content content =>
      match float_of_str (strip content) with
      | None => True
      | Some x => exists e, AiScoring.normalise requirement x = Raise e
      end
  end.

(** [advances k s s']: from [s] to [s'] the requirement list and the
    operation total are unchanged and the completed-operations counter has
    grown by [k]. *)
Definition advances (k : Z) (s s' : Session) : Prop :=
  requirements s' = requirements s /\
  total_operations (tracker s') = total_operations (tracker s) /\
  completed_operations (tracker s') = completed_operations (tracker s) + k.

(** [completes m s k]: run from [s], [m] returns normally and advances the
    counter by [k]. *)
Definition completes {A} (m : M A) (s : Session) (k : Z) : Prop :=
  exists a s', m s = (Ok a, s') /\ advances k s s'.

(** The loop body of [apply_filters]. *)
Definition filter_step (p : Filters.FilterParams) :=
  fun (acc : result ResultSet) '(cv_name, scores) =>
    result_bind acc (fun filtered_results =>
    result_bind (Filters.keep p scores) (fun o =>
      match o with
      | Some filtered_scores => Ok (dict_set filtered_results cv_name filtered_scores)
      | None => Ok filtered_results
      end)).

(** [z.open(filename)] returns a file object. *)
Definition member_opens (z : list (string * result PdfProcessor.FileObj))
    (filename : string) : bool :=
  match BatchProcessing.zip_open z filename with
  | Ok _ => true
  | Raise _ => false
  end.

(** Every PDF-named member of the upload opens, when the upload is an
    archive that opens (nothing is asked of the other uploads). *)
Definition upload_members_open (u : BatchProcessing.UploadedFile) : bool :=
  if String.eqb (BatchProcessing.type u) "application/zip" then
    match BatchProcessing.archive u with
    | Some z => forallb (member_opens z)
                        (List.filter BatchProcessing.is_pdf_name (BatchProcessing.namelist z))
    | None => true
    end
  else true.

(** Every PDF-named member of every archive among the uploads opens. *)
Definition members_open (uploaded_files : list BatchProcessing.UploadedFile) : Prop :=
  Forall (fun u => upload_members_open u = true) uploaded_files.


(** ** Notions for the further properties *)

(** Every cached value is a percentage. *)
Definition cache_in_range (c : gmap string Q) : Prop :=
  forall k v, c !! k = Some v -> (0 <= v <= 100)%Q.

(** A value of the range the requirement's type asks for: 0 or 1 for a
    boolean requirement, 0 to 100 otherwise. *)
Definition in_type_range (requirement : Requirement) (v : Q) : Prop :=
  if String.eqb (req_type requirement) "boolean" then v = 0%Q \/ v = 1%Q
  else (0 <= v <= 100)%Q.

(** [scoring_step k s s']: from [s] to [s'] only the cache and the request
    count have changed; the cache has only gained entries, at most [k]
    requests were made, and a cache of percentages stays one. *)
Definition scoring_step (k : nat) (s s' : Session) : Prop :=
  (oracle s' = oracle s /\ clock s' = clock s /\ clock_reads s' = clock_reads s /\
   requirements s' = requirements s /\ processed_files s' = processed_files s /\
   current_results s' = current_results s /\ tracker s' = tracker s) /\
  score_cache s ⊆ score_cache s' /\
  (oracle_calls s <= oracle_calls s' <= oracle_calls s + k)%nat /\
  (cache_in_range (score_cache s) -> cache_in_range (score_cache s')).

(** [runs m s Q]: run from [s], [m] returns normally with a value and a
    session that satisfy [Q]. *)
Definition runs {A} (m : M A) (s : Session) (Q : A -> Session -> Prop) : Prop :=
  exists a s', m s = (Ok a, s') /\ Q a s'.

(** One record per requirement, in the order of the requirements, with the
    requirement's text, weight and type. *)
Definition shaped (reqs : list Requirement) (scores : list ScoreRecord) : Prop :=
  Forall2 (fun req r =>
             requirement r = req_text req /\ priority r = req_weight req /\
             score_type r = req_type req)
          reqs scores.

(** The number of oracle requests one requirement can cost. *)
Definition requests_per_requirement (use_voting_system : bool) : Z :=
  if use_voting_system then 3 else 1.

(** [batch_step k s s']: the collaborators and the requirements are those
    of [s], the cache has only gained entries, and at most [k] requests were
    made. *)
Definition batch_step (k : Z) (s s' : Session) : Prop :=
  oracle s' = oracle s /\ clock s' = clock s /\ requirements s' = requirements s /\
  score_cache s ⊆ score_cache s' /\
  Z.of_nat (oracle_calls s) <= Z.of_nat (oracle_calls s') <= Z.of_nat (oracle_calls s) + k.

(** The tracker's methods and the session's bookkeeping ask nothing and
    touch neither cache nor results. *)
Definition quiet (s s' : Session) : Prop :=
  batch_step 0 s s' /\ current_results s' = current_results s /\
  processed_files s' = processed_files s /\ oracle_calls s' = oracle_calls s.


(** The names of the documents of one upload that yield text, in the order
    the batch meets them. *)
Definition text_names_in (u : BatchProcessing.UploadedFile) : list string :=
  if String.eqb (BatchProcessing.type u) "application/zip" then
    match BatchProcessing.archive u with
    | Some z => List.filter (Spec.member_has_text z)
                            (List.filter BatchProcessing.is_pdf_name (BatchProcessing.namelist z))
    | None => []
    end
  else if String.eqb (BatchProcessing.type u) "application/pdf" then
    (if Spec.has_text (BatchProcessing.file u) then [BatchProcessing.name u] else [])
  else [].

Definition text_names (uploaded_files : list BatchProcessing.UploadedFile) : list string :=
  flat_map text_names_in uploaded_files.

(** What holds of the results and the session while a batch started in [s0]
    runs, after the documents named [names] have yielded text: the requests
    made stay within [per_document] for each of them, the results are a
    dictionary of non-empty, well-shaped score lists for exactly these names
    (for none when there is no requirement), the session's current results
    mirror them, and the text of each is kept. *)
Definition batch_inv (s0 : Session) (per_document : Z) (names : list string)
    (all_results : ResultSet) (s : Session) : Prop :=
  batch_step (per_document * Z.of_nat (length names)) s0 s /\
  List.NoDup (map fst all_results) /\
  Forall (fun doc => shaped (requirements s0) (snd doc) /\ snd doc <> []) all_results /\
  (forall n, In n (map fst all_results) -> In n names) /\
  (requirements s0 <> [] -> forall n, In n names -> In n (map fst all_results)) /\
  (current_results s0 = [] -> current_results s = all_results) /\
  (forall n, In n names -> exists t, processed_files s !! n = Some t /\ t <> ""%string).

(** The documents the filter keeps, in the order of the input, each with the
    records it is kept with. *)
Definition kept_documents (p : Filters.FilterParams) (all_results : ResultSet) : ResultSet :=
  flat_map (fun doc => match Filters.keep p (snd doc) with
                       | Ok (Some recs) => [(fst doc, recs)]
                       | _ => []
                       end)
           all_results.

(** The filter state the interface starts from and resets to. *)
Definition no_filter : Filters.FilterParams :=
  {| Filters.min_score := 0; Filters.selected_requirements := [];
     Filters.must_meet_all_boolean := false |}.

(** A record on the scale its type asks for: a boolean score between 0 and
    1, a score between 0 and 100. *)
Definition on_scale (r : ScoreRecord) : Prop :=
  if String.eqb (score_type r) "boolean" then (0 <= score r <= 1)%Q
  else (0 <= score r <= 100)%Q.

(** The bytes of the archive member that [z.open(filename)] gives, when it
    can be read. *)
Definition member_content (z : list (string * result PdfProcessor.FileObj))
    (filename : string)
    : option PdfProcessor.pdf_source :=
  match BatchProcessing.zip_open z filename with
  | Ok f => PdfProcessor.content f
  | Raise _ => None
  end.

(** Every upload declared as a ZIP archive opens as one. *)
Definition archives_open (uploaded_files : list BatchProcessing.UploadedFile) : Prop :=
  Forall (fun u => String.eqb (BatchProcessing.type u) "application/zip" = true ->
                   BatchProcessing.archive u <> None)
         uploaded_files.

(** The number of documents of one upload, as the batch will meet them. *)
Definition documents_in (u : BatchProcessing.UploadedFile) : Z :=
  if String.eqb (BatchProcessing.type u) "application/zip" then
    match BatchProcessing.archive u with
    | Some z => Z.of_nat (length (List.filter BatchProcessing.is_pdf_name
                                              (BatchProcessing.namelist z)))
    | None => 0
    end
  else if String.eqb (BatchProcessing.type u) "application/pdf" then 1
  else 0.

(** Either scoring function. *)
Definition score_with (use_voting_system : bool) : Requirement -> string -> M Q :=
  if use_voting_system then AiScoring.get_openai_score_with_voting
  else AiScoring.get_openai_score.


(* ===================================================================== *)
(** * Sample sessions, oracles and uploads *)
(* ===================================================================== *)

Module Sample.

Import PdfProcessor BatchProcessing.
Local Open Scope string_scope.

Definition python_required : Requirement :=
  {| req_text := "Python"; req_weight := "High"; req_type := "boolean" |}.

Definition sql_level : Requirement :=
  {| req_text := "SQL"; req_weight := "Low"; req_type := "score" |}.

Definition idle_tracker : BatchProcessingTracker :=
  {| start_time := 0; total_files := 0; total_requirements := 0;
     total_operations := 0; completed_operations := 0;
     file_times := []; req_times := [];
     current_file_start := None; current_req_start := None |}.

(** A session at its start: empty cache, nothing asked, nothing timed. *)
Definition session (o : nat -> string -> string -> string -> completion)
    (c : nat -> Q) (reqs : list Requirement) : Session :=
  {| oracle := o; oracle_calls := 0; clock := c; clock_reads := 0;
     score_cache := ∅; requirements := reqs; processed_files := ∅;
     current_results := []; tracker := idle_tracker |}.

(** An oracle that gives the same outcome to every request. *)
Definition always (c : completion) : nat -> string -> string -> string -> completion :=
  fun _ _ _ _ => c.

(** An oracle whose first request times out and whose later ones answer. *)
Definition fails_once : nat -> string -> string -> string -> completion :=
  fun n _ _ _ =>
    match n with
    | O => ClientError "timeout"
    | S _ => Content "80"
    end.

(** A clock that gains a second per reading, and one that stands still. *)
Definition ticking : nat -> Q := fun n => inject_Z (Z.of_nat n).
Definition frozen : nat -> Q := fun _ => 1000%Q.

Definition readable : FileObj :=
  {| content := Some (Pages ["Ten years of Python. "; "Daily SQL."]) |}.

Definition broken : FileObj := {| content := None |}.

(** An archive of three documents, the second of which cannot be read. *)
Definition three_cvs : UploadedFile :=
  {| name := "cvs.zip"; type := "application/zip"; file := broken;
     archive := Some [("ann.pdf", Ok readable); ("bob.pdf", Ok broken);
                      ("eve.PDF", Ok readable)] |}.

(** An archive whose two PDF members can be read; its third member is not a
    PDF by name. *)
Definition two_cvs : UploadedFile :=
  {| name := "two.zip"; type := "application/zip"; file := broken;
     archive := Some [("ann.pdf", Ok readable); ("notes.txt", Ok broken);
                      ("eve.PDF", Ok readable)] |}.

(** An archive whose second member has a damaged header: opening it raises. *)
Definition damaged_cvs : UploadedFile :=
  {| name := "damaged.zip"; type := "application/zip"; file := broken;
     archive := Some [("ann.pdf", Ok readable); ("bob.pdf", Raise BadZipFile);
                      ("eve.PDF", Ok readable)] |}.

Definition two_requirements : list Requirement := [python_required; sql_level].

(** Sessions at their start with these oracles and clocks. *)
Definition answering : Session := session (always (Content "80")) ticking two_requirements.

Definition timing_out : Session := session (always (ClientError "timeout")) ticking [].

Definition flaky : Session := session fails_once ticking [].

Definition padded : Session := session (always (Content " 80 ")) ticking [].

Definition standing : Session := session (always (Content "80")) frozen two_requirements.

(** A document text of 1000 characters followed by [tail]. *)
Definition long_cv (tail : string) : string :=
  fold_right String.append tail (repeat "0123456789" 100).

(** Two scored documents: the first meets the boolean requirement, the
    second does not. *)
Definition ann : string * list ScoreRecord :=
  ("ann.pdf",
   [ {| requirement := "Python"; score := 1; priority := "High"; score_type := "boolean" |};
     {| requirement := "SQL"; score := 50; priority := "Low"; score_type := "score" |} ]).

Definition bob : string * list ScoreRecord :=
  ("bob.pdf",
   [ {| requirement := "Python"; score := 0; priority := "Medium"; score_type := "boolean" |};
     {| requirement := "SQL"; score := 90; priority := "Low"; score_type := "score" |} ]).

Definition scored : ResultSet := [ann; bob].

Definition strict : Filters.FilterParams :=
  {| Filters.min_score := 70; Filters.selected_requirements := ["SQL"];
     Filters.must_meet_all_boolean := true |}.

Definition mislabelled : list ScoreRecord :=
  [ {| requirement := "Python"; score := 1; priority := "High"; score_type := "boolean" |};
    {| requirement := "SQL"; score := 50; priority := "Urgent"; score_type := "score" |} ].

End Sample.

(** Further sample data. *)
Module MoreSamples.

Import PdfProcessor BatchProcessing.
Local Open Scope string_scope.

(** An upload declared as an archive that does not open as one. *)
Definition not_an_archive : UploadedFile :=
  {| name := "cv.zip"; type := "application/zip"; file := Sample.readable; archive := None |}.

(** The threshold of the interface's 70+ button, nothing else set. *)
Definition seventy : Filters.FilterParams :=
  {| Filters.min_score := 70; Filters.selected_requirements := [];
     Filters.must_meet_all_boolean := false |}.

(** A candidate who meets three boolean requirements. *)
Definition all_met : list ScoreRecord :=
  [ {| requirement := "Python"; score := 1; priority := "High"; score_type := "boolean" |};
    {| requirement := "Degree"; score := 1; priority := "Medium"; score_type := "boolean" |};
    {| requirement := "English"; score := 1; priority := "Low"; score_type := "boolean" |} ].

(** A result set with a mislabelled document after a well-labelled one. *)
Definition with_mislabelled : ResultSet := [Sample.ann; ("eve.pdf", Sample.mislabelled)].


(** The sessions two batches end in: one with a ticking clock and every
    document read, one with a clock that stands still. *)
Definition finished : Session :=
  snd ((init 2 2 ;; process_files [Sample.two_cvs] false false) Sample.answering).

Definition finished_at_once : Session :=
  snd ((init 3 2 ;; process_files [Sample.three_cvs] false false) Sample.standing).

End MoreSamples.

(* ===================================================================== *)
(** * Properties *)
(* ===================================================================== *)

Local Open Scope Z_scope.
Local Open Scope m_scope.

(** ** The runtime model on known values *)

Section Runtime.

Local Open Scope string_scope.

Example md5_of_empty : MD5.hexdigest (encode "") = "d41d8cd98f00b204e9800998ecf8427e".
Proof. vm_compute. reflexivity. Qed.

Example md5_of_abc : MD5.hexdigest (encode "abc") = "900150983cd24fb0d6963f7d28e17f72".
Proof. vm_compute. reflexivity. Qed.

Example md5_of_two_blocks :
  MD5.hexdigest (encode (fold_right String.append "" (repeat "a" 200)))
  = "887f30b43b2867f4a9accceee7d16e6c".
Proof. vm_compute. reflexivity. Qed.

Example md5_of_utf8 :
  MD5.hexdigest (encode ("caf" ++ String (ascii_of_nat 233) ""))
  = "07117fe4a1ebd544965dc19573183da2".
Proof. vm_compute. reflexivity. Qed.

Example float_of_padded : float_of_str " 85 " = Some (Finite 85).
Proof. reflexivity. Qed.

Example float_of_grouped : float_of_str "8_5.5e1" = Some (Finite 855).
Proof. reflexivity. Qed.

Example float_of_fraction : float_of_str "-.5" = Some (Finite (-5 # 10)).
Proof. reflexivity. Qed.

Example float_of_words : float_of_str "Score: 85" = None.
Proof. reflexivity. Qed.

Example float_of_infinity : float_of_str "-Infinity" = Some (Inf true).
Proof. reflexivity. Qed.

Example float_of_nan : float_of_str "nan" = Some NaN.
Proof. reflexivity. Qed.

Example float_of_huge : float_of_str "1e400" = Some (Inf false).
Proof. vm_compute. reflexivity. Qed.

Example search_digits_first_run : search_digits "Score: 85/100" = Some "85".
Proof. reflexivity. Qed.

Example round_ties_to_even :
  map round_half_even [1 # 2; 3 # 2; 5 # 2; -1 # 2; 26 # 10]%Q = [0; 2; 2; 0; 3]%Z.
Proof. reflexivity. Qed.

Example str_timedelta_samples :
  map str_timedelta [0; 3661; 86400; 200000; -1]%Z
  = [Ok "0:00:00"; Ok "1:01:01"; Ok "1 day, 0:00:00"; Ok "2 days, 7:33:20";
     Ok "-1 day, 23:59:59"].
Proof. vm_compute. reflexivity. Qed.

Example index_from_the_end : Py.index [1; 2; 3]%Z (-1) = Ok 3%Z.
Proof. reflexivity. Qed.

Example index_of_empty : Py.index (@nil Z) (-1) = Raise IndexError.
Proof. reflexivity. Qed.

End Runtime.

(** ** The weighted aggregator *)

Section WeightedScore.

Import DataHandling.

Lemma weight_map_valid label :
  Spec.valid_priority label -> weight_map label = Ok (Spec.weight label).
Proof.
  intros [-> | [-> | ->]]; reflexivity.
Qed.

Lemma weight_map_invalid label :
  ~ Spec.valid_priority label -> weight_map label = Raise (KeyError label).
Proof.
  intros H. unfold weight_map.
  destruct (String.eqb_spec label "Low") as [-> | _].
  { exfalso. apply H. left. reflexivity. }
  destruct (String.eqb_spec label "Medium") as [-> | _].
  { exfalso. apply H. right. left. reflexivity. }
  destruct (String.eqb_spec label "High") as [-> | _].
  { exfalso. apply H. right. right. reflexivity. }
  reflexivity.
Qed.

Lemma valid_priority_dec label :
  {Spec.valid_priority label} + {~ Spec.valid_priority label}.
Proof.
  unfold Spec.valid_priority.
  destruct (string_dec label "Low"); [left; tauto |].
  destruct (string_dec label "Medium"); [left; tauto |].
  destruct (string_dec label "High"); [left; tauto |].
  right. tauto.
Qed.

Lemma weight_positive label : Spec.valid_priority label -> 0 < Spec.weight label.
Proof. intros [-> | [-> | ->]]; reflexivity. Qed.

Lemma accumulate_raise scores e :
  fold_left accumulate scores (Raise e) = Raise e.
Proof. induction scores as [| r rest IH]; simpl; auto. Qed.

(** The loop appends, record by record, the weighted value and the weight. *)
Lemma accumulate_valid scores :
  Forall (fun r => Spec.valid_priority (priority r)) scores ->
  forall weighted_scores weights,
    fold_left accumulate scores (Ok (weighted_scores, weights)) =
    Ok (weighted_scores ++ map (fun r => (Spec.value r * inject_Z (Spec.weight (priority r)))%Q) scores,
        weights ++ map (fun r => Spec.weight (priority r)) scores).
Proof.
  induction 1 as [| r rest Hr _ IH]; intros ws wts; simpl.
  - now rewrite !app_nil_r.
  - rewrite (weight_map_valid _ Hr). simpl.
    rewrite IH, <- !app_assoc. reflexivity.
Qed.

Lemma sum_from (l : list Q) (a : Q) :
  (fold_left Qplus l a == a + fold_left Qplus l 0)%Q.
Proof.
  revert a. induction l as [| x l IH]; intros a; simpl.
  - ring.
  - rewrite IH, (IH (0 + x)%Q). ring.
Qed.

Lemma sum_weighted scores :
  (Py.sum (map (fun r => (Spec.value r * inject_Z (Spec.weight (priority r)))%Q) scores)
   == Spec.weighted_total scores)%Q.
Proof.
  unfold Py.sum. induction scores as [| r rest IH]; simpl.
  - reflexivity.
  - rewrite sum_from, IH. ring.
Qed.

Lemma sum_weights_from (l : list Z) (a : Z) :
  fold_left Z.add l a = a + fold_left Z.add l 0.
Proof.
  revert a. induction l as [| x l IH]; intros a; simpl.
  - lia.
  - rewrite IH, (IH (0 + x)). lia.
Qed.

Lemma sum_weights scores :
  fold_left Z.add (map (fun r => Spec.weight (priority r)) scores) 0
  = Spec.weight_total scores.
Proof.
  induction scores as [| r rest IH]; simpl.
  - reflexivity.
  - rewrite sum_weights_from, IH. reflexivity.
Qed.

Lemma truediv_nonzero (a : Q) (b : Z) :
  b <> 0 -> truediv a (inject_Z b) = Ok (a / inject_Z b)%Q.
Proof.
  intros Hb. unfold truediv.
  destruct (Qeq_bool (inject_Z b) 0) eqn:E; [| reflexivity].
  apply Qeq_bool_eq in E. unfold Qeq in E. simpl in E. lia.
Qed.

Lemma calculate_weighted_score_valid scores :
  Forall (fun r => Spec.valid_priority (priority r)) scores ->
  exists q, calculate_weighted_score scores = Ok q /\ (q == Spec.composite scores)%Q.
Proof.
  intros Hvalid. unfold calculate_weighted_score, Spec.composite.
  rewrite (accumulate_valid _ Hvalid). simpl.
  rewrite sum_weights.
  destruct (Spec.weight_total scores =? 0) eqn:E.
  - exists 0%Q. split; reflexivity.
  - apply Z.eqb_neq in E. rewrite (truediv_nonzero _ _ E).
    eexists. split; [reflexivity |].
    rewrite sum_weighted. reflexivity.
Qed.

Lemma calculate_weighted_score_invalid scores :
  Exists (fun r => ~ Spec.valid_priority (priority r)) scores ->
  exists label, ~ Spec.valid_priority label /\
    calculate_weighted_score scores = Raise (KeyError label).
Proof.
  unfold calculate_weighted_score.
  generalize (@nil Q) (@nil Z).
  induction scores as [| r rest IH]; intros ws wts Hex.
  - inversion Hex.
  - simpl. destruct (valid_priority_dec (priority r)) as [Hv | Hn].
    + rewrite (weight_map_valid _ Hv). simpl.
      apply IH. inversion Hex; subst; [contradiction | assumption].
    + rewrite (weight_map_invalid _ Hn). simpl.
      rewrite accumulate_raise. simpl. eauto.
Qed.

End WeightedScore.

(** ** The vote reduction *)

Section Voting.

Import AiScoring.

Lemma insert_sorted_perm x l : Permutation (insert_sorted x l) (x :: l).
Proof.
  induction l as [| y r IH]; simpl.
  - reflexivity.
  - destruct (Qle_bool y x).
    + rewrite IH. apply perm_swap.
    + reflexivity.
Qed.

Lemma insert_sorted_hd x y l :
  (y <= x)%Q -> HdRel Qle y l -> HdRel Qle y (insert_sorted x l).
Proof.
  intros Hyx Hhd. destruct l as [| z r]; simpl.
  - constructor. exact Hyx.
  - destruct (Qle_bool z x); constructor.
    + inversion Hhd; assumption.
    + exact Hyx.
Qed.

Lemma insert_sorted_sorted x l : Sorted Qle l -> Sorted Qle (insert_sorted x l).
Proof.
  induction 1 as [| y r Hs IH Hhd]; simpl.
  - repeat constructor.
  - destruct (Qle_bool y x) eqn:E.
    + constructor; [exact IH |].
      apply insert_sorted_hd; [now apply Qle_bool_iff | exact Hhd].
    + constructor; [constructor; assumption |].
      constructor. apply Qlt_le_weak, Qnot_le_lt.
      intros Hle. apply Qle_bool_iff in Hle. congruence.
Qed.

Lemma sort_from_perm l acc :
  Permutation (fold_left (fun a x => insert_sorted x a) l acc) (acc ++ l).
Proof.
  revert acc. induction l as [| x r IH]; intros acc; simpl.
  - now rewrite app_nil_r.
  - rewrite IH, insert_sorted_perm. apply Permutation_middle.
Qed.

Lemma sort_from_sorted l acc :
  Sorted Qle acc -> Sorted Qle (fold_left (fun a x => insert_sorted x a) l acc).
Proof.
  revert acc. induction l as [| x r IH]; intros acc Hacc; simpl.
  - exact Hacc.
  - apply IH, insert_sorted_sorted, Hacc.
Qed.

Lemma sort_perm l : Permutation (Py.sort l) l.
Proof. apply (sort_from_perm l []). Qed.

Lemma sort_sorted l : Sorted Qle (Py.sort l).
Proof. apply sort_from_sorted. constructor. Qed.

Lemma index_in_range {A} (l : list A) (i : nat) (d : A) :
  (i < length l)%nat -> Py.index l (Z.of_nat i) = Ok (nth i l d).
Proof.
  intros Hi. unfold Py.index.
  assert (E1 : (Z.of_nat i <? 0) = false) by (apply Z.ltb_ge; lia).
  assert (E2 : (Z.of_nat (length l) <=? Z.of_nat i) = false) by (apply Z.leb_gt; lia).
  cbv zeta. rewrite E1, E1, E2, Nat2Z.id. simpl.
  destruct (nth_error l i) eqn:E3.
  - now rewrite (nth_error_nth _ _ d E3).
  - apply nth_error_None in E3. lia.
Qed.

Lemma count_partition (results : list Q) :
  Forall (fun x => x == 0 \/ x == 1)%Q results ->
  Py.count 0 results + Py.count 1 results = Z.of_nat (length results).
Proof.
  unfold Py.count. induction 1 as [| x r Hx _ IH]; simpl.
  - reflexivity.
  - destruct Hx as [Hx | Hx];
      [ assert (Qeq_bool x 0 = true) as -> by (now apply Qeq_bool_iff);
        assert (Qeq_bool x 1 = false) as ->
          by (apply not_true_is_false; intros C; apply Qeq_bool_iff in C;
              rewrite Hx in C; discriminate)
      | assert (Qeq_bool x 1 = true) as -> by (now apply Qeq_bool_iff);
        assert (Qeq_bool x 0 = false) as ->
          by (apply not_true_is_false; intros C; apply Qeq_bool_iff in C;
              rewrite Hx in C; discriminate) ];
      simpl length; lia.
Qed.

Lemma reduce_votes_boolean requirement results :
  req_type requirement = "boolean"%string ->
  Forall (fun x => x == 0 \/ x == 1)%Q results ->
  reduce_votes requirement results =
  Ok (if Z.of_nat (length results) <? 2 * Py.count 1 results then 1%Q else 0%Q).
Proof.
  intros Hty Hres. unfold reduce_votes. rewrite Hty. simpl.
  pose proof (count_partition _ Hres) as Hsum.
  destruct (Py.count 0 results <? Py.count 1 results) eqn:E1;
    destruct (Z.of_nat (length results) <? 2 * Py.count 1 results) eqn:E2;
    try reflexivity;
    [ apply Z.ltb_lt in E1; apply Z.ltb_ge in E2
    | apply Z.ltb_ge in E1; apply Z.ltb_lt in E2 ]; lia.
Qed.

Lemma reduce_votes_median requirement results :
  String.eqb (req_type requirement) "boolean" = false ->
  results <> [] ->
  exists m, reduce_votes requirement results = Ok m /\ Spec.is_median results m.
Proof.
  intros Hty Hne. unfold reduce_votes. rewrite Hty.
  pose proof (sort_perm results) as Hperm.
  pose proof (sort_sorted results) as Hsorted.
  set (s := Py.sort results) in *.
  assert (Hlen : (0 < length s)%nat).
  { rewrite (Permutation_length Hperm).
    destruct results; [congruence | simpl; lia]. }
  assert (Hhalf : Z.of_nat (length s) / 2 = Z.of_nat (length s / 2)).
  { rewrite Nat2Z.inj_div. reflexivity. }
  assert (Hmid : (length s / 2 < length s)%nat).
  { apply Nat.div_lt; lia. }
  destruct (Z.of_nat (length s) mod 2 =? 0) eqn:Epar.
  - apply Z.eqb_eq in Epar.
    assert (Heven : Nat.even (length s) = true).
    { apply Nat.even_spec. exists (length s / 2)%nat.
      pose proof (Z.div_mod (Z.of_nat (length s)) 2 ltac:(lia)). lia. }
    assert (Hge : (1 <= length s / 2)%nat).
    { pose proof (Z.div_mod (Z.of_nat (length s)) 2 ltac:(lia)). lia. }
    replace (Z.of_nat (length s) / 2 - 1) with (Z.of_nat (length s / 2 - 1)) by lia.
    rewrite Hhalf.
    rewrite (index_in_range s _ 0%Q) by lia.
    rewrite (index_in_range s _ 0%Q) by lia.
    simpl. eexists. split; [reflexivity |].
    exists s. repeat split; try assumption.
    simpl. rewrite Heven. reflexivity.
  - apply Z.eqb_neq in Epar.
    assert (Hodd : Nat.even (length s) = false).
    { apply not_true_is_false. intros C. apply Nat.even_spec in C.
      destruct C as [k Hk]. apply Epar. rewrite Hk, Nat2Z.inj_mul.
      rewrite Z.mul_comm. apply Z_mod_mult. }
    rewrite Hhalf, (index_in_range s _ 0%Q) by lia.
    eexists. split; [reflexivity |].
    exists s. repeat split; try assumption.
    simpl. rewrite Hodd. reflexivity.
Qed.

End Voting.

(** ** The result filter *)

Section ResultFilter.

Import Filters Spec.

Lemma contains_in selected x :
  contains selected x = if in_dec string_dec x selected then true else false.
Proof.
  unfold contains. destruct (in_dec string_dec x selected) as [Hin | Hnot].
  - apply existsb_exists. exists x. split; [exact Hin | apply String.eqb_refl].
  - apply not_true_is_false. intros C. apply existsb_exists in C.
    destruct C as [y [Hy Heq]]. apply String.eqb_eq in Heq. subst. contradiction.
Qed.

Lemma filter_contains selected scores :
  List.filter (fun r => contains selected (requirement r)) scores = projection selected scores.
Proof.
  unfold projection. apply filter_ext. intros r. apply contains_in.
Qed.

Lemma all_boolean_ones scores :
  forallb (fun r => Qeq_bool (score r) 1) (List.filter is_boolean scores) = true
  <-> meets_all_boolean scores.
Proof.
  unfold meets_all_boolean. rewrite forallb_forall, List.Forall_forall. split.
  - intros H r Hin Hty. apply Qeq_bool_iff, H, filter_In. split; [exact Hin |].
    unfold is_boolean. rewrite Hty. reflexivity.
  - intros H r Hin. apply filter_In in Hin. destruct Hin as [Hin Hb].
    apply Qeq_bool_iff, H; [exact Hin |]. now apply String.eqb_eq.
Qed.

Lemma lt_false_le a b : Py.lt a b = false <-> (b <= a)%Q.
Proof.
  unfold Py.lt. rewrite negb_false_iff. apply Qle_bool_iff.
Qed.

(** One document: [keep] never raises on valid labels, and yields records
    exactly when the three conditions hold. *)
Lemma keep_kept p scores :
  Forall (fun r => Spec.valid_priority (priority r)) scores ->
  exists outcome,
    keep p scores = Ok outcome /\
    forall recs, outcome = Some recs <-> kept p scores recs.
Proof.
  intros Hvalid.
  destruct (calculate_weighted_score_valid scores Hvalid) as [c [Hc _]].
  unfold keep, kept. rewrite Hc. simpl.
  destruct (Py.lt c (min_score p)) eqn:Elt.
  { exists None. split; [reflexivity |]. intros recs. split; [discriminate |].
    intros [[c' [Hc' Hle]] _]. injection Hc' as <-.
    apply lt_false_le in Hle. congruence. }
  apply lt_false_le in Elt.
  destruct (must_meet_all_boolean p
            && negb (forallb (fun r => Qeq_bool (score r) 1) (List.filter is_boolean scores)))
    eqn:Ebool.
  { exists None. split; [reflexivity |]. intros recs. split; [discriminate |].
    intros [_ [Hall _]]. apply andb_true_iff in Ebool. destruct Ebool as [Hm Hn].
    apply all_boolean_ones in Hall; [| exact Hm]. rewrite Hall in Hn. discriminate. }
  assert (Hall : must_meet_all_boolean p = true -> meets_all_boolean scores).
  { intros Hm. rewrite Hm in Ebool. simpl in Ebool.
    apply negb_false_iff in Ebool. now apply all_boolean_ones. }
  destruct (selected_requirements p) as [| x sel] eqn:Esel.
  { exists (Some scores). split; [reflexivity |]. intros recs. split.
    - intros [= <-]. repeat split; eauto; congruence.
    - intros [_ [_ [Heq _]]]. now rewrite Heq. }
  rewrite filter_contains.
  destruct (projection (x :: sel) scores) as [| r rs] eqn:Eproj.
  { exists None. split; [reflexivity |]. intros recs. split; [discriminate |].
    intros [_ [_ [_ Hsel]]]. destruct Hsel as [-> Hne]; congruence. }
  exists (Some (r :: rs)). split; [reflexivity |]. intros recs. split.
  - intros [= <-]. repeat split; eauto; congruence.
  - intros [_ [_ [_ Hsel]]]. destruct Hsel as [-> _]; congruence.
Qed.

Lemma dict_set_fresh d k v :
  ~ In k (map fst d) -> dict_set d k v = d ++ [(k, v)].
Proof.
  induction d as [| [k' v'] r IH]; simpl; intros Hnot.
  - reflexivity.
  - destruct (String.eqb_spec k' k) as [-> | _].
    + exfalso. apply Hnot. now left.
    + rewrite IH; [reflexivity | tauto].
Qed.

Lemma apply_filters_from p all_results :
  Forall (fun doc => Forall (fun r => Spec.valid_priority (priority r)) (snd doc)) all_results ->
  forall acc,
    List.NoDup (map fst acc ++ map fst all_results) ->
    exists out,
      fold_left (filter_step p) all_results (Ok acc) = Ok out /\
      (forall cv_name, In cv_name (map fst out) ->
         In cv_name (map fst acc ++ map fst all_results)) /\
      forall cv_name recs,
        In (cv_name, recs) out <->
        In (cv_name, recs) acc \/
        exists scores, In (cv_name, scores) all_results /\ kept p scores recs.
Proof.
  induction 1 as [| [cv_name scores] rest Hvalid _ IH]; intros acc Hnodup.
  - exists acc. simpl. split; [reflexivity |]. split.
    + intros n Hn. apply in_or_app. now left.
    + intros n recs. split; [tauto |]. intros [H | [sc [[] _]]]. exact H.
  - simpl in Hvalid. destruct (keep_kept p scores Hvalid) as [o [Hkeep Hiff]].
    simpl fold_left. rewrite Hkeep. simpl result_bind.
    assert (Hfresh : ~ In cv_name (map fst acc)).
    { simpl in Hnodup. apply NoDup_remove_2 in Hnodup.
      intros C. apply Hnodup, in_or_app. now left. }
    assert (Hunique : forall sc, In (cv_name, sc) rest -> False).
    { simpl in Hnodup. apply NoDup_remove_2 in Hnodup.
      intros sc Hin. apply Hnodup, in_or_app. right.
      apply (in_map fst) in Hin. exact Hin. }
    destruct o as [recs0 |].
    + rewrite (dict_set_fresh _ _ _ Hfresh).
      destruct (IH (acc ++ [(cv_name, recs0)])) as [out [Hout [Hkeys Hmem]]].
      { rewrite map_app, <- app_assoc. exact Hnodup. }
      exists out. split; [exact Hout |]. split.
      * intros n Hn. apply Hkeys in Hn.
        rewrite map_app, <- app_assoc in Hn. exact Hn.
      * intros n recs. rewrite Hmem, in_app_iff. simpl. split.
        -- intros [[Hacc | [[= <- <-] | []]] | [sc [Hin Hk]]].
           ++ now left.
           ++ right. exists scores. split; [now left | now apply Hiff].
           ++ right. exists sc. split; [now right | exact Hk].
        -- intros [Hacc | [sc [[[= <- <-] | Hin] Hk]]].
           ++ left. now left.
           ++ left. right. left. apply Hiff in Hk. congruence.
           ++ right. exists sc. split; assumption.
    + destruct (IH acc) as [out [Hout [Hkeys Hmem]]].
      { simpl in Hnodup. apply NoDup_remove_1 in Hnodup. exact Hnodup. }
      exists out. split; [exact Hout |]. split.
      * intros n Hn. apply Hkeys in Hn. apply in_app_iff in Hn.
        apply in_app_iff. simpl. tauto.
      * intros n recs. rewrite Hmem. simpl. split.
        -- intros [Hacc | [sc [Hin Hk]]]; [now left |].
           right. exists sc. split; [now right | exact Hk].
        -- intros [Hacc | [sc [[[= <- <-] | Hin] Hk]]]; [now left | |].
           ++ apply Hiff in Hk. discriminate.
           ++ right. exists sc. split; assumption.
Qed.

End ResultFilter.

(** ** The single-model adapter *)

Section Scoring.

Import AiScoring.

Lemma clamp_finite x : exists q, Py.min 100 (Py.max 0 x) = Finite q /\ (0 <= q <= 100)%Q.
Proof.
  destruct x as [q | [|] |]; unfold Py.min, Py.max, float_gt, float_lt, Py.lt; simpl.
  - destruct (Qle_bool q 0) eqn:E0; simpl.
    + exists 0%Q. split; [reflexivity |]. split; discriminate.
    + destruct (Qle_bool 100 q) eqn:E1; simpl.
      * exists 100%Q. split; [reflexivity |]. split; discriminate.
      * exists q. split; [reflexivity |]. split.
        -- apply Qlt_le_weak, Qnot_le_lt. intros C. apply Qle_bool_iff in C. congruence.
        -- apply Qlt_le_weak, Qnot_le_lt. intros C. apply Qle_bool_iff in C. congruence.
  - exists 0%Q. split; [reflexivity |]. split; discriminate.
  - exists 100%Q. split; [reflexivity |]. split; discriminate.
  - exists 0%Q. split; [reflexivity |]. split; discriminate.
Qed.

(** What the normalisation can raise is caught by both handlers. *)
Lemma normalise_raises requirement x e :
  normalise requirement x = Raise e -> is_Exception e = true.
Proof.
  unfold normalise, clamp_boolean.
  destruct (String.eqb (req_type requirement) "boolean"); [| discriminate].
  destruct x as [q | b |]; simpl; intros [= <-]; reflexivity.
Qed.

(** How one call of [get_openai_score] runs, case by case. *)
Lemma get_openai_score_run requirement cv_text s :
  let cache_key := get_cache_key requirement cv_text "gpt-4o-mini" in
  get_openai_score requirement cv_text s =
  match score_cache s !! cache_key with
  | Some cached => (Ok cached, s)
  | None =>
      match oracle s (oracle_calls s) "gpt-4o-mini"%string single_system
                   (single_prompt requirement cv_text) with
      | Content content =>
          match float_of_str (strip content) with
          | Some x =>
              match normalise requirement x with
              | Ok v => (Ok v, set_score_cache (<[cache_key := v]> (score_cache s)) (asked s))
              | Raise _ => (Ok 0%Q, asked s)
              end
          | None => (Ok 0%Q, asked s)
          end
      | ClientError _ => (Ok 0%Q, asked s)
      end
  end.
Proof.
  intros cache_key. unfold get_openai_score. fold cache_key.
  unfold bind at 1. unfold get.
  destruct (score_cache s !! cache_key) as [cached |]; [reflexivity |].
  unfold try_except, bind, chat_completions_create, lift, Py.float, cache_put, modify, ret.
  fold (asked s).
  destruct (oracle s (oracle_calls s) _ _ _) as [content | msg]; [| reflexivity].
  destruct (float_of_str (strip content)) as [x |]; [| reflexivity].
  destruct (normalise requirement x) as [v | e] eqn:En; [reflexivity |].
  rewrite (normalise_raises _ _ _ En), orb_true_r.
  destruct (is_ValueError e); reflexivity.
Qed.

End Scoring.

(** ** Progress of the batch *)

Section Progress.

Import AiScoring PdfProcessor BatchProcessing.

Lemma advances_refl s : advances 0 s s.
Proof. unfold advances. repeat split; lia. Qed.

Lemma advances_trans k1 k2 s1 s2 s3 :
  advances k1 s1 s2 -> advances k2 s2 s3 -> advances (k1 + k2) s1 s3.
Proof.
  unfold advances. intros [R1 [T1 C1]] [R2 [T2 C2]].
  repeat split; try congruence. lia.
Qed.

Lemma completes_ret {A} (a : A) s : completes (ret a) s 0.
Proof. exists a, s. split; [reflexivity | apply advances_refl]. Qed.

Lemma completes_bind {A B} (m : M A) (f : A -> M B) s k1 k2 :
  completes m s k1 ->
  (forall a s', advances k1 s s' -> completes (f a) s' k2) ->
  completes (bind m f) s (k1 + k2).
Proof.
  intros [a [s1 [Hm H1]]] Hf.
  destruct (Hf a s1 H1) as [b [s2 [Hfa H2]]].
  exists b, s2. split.
  - unfold bind. rewrite Hm. exact Hfa.
  - eapply advances_trans; eassumption.
Qed.

Lemma completes_try {A} (body : M A) catches handler s k :
  completes body s k -> completes (try_except body catches handler) s k.
Proof.
  intros [a [s' [Hb H]]]. exists a, s'. split; [| exact H].
  unfold try_except. rewrite Hb. reflexivity.
Qed.

Lemma completes_eq {A} (m : M A) s k k' : k = k' -> completes m s k -> completes m s k'.
Proof. intros ->. auto. Qed.

Lemma completes_modify f s :
  (forall s, advances 0 s (f s)) -> completes (modify f) s 0.
Proof. intros H. exists tt, (f s). split; [reflexivity | apply H]. Qed.

Lemma completes_get s : completes get s 0.
Proof. exists s, s. split; [reflexivity | apply advances_refl]. Qed.

Lemma completes_time s : completes time_time s 0.
Proof. eexists _, _. split; [reflexivity |]. unfold advances. simpl. repeat split; lia. Qed.

Lemma completes_for_each {A B} (body : B -> A -> M B) (cost : A -> Z) (l : list A) :
  forall acc s,
    (forall acc x s', In x l -> requirements s' = requirements s -> completes (body acc x) s' (cost x)) ->
    completes (for_each l acc body) s (fold_right Z.add 0 (map cost l)).
Proof.
  induction l as [| x r IH]; intros acc s Hbody; simpl.
  - apply completes_ret.
  - apply completes_bind.
    + apply Hbody; [now left | reflexivity].
    + intros acc' s' Hadv. apply IH. intros acc0 y s0 Hin Hreq.
      apply Hbody; [now right |]. destruct Hadv as [R _]. congruence.
Qed.

(** ** The scoring calls leave the tracker alone and never raise *)

Lemma advances_asked s : advances 0 s (asked s).
Proof. unfold advances. simpl. repeat split; lia. Qed.

Lemma advances_cached c s : advances 0 s (set_score_cache c s).
Proof. unfold advances. simpl. repeat split; lia. Qed.

Lemma completes_get_openai_score requirement cv_text s :
  completes (get_openai_score requirement cv_text) s 0.
Proof.
  unfold completes. rewrite get_openai_score_run.
  destruct (score_cache s !! _); [eauto using advances_refl |].
  destruct (oracle s _ _ _ _); [| eauto using advances_asked].
  destruct (float_of_str _); [| eauto using advances_asked].
  destruct (normalise _ _); [| eauto using advances_asked].
  eexists _, _. split; [reflexivity |].
  apply (advances_trans 0 0 s (asked s)); [apply advances_asked | apply advances_cached].
Qed.

Lemma completes_chat model system user s :
  (exists c, chat_completions_create model system user s = (Ok c, asked s))
  \/ (exists msg, chat_completions_create model system user s = (Raise (APIError msg), asked s)).
Proof.
  unfold chat_completions_create. fold (asked s).
  destruct (oracle s _ _ _ _); eauto.
Qed.

(** One model's answer: the list grows by exactly one number. *)
Lemma ask_model_appends requirement cv_text results model s :
  exists v s',
    ask_model requirement cv_text results model s = (Ok (results ++ [v]), s') /\
    advances 0 s s'.
Proof.
  unfold ask_model. unfold bind at 1. unfold get.
  destruct (score_cache s !! _) as [cached |].
  { exists cached, s. split; [reflexivity | apply advances_refl]. }
  unfold try_except, bind at 1.
  destruct (completes_chat model voting_system (voting_prompt requirement cv_text) s)
    as [[c ->] | [msg ->]].
  2: { simpl. eexists _, _. split; [reflexivity | apply advances_asked]. }
  destruct (search_digits (strip c)) as [number_match |].
  2: { eexists _, _. split; [reflexivity | apply advances_asked]. }
  unfold bind, lift, Py.float, cache_put, modify, ret.
  destruct (float_of_str number_match) as [x |].
  2: { simpl. eexists _, _. split; [reflexivity | apply advances_asked]. }
  destruct (normalise requirement x) as [v | e] eqn:En.
  - eexists _, _. split; [reflexivity |].
    apply (advances_trans 0 0 s (asked s)); [apply advances_asked | apply advances_cached].
  - rewrite (normalise_raises _ _ _ En).
    eexists _, _. split; [reflexivity | apply advances_asked].
Qed.

Lemma reduce_votes_ok requirement results :
  results <> [] -> exists m, reduce_votes requirement results = Ok m.
Proof.
  intros Hne. destruct (String.eqb (req_type requirement) "boolean") eqn:E.
  - unfold reduce_votes. rewrite E. eauto.
  - destruct (reduce_votes_median requirement results E Hne) as [m [Hm _]]. eauto.
Qed.

Lemma completes_get_openai_score_with_voting requirement cv_text s :
  completes (get_openai_score_with_voting requirement cv_text) s 0.
Proof.
  unfold get_openai_score_with_voting, completes. unfold bind at 1. unfold get.
  destruct (score_cache s !! _) as [cached |].
  { exists cached, s. split; [reflexivity | apply advances_refl]. }
  unfold models. simpl for_each.
  destruct (ask_model_appends requirement cv_text [] "gpt-4o" s) as [v1 [s1 [H1 A1]]].
  destruct (ask_model_appends requirement cv_text ([] ++ [v1]) "gpt-4o-mini" s1)
    as [v2 [s2 [H2 A2]]].
  destruct (ask_model_appends requirement cv_text (([] ++ [v1]) ++ [v2]) "gpt-4o-2024-11-20" s2)
    as [v3 [s3 [H3 A3]]].
  destruct (reduce_votes_ok requirement ((([] ++ [v1]) ++ [v2]) ++ [v3])) as [m Hm];
    [discriminate |].
  exists m. eexists. split.
  - unfold bind. rewrite H1, H2, H3. unfold ret, lift. rewrite Hm.
    unfold cache_put, modify. reflexivity.
  - pose proof (advances_trans _ _ _ _ _ A1 A2) as A12.
    pose proof (advances_trans _ _ _ _ _ A12 A3) as A123.
    apply (advances_trans 0 0 _ _ _ A123), advances_cached.
Qed.

(** ** The tracker's methods *)

Lemma completes_start_file s : completes start_file s 0.
Proof.
  eexists _, _. split; [reflexivity |]. unfold advances. simpl. repeat split; lia.
Qed.

Lemma completes_start_requirement s : completes start_requirement s 0.
Proof.
  eexists _, _. split; [reflexivity |]. unfold advances. simpl. repeat split; lia.
Qed.

Lemma completes_complete_file s : completes complete_file s 0.
Proof.
  unfold complete_file, completes, bind, get_tracker, get, ret. simpl.
  destruct (truthy (current_file_start (tracker s))); simpl;
    eexists _, _; (split; [reflexivity |]); unfold advances; simpl; repeat split; lia.
Qed.

Lemma completes_complete_requirement s : completes complete_requirement s 1.
Proof.
  unfold complete_requirement, completes, bind, get_tracker, get, ret. simpl.
  destruct (truthy (current_req_start (tracker s))); simpl;
    eexists _, _; (split; [reflexivity |]); unfold advances; simpl; repeat split; lia.
Qed.

Lemma completes_score_requirement use_voting_system cv_text scores req s :
  completes (score_requirement use_voting_system cv_text scores req) s 1.
Proof.
  unfold score_requirement.
  apply (completes_bind _ _ s 0 1); [apply completes_start_requirement |].
  intros _ s1 _.
  apply (completes_bind _ _ s1 0 1).
  { destruct use_voting_system;
      [apply completes_get_openai_score_with_voting | apply completes_get_openai_score]. }
  intros score s2 _.
  apply (completes_bind _ _ s2 1 0); [apply completes_complete_requirement |].
  intros _ s3 _. apply completes_ret.
Qed.

End Progress.

Section Batch.

Import AiScoring PdfProcessor BatchProcessing Spec.

Lemma sum_constant {A} (k : Z) (l : list A) :
  fold_right Z.add 0 (map (fun _ => k) l) = k * Z.of_nat (length l).
Proof.
  induction l as [| x r IH]; simpl length; simpl fold_right; [lia |].
  rewrite IH. lia.
Qed.

Lemma sum_indicator {A} (k : Z) (f : A -> bool) (l : list A) :
  fold_right Z.add 0 (map (fun x => if f x then k else 0) l)
  = k * Z.of_nat (length (List.filter f l)).
Proof.
  induction l as [| x r IH]; simpl; [lia |].
  rewrite IH. destruct (f x); simpl length; lia.
Qed.

Lemma completes_get_bind {B} (f : Session -> M B) s k :
  completes (f s) s k -> completes (s0 <- get ;; f s0) s k.
Proof. intros H. exact H. Qed.

Lemma completes_score_file filename cv_text use_voting_system s :
  completes (score_file filename cv_text use_voting_system) s
            (Z.of_nat (length (requirements s))).
Proof.
  unfold score_file.
  apply (completes_eq _ _ (0 + (Z.of_nat (length (requirements s)) + (0 + 0)))); [lia |].
  apply completes_bind.
  { apply completes_modify. intros s0. unfold advances. simpl. repeat split; lia. }
  intros _ s1 [Hreq1 _]. apply completes_get_bind. rewrite <- Hreq1.
  apply completes_bind.
  - apply (completes_eq _ _ (fold_right Z.add 0 (map (fun _ => 1) (requirements s1)))).
    { rewrite sum_constant. lia. }
    apply completes_for_each. intros acc req s2 _ _.
    apply completes_score_requirement.
  - intros scores s2 _. apply completes_bind; [apply completes_complete_file |].
    intros _ s3 _. apply completes_ret.
Qed.

(** The three ways the extraction step can end. *)
Lemma extract_text_run file_obj is_zip s :
  extract_text file_obj is_zip s =
  match content file_obj, is_zip with
  | None, true => (Raise (IOError "read failed"), s)
  | _, _ => (Ok (process_pdf file_obj), s)
  end.
Proof.
  unfold extract_text, process_pdf, read, BytesIO, bind, lift, ret. simpl.
  destruct (content file_obj), is_zip; reflexivity.
Qed.

Lemma has_text_content file_obj :
  content file_obj = None -> has_text file_obj = false.
Proof.
  intros H. unfold has_text, process_pdf, read. rewrite H. reflexivity.
Qed.

Lemma completes_process_single_file filename file_obj is_zip use_voting_system s :
  completes (process_single_file filename file_obj is_zip use_voting_system) s
    (if has_text file_obj then Z.of_nat (length (requirements s)) else 0).
Proof.
  unfold process_single_file.
  apply (completes_bind _ _ s 0); [apply completes_start_file |].
  intros _ s1 [Hreq1 _]. rewrite <- Hreq1.
  apply (completes_eq _ _ ((if has_text file_obj
                            then Z.of_nat (length (requirements s1)) else 0) + 0)); [lia |].
  apply completes_bind.
  - destruct (content file_obj) as [data |] eqn:Edata; [| destruct is_zip eqn:Ezip].
    + (* the bytes are read *)
      apply completes_try. unfold completes, bind at 1.
      rewrite extract_text_run, Edata. fold (has_text file_obj).
      destruct (has_text file_obj).
      * apply (completes_eq _ _ (Z.of_nat (length (requirements s1)) + 0)); [lia |].
        apply completes_bind; [apply completes_score_file |].
        intros scores s2 _. apply completes_ret.
      * apply completes_ret.
    + (* reading an archive member raises *)
      rewrite (has_text_content _ Edata).
      exists None, s1. split; [| apply advances_refl].
      unfold try_except, bind. rewrite extract_text_run, Edata. reflexivity.
    + (* the reader fails on the upload: empty text *)
      rewrite (has_text_content _ Edata).
      apply completes_try. unfold completes, bind at 1.
      rewrite extract_text_run, Edata. fold (has_text file_obj).
      rewrite (has_text_content _ Edata). apply completes_ret.
  - intros [scores |] s2 _; [apply completes_ret |].
    apply (completes_bind _ _ s2 0 0); [apply completes_complete_file |].
    intros _ s3 _. apply completes_ret.
Qed.

(** A listed name is in the archive's directory: opening it gives what its
    last entry holds, never [KeyError]. *)
Lemma zip_open_listed z filename :
  In filename (namelist z) ->
  exists e, In e z /\ fst e = filename /\ zip_open z filename = snd e.
Proof.
  intros Hin. unfold zip_open.
  destruct (List.find _ (rev z)) as [e |] eqn:Efind.
  - apply find_some in Efind. destruct Efind as [He Hname].
    exists e. split; [now apply in_rev |]. split; [now apply String.eqb_eq | reflexivity].
  - exfalso. apply in_map_iff in Hin. destruct Hin as [e [He Hin]].
    apply in_rev in Hin. pose proof (find_none _ _ Efind e Hin) as Hnone.
    simpl in Hnone. rewrite He, String.eqb_refl in Hnone. discriminate.
Qed.

Lemma member_opens_file z filename :
  member_opens z filename = true -> exists f, zip_open z filename = Ok f.
Proof.
  unfold member_opens. destruct (zip_open z filename) as [f | e]; [eauto | discriminate].
Qed.

(** A member that does not open ends the loop body with its exception,
    before anything is done for it. *)
Lemma process_member_raises z use_voting_system background_processing state filename e s :
  zip_open z filename = Raise e ->
  process_member z use_voting_system background_processing state filename s = (Raise e, s).
Proof.
  intros Hopen. destruct state as [[all_results file_counter_value] i].
  unfold process_member, bind at 1, lift. rewrite Hopen. reflexivity.
Qed.

Lemma completes_process_member z use_voting_system state filename s :
  member_opens z filename = true ->
  completes (process_member z use_voting_system false state filename) s
    (if member_has_text z filename then Z.of_nat (length (requirements s)) else 0).
Proof.
  intros Hin. destruct (member_opens_file z filename Hin) as [f Hf].
  destruct state as [[all_results file_counter_value] i].
  unfold process_member, member_has_text. rewrite Hf.
  unfold completes, bind at 1, lift.
  apply (completes_eq _ _ ((if has_text f then Z.of_nat (length (requirements s)) else 0)
                           + (0 + 0))); [lia |].
  apply completes_bind; [apply completes_process_single_file |].
  intros result s1 _. apply completes_bind; [| intros; apply completes_ret].
  destruct (nonempty result) as [scores |]; [| apply completes_ret].
  apply (completes_bind _ _ s1 0 0); [| intros; apply completes_ret].
  apply completes_modify. intros s0. unfold advances. simpl. repeat split; lia.
Qed.

Lemma completes_process_upload use_voting_system state uploaded_file s :
  (String.eqb (type uploaded_file) "application/zip" = true -> archive uploaded_file <> None) ->
  upload_members_open uploaded_file = true ->
  completes (process_upload use_voting_system false state uploaded_file) s
    (Z.of_nat (length (requirements s)) * successes_in uploaded_file).
Proof.
  intros Hzip Hopen. destruct state as [all_results file_counter_value].
  unfold process_upload, successes_in. unfold upload_members_open in Hopen.
  destruct (String.eqb (type uploaded_file) "application/zip").
  - destruct (archive uploaded_file) as [z |] eqn:Ez; [| now destruct Hzip].
    rewrite forallb_forall in Hopen.
    unfold ZipFile. rewrite Ez. unfold completes, bind at 1, lift.
    apply (completes_eq _ _
             (fold_right Z.add 0
                (map (fun n => if member_has_text z n
                               then Z.of_nat (length (requirements s)) else 0)
                     (List.filter is_pdf_name (namelist z))) + 0)).
    { rewrite sum_indicator. lia. }
    apply completes_bind; [| intros; apply completes_ret].
    apply completes_for_each. intros acc filename s' Hin Hreq. rewrite <- Hreq.
    apply completes_process_member. apply Hopen, Hin.
  - destruct (String.eqb (type uploaded_file) "application/pdf").
    + apply (completes_eq _ _ ((if has_text (file uploaded_file)
                                then Z.of_nat (length (requirements s)) else 0) + (0 + 0))).
      { destruct (has_text (file uploaded_file)); lia. }
      apply completes_bind; [apply completes_process_single_file |].
      intros result s1 _. apply completes_bind; [| intros; apply completes_ret].
      destruct (nonempty result) as [scores |]; [| apply completes_ret].
      apply (completes_bind _ _ s1 0 0); [| intros; apply completes_ret].
      apply completes_modify. intros s0. unfold advances. simpl. repeat split; lia.
    + apply (completes_eq _ _ 0); [lia | apply completes_ret].
Qed.

(** [count_total_files] returns only when every archive opens. *)
Lemma count_total_files_archives uploaded_files n :
  count_total_files uploaded_files = Ok n ->
  Forall (fun u => String.eqb (type u) "application/zip" = true -> archive u <> None)
         uploaded_files.
Proof.
  unfold count_total_files. generalize 0 as total. revert n.
  induction uploaded_files as [| u rest IH]; intros n total Hcount; [constructor |].
  simpl in Hcount.
  destruct (String.eqb (type u) "application/zip") eqn:Ezip.
  - unfold ZipFile in Hcount. destruct (archive u) as [z |] eqn:Ez.
    + constructor; [intros _; congruence | eapply IH; exact Hcount].
    + exfalso. simpl in Hcount. clear -Hcount.
      induction rest as [| u' r IHr]; simpl in Hcount; [discriminate | auto].
  - constructor; [intros C; congruence |].
    destruct (String.eqb (type u) "application/pdf"); eapply IH; exact Hcount.
Qed.

Lemma completes_process_files uploaded_files use_voting_system s :
  Forall (fun u => String.eqb (type u) "application/zip" = true -> archive u <> None)
         uploaded_files ->
  members_open uploaded_files ->
  completes (process_files uploaded_files use_voting_system false) s
    (Z.of_nat (length (requirements s)) * successes uploaded_files).
Proof.
  intros Hvalid Hopen. unfold process_files, successes.
  apply (completes_eq _ _
           (fold_right Z.add 0
              (map (fun u => Z.of_nat (length (requirements s)) * successes_in u)
                   uploaded_files) + 0)).
  { clear Hvalid Hopen. induction uploaded_files as [| u r IH]; simpl; lia. }
  apply completes_bind; [| intros; apply completes_ret].
  apply completes_for_each. intros acc u s' Hin Hreq. rewrite <- Hreq.
  apply completes_process_upload.
  - rewrite List.Forall_forall in Hvalid. apply Hvalid, Hin.
  - unfold members_open in Hopen. rewrite List.Forall_forall in Hopen. apply Hopen, Hin.
Qed.

End Batch.

(* ===================================================================== *)
(** * The claims *)
(* ===================================================================== *)

Section Claims.

Import AiScoring DataHandling Filters PdfProcessor BatchProcessing.

(** ** ScoreCache and ScoringOracleAdapter *)

Lemma prefix_app (n : nat) (head tail : string) :
  String.length head = n -> prefix n (head ++ tail) = head.
Proof.
  revert n. induction head as [| c r IH]; intros n Hlen; simpl in *.
  - subst. reflexivity.
  - destruct n as [| n']; [discriminate |]. simpl. f_equal. apply IH. lia.
Qed.

(** C8. The cache key is computed from the model id, the requirement's
    text, type and weight, and the first 1000 characters of the document
    text: two calls that agree on these give the same key, so whatever
    follows the first 1000 characters has no influence on it. *)
Theorem get_cache_key_first_1000 (r1 r2 : Requirement) (model1 model2 cv1 cv2 : string) :
  model1 = model2 ->
  req_text r1 = req_text r2 ->
  req_type r1 = req_type r2 ->
  req_weight r1 = req_weight r2 ->
  slice_to 1000 cv1 = slice_to 1000 cv2 ->
  get_cache_key r1 cv1 model1 = get_cache_key r2 cv2 model2
  /\ forall head tail1 tail2 : string,
       String.length head = Z.to_nat 1000 ->
       get_cache_key r1 (head ++ tail1) model1 = get_cache_key r2 (head ++ tail2) model2.
Proof.
  intros Hm Ht Hty Hw Hcv. unfold get_cache_key. split.
  - rewrite Hm, Ht, Hty, Hw, Hcv. reflexivity.
  - intros head tail1 tail2 Hlen. unfold slice_to.
    rewrite !prefix_app by exact Hlen.
    rewrite Hm, Ht, Hty, Hw. reflexivity.
Qed.

Lemma get_openai_score_never_raises requirement cv_text s :
  exists v s', get_openai_score requirement cv_text s = (Ok v, s').
Proof.
  destruct (completes_get_openai_score requirement cv_text s) as [v [s' [H _]]]. eauto.
Qed.

Lemma get_openai_score_with_voting_never_raises requirement cv_text s :
  exists v s', get_openai_score_with_voting requirement cv_text s = (Ok v, s').
Proof.
  destruct (completes_get_openai_score_with_voting requirement cv_text s) as [v [s' [H _]]].
  eauto.
Qed.

(** The voting function's answer for a model whose request raises or whose
    reply holds no digit is the fallback of the requirement's type. *)
Lemma ask_model_fallback requirement cv_text results model s :
  score_cache s !! get_cache_key requirement cv_text model = None ->
  match oracle s (oracle_calls s) model voting_system (voting_prompt requirement cv_text) with
  | ClientError _ => True
  | Content content => search_digits (strip content) = None
  end ->
  ask_model requirement cv_text results model s
  = (Ok (results ++ [fallback requirement]), asked s).
Proof.
  intros Hmiss Hfail. unfold ask_model. unfold bind at 1. unfold get.
  rewrite Hmiss. unfold try_except, bind at 1, chat_completions_create.
  fold (asked s).
  destruct (oracle s _ _ _ _) as [content | msg]; [| reflexivity].
  rewrite Hfail. reflexivity.
Qed.

Lemma get_openai_score_with_voting_hit requirement cv_text s cached :
  score_cache s !! get_cache_key requirement cv_text "voting" = Some cached ->
  get_openai_score_with_voting requirement cv_text s = (Ok cached, s).
Proof.
  intros Hhit. unfold get_openai_score_with_voting. unfold bind at 1. unfold get.
  rewrite Hhit. reflexivity.
Qed.

(** X1. The voting function stores its reduced value whatever the answers were:
    a second call returns the same value from the same session. *)
Lemma get_openai_score_with_voting_twice requirement cv_text s :
  exists v s1,
    get_openai_score_with_voting requirement cv_text s = (Ok v, s1) /\
    get_openai_score_with_voting requirement cv_text s1 = (Ok v, s1).
Proof.
  assert (Hfirst : exists v s1,
             get_openai_score_with_voting requirement cv_text s = (Ok v, s1) /\
             score_cache s1 !! get_cache_key requirement cv_text "voting" = Some v).
  { unfold get_openai_score_with_voting. unfold bind at 1. unfold get.
    destruct (score_cache s !! get_cache_key requirement cv_text "voting")
      as [cached |] eqn:Ehit.
    { exists cached, s. split; [reflexivity | exact Ehit]. }
    unfold models. simpl for_each.
    destruct (ask_model_appends requirement cv_text [] "gpt-4o" s) as [v1 [s1 [H1 _]]].
    destruct (ask_model_appends requirement cv_text ([] ++ [v1]) "gpt-4o-mini" s1)
      as [v2 [s2 [H2 _]]].
    destruct (ask_model_appends requirement cv_text (([] ++ [v1]) ++ [v2])
                "gpt-4o-2024-11-20" s2) as [v3 [s3 [H3 _]]].
    destruct (reduce_votes_ok requirement ((([] ++ [v1]) ++ [v2]) ++ [v3])) as [m Hm];
      [discriminate |].
    exists m. eexists. split.
    - unfold bind. rewrite H1, H2, H3. unfold ret, lift. rewrite Hm.
      unfold cache_put, modify. reflexivity.
    - simpl score_cache. apply lookup_insert_eq. }
  destruct Hfirst as [v [s1 [Hrun Hstored]]].
  exists v, s1. split; [exact Hrun |].
  now apply get_openai_score_with_voting_hit.
Qed.

(** On a cache miss with a failing oracle the single-model function returns
    0 and leaves the cache as it was. *)
Lemma get_openai_score_fallback requirement cv_text s :
  score_cache s !! get_cache_key requirement cv_text "gpt-4o-mini" = None ->
  falls_back requirement cv_text s ->
  get_openai_score requirement cv_text s = (Ok 0%Q, asked s).
Proof.
  intros Hmiss Hfall. rewrite get_openai_score_run, Hmiss.
  unfold falls_back, single_reply in Hfall.
  destruct (oracle s _ _ _ _) as [content | msg]; [| reflexivity].
  destruct (float_of_str (strip content)) as [x |]; [| reflexivity].
  destruct Hfall as [e ->]. reflexivity.
Qed.

Lemma get_openai_score_success requirement cv_text s v :
  score_cache s !! get_cache_key requirement cv_text "gpt-4o-mini" = None ->
  answers requirement cv_text s v ->
  get_openai_score requirement cv_text s =
  (Ok v, set_score_cache (<[get_cache_key requirement cv_text "gpt-4o-mini" := v]> (score_cache s))
                         (asked s)).
Proof.
  intros Hmiss [content [x [Hreply [Hfloat Hnorm]]]].
  rewrite get_openai_score_run, Hmiss. unfold single_reply in Hreply.
  rewrite Hreply, Hfloat, Hnorm. reflexivity.
Qed.

Lemma get_openai_score_hit requirement cv_text s cached :
  score_cache s !! get_cache_key requirement cv_text "gpt-4o-mini" = Some cached ->
  get_openai_score requirement cv_text s = (Ok cached, s).
Proof. intros Hhit. rewrite get_openai_score_run, Hhit. reflexivity. Qed.

(** C2. When the oracle raises or its reply is not a number, the
    single-model function returns 0 whatever the requirement's type, and
    nothing escapes it; for a score-type requirement this is not the fallback
    50 that the voting function uses. *)
Theorem single_model_fallback_is_zero (requirement : Requirement) (cv_text : string)
    (s : Session) :
  score_cache s !! get_cache_key requirement cv_text "gpt-4o-mini" = None ->
  falls_back requirement cv_text s ->
  fst (get_openai_score requirement cv_text s) = Ok 0%Q
  /\ (String.eqb (req_type requirement) "boolean" = false ->
      fallback requirement = 50%Q /\ ~ (0 == fallback requirement)%Q).
Proof.
  intros Hmiss Hfall. split.
  - rewrite (get_openai_score_fallback _ _ _ Hmiss Hfall). reflexivity.
  - intros Hty. unfold fallback. rewrite Hty. split; [reflexivity | discriminate].
Qed.

(** C3, as the code has it.  The single-model function looks the key up
    before it asks the oracle: on a hit it returns the cached value and
    neither asks nor changes anything.  On a miss it asks once; when the
    reply parses, the value is stored under the key at once and the next call
    returns it without asking; when the call falls back to 0, nothing is
    stored. *)
Theorem get_openai_score_cache_discipline (requirement : Requirement) (cv_text : string)
    (s : Session) :
  let cache_key := get_cache_key requirement cv_text "gpt-4o-mini" in
  (forall cached,
     score_cache s !! cache_key = Some cached ->
     get_openai_score requirement cv_text s = (Ok cached, s))
  /\ (forall v,
        score_cache s !! cache_key = None ->
        answers requirement cv_text s v ->
        exists s1,
          get_openai_score requirement cv_text s = (Ok v, s1) /\
          oracle_calls s1 = S (oracle_calls s) /\
          score_cache s1 !! cache_key = Some v /\
          get_openai_score requirement cv_text s1 = (Ok v, s1))
  /\ (score_cache s !! cache_key = None ->
      falls_back requirement cv_text s ->
      exists s1,
        get_openai_score requirement cv_text s = (Ok 0%Q, s1) /\
        oracle_calls s1 = S (oracle_calls s) /\
        score_cache s1 = score_cache s).
Proof.
  intros cache_key. split; [| split].
  - intros cached Hhit. now apply get_openai_score_hit.
  - intros v Hmiss Hans. eexists. split; [now apply get_openai_score_success |].
    assert (Hstored : score_cache
              (set_score_cache (<[cache_key := v]> (score_cache s)) (asked s)) !! cache_key
            = Some v) by apply lookup_insert_eq.
    split; [reflexivity |]. split; [exact Hstored |].
    now apply get_openai_score_hit.
  - intros Hmiss Hfall. exists (asked s).
    split; [now apply get_openai_score_fallback |]. split; reflexivity.
Qed.

(** ** VotingAggregator *)

(** C5. For a boolean requirement the reduction of answers in {0,1} is 1
    exactly when the ones are a strict majority, so an even split gives 0;
    for a score requirement it is the median of the answers: the middle of
    the sorted answers, or the mean of the two middle ones.  [40,60,80]
    reduces to 60 and [40,60] to 50. *)
Theorem reduce_votes_majority_median (requirement : Requirement) (results : list Q) :
  (req_type requirement = "boolean"%string ->
   Forall (fun x => x == 0 \/ x == 1)%Q results ->
   reduce_votes requirement results =
   Ok (if Z.of_nat (length results) <? 2 * Py.count 1 results then 1%Q else 0%Q)
   /\ (Py.count 1 results = Py.count 0 results -> reduce_votes requirement results = Ok 0%Q))
  /\ (String.eqb (req_type requirement) "boolean" = false ->
      (results <> [] ->
       exists m, reduce_votes requirement results = Ok m /\ Spec.is_median results m)
      /\ reduce_votes requirement [40; 60; 80]%Q = Ok 60%Q
      /\ exists m, reduce_votes requirement [40; 60]%Q = Ok m /\ (m == 50)%Q).
Proof.
  split.
  - intros Hty Hres. split; [now apply reduce_votes_boolean |].
    intros Htie. unfold reduce_votes. rewrite Hty. simpl.
    rewrite Htie, Z.ltb_irrefl. reflexivity.
  - intros Hty. split; [intros Hne; now apply reduce_votes_median |].
    unfold reduce_votes. rewrite Hty. split; [reflexivity |].
    eexists. split; [reflexivity | reflexivity].
Qed.

(** ** WeightedScoreAggregator *)

(** C4. On records with priority labels Low, Medium or High the aggregator
    returns the sum of value times weight over the sum of weights, with
    weights 1, 2, 3 and boolean scores scaled by 100; it returns 0 for the
    empty sequence; a met High boolean with a Low score of 50 gives 87.5. *)
Theorem weighted_score_formula (scores : list ScoreRecord) :
  Forall (fun r => Spec.valid_priority (priority r)) scores ->
  (exists q, calculate_weighted_score scores = Ok q /\ (q == Spec.composite scores)%Q)
  /\ calculate_weighted_score [] = Ok 0%Q
  /\ (exists q,
        calculate_weighted_score
          [ {| requirement := "Python"; score := 1; priority := "High"; score_type := "boolean" |};
            {| requirement := "SQL"; score := 50; priority := "Low"; score_type := "score" |} ]
        = Ok q /\ (q == 175 # 2)%Q).
Proof.
  intros Hvalid. split; [now apply calculate_weighted_score_valid |].
  split; [reflexivity |]. eexists. split; reflexivity.
Qed.

(** C9. A record whose priority label is none of Low, Medium, High makes
    the aggregator raise [KeyError] on that label; with valid labels only, it
    returns a number. *)
Theorem weighted_score_fails_fast (scores : list ScoreRecord) :
  (Exists (fun r => ~ Spec.valid_priority (priority r)) scores ->
   exists label,
     ~ Spec.valid_priority label /\
     calculate_weighted_score scores = Raise (KeyError label))
  /\ (Forall (fun r => Spec.valid_priority (priority r)) scores ->
      exists q, calculate_weighted_score scores = Ok q).
Proof.
  split.
  - apply calculate_weighted_score_invalid.
  - intros Hvalid. destruct (calculate_weighted_score_valid scores Hvalid) as [q [Hq _]].
    eauto.
Qed.

(** ** ResultFilter *)

(** C6. On a result set with distinct document names and valid labels the
    filter returns, and a document is in its result, with given records,
    exactly when it is in the input with scores whose composite is at least
    [min_score], whose boolean records all equal 1 if [must_meet_all_boolean]
    is set, and, if requirements are selected, whose projection onto them is
    not empty; the records are that projection, or the scores unchanged when
    nothing is selected. *)
Theorem apply_filters_keeps (all_results : ResultSet) (filter_params : FilterParams) :
  List.NoDup (map fst all_results) ->
  Forall (fun doc => Forall (fun r => Spec.valid_priority (priority r)) (snd doc))
         all_results ->
  exists filtered_results,
    apply_filters all_results filter_params = Ok filtered_results /\
    forall cv_name recs,
      In (cv_name, recs) filtered_results <->
      exists scores, In (cv_name, scores) all_results /\ Spec.kept filter_params scores recs.
Proof.
  intros Hnodup Hvalid.
  destruct (apply_filters_from filter_params all_results Hvalid [] Hnodup)
    as [out [Hout [_ Hmem]]].
  exists out. split; [exact Hout |].
  intros cv_name recs. rewrite Hmem. simpl. tauto.
Qed.

(** ** BatchProcessingTracker *)

(** C7. With no completed operation the time-remaining query answers
    ["Calculating..."] from the unchanged session: it reads no clock and
    divides nothing. *)
Theorem eta_before_first_operation (s : Session) :
  completed_operations (tracker s) = 0 ->
  get_estimated_time_remaining s = (Ok "Calculating..."%string, s).
Proof.
  intros Hzero. unfold get_estimated_time_remaining, get_tracker.
  unfold bind, get, ret. cbv beta iota. rewrite Hzero. reflexivity.
Qed.

(** X2. Past the guard the query does divide by the elapsed time: with one
    operation completed and a clock that has not moved since the tracker was
    built, it raises. *)
Lemma eta_divides_by_elapsed (s : Session) :
  completed_operations (tracker s) <> 0 ->
  (clock s (clock_reads s) == start_time (tracker s))%Q ->
  fst (get_estimated_time_remaining s) = Raise ZeroDivisionError.
Proof.
  intros Hdone Hnow. unfold get_estimated_time_remaining, get_tracker.
  unfold bind, get, ret, time_time, lift, truediv. cbv beta iota.
  destruct (completed_operations (tracker s) =? 0) eqn:E; [apply Z.eqb_eq in E; lia |].
  assert (Hzero : Qeq_bool (clock s (clock_reads s) - start_time (tracker s)) 0 = true).
  { apply Qeq_bool_iff. rewrite Hnow. ring. }
  rewrite Hzero. reflexivity.
Qed.

Lemma init_tracker total_files total_requirements s :
  tracker (snd (init total_files total_requirements s)) =
  {| start_time := clock s (clock_reads s);
     total_files := total_files;
     total_requirements := total_requirements;
     total_operations := total_files * total_requirements;
     completed_operations := 0;
     file_times := [];
     req_times := [];
     current_file_start := None;
     current_req_start := None |}.
Proof. reflexivity. Qed.

Lemma get_progress_percentage_run s :
  get_progress_percentage s =
  if total_operations (tracker s) =? 0 then (Raise ZeroDivisionError, s)
  else (Ok (inject_Z (completed_operations (tracker s))
            / inject_Z (total_operations (tracker s)) * 100)%Q, s).
Proof.
  unfold get_progress_percentage, get_tracker.
  unfold bind, get, ret, lift, truediv. cbv beta iota.
  destruct (total_operations (tracker s) =? 0) eqn:E.
  - apply Z.eqb_eq in E. rewrite E. reflexivity.
  - apply Z.eqb_neq in E.
    destruct (Qeq_bool (inject_Z (total_operations (tracker s))) 0) eqn:Eq; [| reflexivity].
    apply Qeq_bool_eq in Eq. unfold Qeq in Eq. simpl in Eq. lia.
Qed.

(** C10. For a tracker built with [total_files * total_requirements > 0]
    the percentage is [completed_operations / total_operations * 100] in
    every state that keeps this total; built with zero files or zero
    requirements, the query raises [ZeroDivisionError]. *)
Theorem get_progress_percentage_needs_operations (total_files total_requirements : Z)
    (s0 : Session) :
  let built := snd (init total_files total_requirements s0) in
  (0 < total_files * total_requirements ->
   forall s,
     total_operations (tracker s) = total_operations (tracker built) ->
     get_progress_percentage s =
     (Ok (inject_Z (completed_operations (tracker s))
          / inject_Z (total_files * total_requirements) * 100)%Q, s))
  /\ (total_files = 0 \/ total_requirements = 0 ->
      get_progress_percentage built = (Raise ZeroDivisionError, built)).
Proof.
  intros built. split.
  - intros Hpos s Htotal. rewrite get_progress_percentage_run, Htotal.
    unfold built. rewrite init_tracker. simpl.
    destruct (total_files * total_requirements =? 0) eqn:E; [| reflexivity].
    apply Z.eqb_eq in E. lia.
  - intros Hzero. rewrite get_progress_percentage_run.
    unfold built. rewrite init_tracker. simpl.
    destruct (total_files * total_requirements =? 0) eqn:E; [reflexivity |].
    apply Z.eqb_neq in E. destruct Hzero; subst; lia.
Qed.

Lemma init_run total_files total_requirements s :
  exists s1,
    init total_files total_requirements s = (Ok tt, s1) /\
    requirements s1 = requirements s /\
    total_operations (tracker s1) = total_files * total_requirements /\
    completed_operations (tracker s1) = 0.
Proof. eexists. split; [reflexivity |]. repeat split. Qed.

(** C1, as the code has it.  Run without partial-result reruns on uploads
    whose archive members all open, a batch of [n] counted documents and [M]
    requirements returns, leaves the total at [n * M] and the
    completed-operations counter at [M] times the number of documents whose
    extraction yields text: a document whose extraction raises or comes back
    empty adds nothing.  With [n * M > 0] the counter reaches the total
    exactly when every document yields text, and the progress is then
    100%. *)
Theorem batch_completed_operations (uploaded_files : list UploadedFile)
    (use_voting_system : bool) (s : Session) (n : Z) :
  count_total_files uploaded_files = Ok n ->
  members_open uploaded_files ->
  let M := Z.of_nat (length (requirements s)) in
  exists all_results s',
    (init n M ;; process_files uploaded_files use_voting_system false) s
    = (Ok all_results, s') /\
    total_operations (tracker s') = n * M /\
    completed_operations (tracker s') = M * Spec.successes uploaded_files /\
    (0 < n * M ->
     (completed_operations (tracker s') = total_operations (tracker s')
      <-> Spec.successes uploaded_files = n) /\
     (Spec.successes uploaded_files = n ->
      exists pct, get_progress_percentage s' = (Ok pct, s') /\ (pct == 100)%Q)).
Proof.
  intros Hcount Hopen M.
  destruct (init_run n M s) as [s1 [Hinit [Hreq [Htotal Hdone]]]].
  pose proof (count_total_files_archives _ _ Hcount) as Harchives.
  destruct (completes_process_files uploaded_files use_voting_system s1 Harchives Hopen)
    as [all_results [s' [Hrun [_ [Htotal' Hdone']]]]].
  exists all_results, s'. split.
  { unfold bind. rewrite Hinit. exact Hrun. }
  rewrite Hreq in Hdone'. fold M in Hdone'.
  assert (Htot : total_operations (tracker s') = n * M) by congruence.
  assert (Hcomp : completed_operations (tracker s') = M * Spec.successes uploaded_files)
    by lia.
  split; [exact Htot |]. split; [exact Hcomp |].
  intros Hpos. split.
  - rewrite Htot, Hcomp.
    assert (HM : M <> 0) by (intros C; rewrite C in Hpos; lia).
    split; intros H; [| rewrite H; apply Z.mul_comm].
    apply (Z.mul_reg_l _ _ M); [exact HM |]. rewrite H. apply Z.mul_comm.
  - intros Hall. rewrite get_progress_percentage_run.
    assert (Hfull : completed_operations (tracker s') = n * M)
      by (rewrite Hcomp, Hall; lia).
    rewrite Htot, Hfull.
    destruct (n * M =? 0) eqn:E; [apply Z.eqb_eq in E; lia |].
    eexists. split; [reflexivity |].
    unfold Qeq, Qdiv, Qmult, Qinv, inject_Z. simpl.
    destruct (n * M) eqn:Eprod; try lia. simpl. lia.
Qed.

End Claims.

(* ===================================================================== *)
(** * The claims at concrete inputs *)
(* ===================================================================== *)

Section Instances.

Import AiScoring DataHandling Filters PdfProcessor BatchProcessing.
Local Open Scope string_scope.

(** Three documents in an archive, two requirements, the second document
    unreadable: the batch ends with four completed operations of six, at two
    thirds of the way. *)
Lemma batch_counter_stops_short :
  count_total_files [Sample.three_cvs] = Ok 3%Z /\
  length (requirements Sample.answering) = 2%nat /\
  completed_operations
    (tracker (snd ((init 3 2 ;; process_files [Sample.three_cvs] false false)
                     Sample.answering))) = 4%Z /\
  completed_operations
    (tracker (snd ((init 3 2 ;; process_files [Sample.three_cvs] false false)
                     Sample.answering))) <> (3 * 2)%Z /\
  exists pct,
    fst (get_progress_percentage
           (snd ((init 3 2 ;; process_files [Sample.three_cvs] false false)
                   Sample.answering))) = Ok pct /\
    ~ (pct == 100)%Q.
Proof.
  split; [vm_compute; reflexivity |]. split; [reflexivity |].
  split; [vm_compute; reflexivity |]. split; [vm_compute; discriminate |].
  exists (400 # 6)%Q. split; [vm_compute; reflexivity | vm_compute; discriminate].
Qed.

(** With partial results shown, the third archive member that yields scores
    triggers Streamlit's rerun, which ends the batch there. *)
Example partial_results_rerun_interrupts :
  fst ((init 3 2 ;; process_files [Sample.three_cvs] false true) Sample.answering)
  = Raise RerunException.
Proof. vm_compute. reflexivity. Qed.

(** An archive whose documents all yield text reaches 100%; the archive
    with an unreadable document stops at four operations of six, short of
    the total. *)
Lemma batch_completed_operations_witness :
  count_total_files [Sample.two_cvs] = Ok 2%Z /\
  members_open [Sample.two_cvs] /\
  Spec.successes [Sample.two_cvs] = 2%Z /\
  (exists all_results s' pct,
      (init 2 (Z.of_nat (length (requirements Sample.answering))) ;;
       process_files [Sample.two_cvs] true false) Sample.answering
      = (Ok all_results, s') /\
      completed_operations (tracker s') = total_operations (tracker s') /\
      get_progress_percentage s' = (Ok pct, s') /\ (pct == 100)%Q) /\
  count_total_files [Sample.three_cvs] = Ok 3%Z /\
  members_open [Sample.three_cvs] /\
  Spec.successes [Sample.three_cvs] = 2%Z /\
  exists all_results s',
    (init 3 (Z.of_nat (length (requirements Sample.answering))) ;;
     process_files [Sample.three_cvs] true false) Sample.answering
    = (Ok all_results, s') /\
    total_operations (tracker s') = 6%Z /\
    completed_operations (tracker s') = 4%Z /\
    completed_operations (tracker s') <> total_operations (tracker s').
Proof.
  assert (Hcount2 : count_total_files [Sample.two_cvs] = Ok 2%Z)
    by (vm_compute; reflexivity).
  assert (Hopen2 : members_open [Sample.two_cvs]) by (repeat constructor).
  assert (Hall2 : Spec.successes [Sample.two_cvs] = 2%Z) by (vm_compute; reflexivity).
  assert (Hcount3 : count_total_files [Sample.three_cvs] = Ok 3%Z)
    by (vm_compute; reflexivity).
  assert (Hopen3 : members_open [Sample.three_cvs]) by (repeat constructor).
  assert (Hall3 : Spec.successes [Sample.three_cvs] = 2%Z) by (vm_compute; reflexivity).
  split; [exact Hcount2 |]. split; [exact Hopen2 |]. split; [exact Hall2 |]. split.
  { destruct (batch_completed_operations [Sample.two_cvs] true Sample.answering 2
                Hcount2 Hopen2) as [all_results [s' [Hrun [Htotal [Hdone Hpct]]]]].
    destruct (Hpct eq_refl) as [Hreach Hfull].
    destruct (Hfull Hall2) as [pct [Hget Hhundred]].
    exists all_results, s', pct. split; [exact Hrun |].
    split; [exact (proj2 Hreach Hall2) |].
    split; [exact Hget | exact Hhundred]. }
  split; [exact Hcount3 |]. split; [exact Hopen3 |]. split; [exact Hall3 |].
  destruct (batch_completed_operations [Sample.three_cvs] true Sample.answering 3
              Hcount3 Hopen3) as [all_results [s' [Hrun [Htotal [Hdone Hpct]]]]].
  destruct (Hpct eq_refl) as [Hreach _].
  exists all_results, s'. split; [exact Hrun |].
  split; [rewrite Htotal; reflexivity |].
  split; [rewrite Hdone, Hall3; reflexivity |].
  intros H. apply (proj1 Hreach) in H. rewrite Hall3 in H. discriminate H.
Defined.

(** An archive with a member that does not open: the batch scores the
    document before it and then raises [zipfile]'s exception, since the
    member is opened outside [process_single_file]'s [try]. *)
Example damaged_member_ends_the_batch :
  count_total_files [Sample.damaged_cvs] = Ok 3%Z /\
  fst ((init 3 2 ;; process_files [Sample.damaged_cvs] false false) Sample.answering)
  = Raise BadZipFile /\
  completed_operations
    (tracker (snd ((init 3 2 ;; process_files [Sample.damaged_cvs] false false)
                     Sample.answering))) = 2%Z.
Proof. repeat split; vm_compute; reflexivity. Qed.

(** A score requirement, an oracle that times out: the single-model
    function answers 0, not 50. *)
Lemma single_model_fallback_is_zero_witness :
  score_cache Sample.timing_out !! get_cache_key Sample.sql_level "cv" "gpt-4o-mini" = None /\
  falls_back Sample.sql_level "cv" Sample.timing_out /\
  fst (get_openai_score Sample.sql_level "cv" Sample.timing_out) = Ok 0%Q /\
  (String.eqb (req_type Sample.sql_level) "boolean" = false ->
   fallback Sample.sql_level = 50%Q /\ ~ (0 == fallback Sample.sql_level)%Q).
Proof.
  assert (Hmiss : score_cache Sample.timing_out
                  !! get_cache_key Sample.sql_level "cv" "gpt-4o-mini" = None)
    by (vm_compute; reflexivity).
  assert (Hfall : falls_back Sample.sql_level "cv" Sample.timing_out) by exact I.
  split; [exact Hmiss |]. split; [exact Hfall |].
  exact (single_model_fallback_is_zero Sample.sql_level "cv" Sample.timing_out Hmiss Hfall).
Defined.

(** The same requirement and the same failing oracle through the voting
    function: every model falls back to 50, and so does their median. *)
Example voting_fallback_is_fifty :
  fst (get_openai_score_with_voting Sample.sql_level "cv" Sample.timing_out) = Ok 50%Q.
Proof. vm_compute. reflexivity. Qed.

(** The first request times out, the second is answered: the first call
    returns 0 and stores nothing, the second call asks the oracle again and
    returns 80. *)
Lemma fallback_is_not_cached :
  fst (get_openai_score Sample.sql_level "cv" Sample.flaky) = Ok 0%Q /\
  score_cache (snd (get_openai_score Sample.sql_level "cv" Sample.flaky))
    !! get_cache_key Sample.sql_level "cv" "gpt-4o-mini" = None /\
  oracle_calls (snd (get_openai_score Sample.sql_level "cv" Sample.flaky)) = 1%nat /\
  fst (get_openai_score Sample.sql_level "cv"
         (snd (get_openai_score Sample.sql_level "cv" Sample.flaky))) = Ok 80%Q /\
  oracle_calls
    (snd (get_openai_score Sample.sql_level "cv"
            (snd (get_openai_score Sample.sql_level "cv" Sample.flaky)))) = 2%nat.
Proof.
  repeat split; vm_compute; reflexivity.
Qed.

Lemma get_openai_score_cache_discipline_witness :
  score_cache Sample.padded !! get_cache_key Sample.sql_level "cv" "gpt-4o-mini" = None /\
  answers Sample.sql_level "cv" Sample.padded 80%Q /\
  exists s1,
    get_openai_score Sample.sql_level "cv" Sample.padded = (Ok 80%Q, s1) /\
    oracle_calls s1 = S (oracle_calls Sample.padded) /\
    score_cache s1 !! get_cache_key Sample.sql_level "cv" "gpt-4o-mini" = Some 80%Q /\
    get_openai_score Sample.sql_level "cv" s1 = (Ok 80%Q, s1).
Proof.
  assert (Hmiss : score_cache Sample.padded
                  !! get_cache_key Sample.sql_level "cv" "gpt-4o-mini" = None)
    by (vm_compute; reflexivity).
  assert (Hans : answers Sample.sql_level "cv" Sample.padded 80%Q).
  { exists " 80 ", (Finite 80). repeat split; vm_compute; reflexivity. }
  split; [exact Hmiss |]. split; [exact Hans |].
  exact (proj1 (proj2 (get_openai_score_cache_discipline Sample.sql_level "cv" Sample.padded))
               80%Q Hmiss Hans).
Defined.

Lemma get_cache_key_first_1000_witness :
  slice_to 1000 (Sample.long_cv " Python, SQL") = slice_to 1000 (Sample.long_cv " Cobol") /\
  Sample.long_cv " Python, SQL" <> Sample.long_cv " Cobol" /\
  get_cache_key Sample.sql_level (Sample.long_cv " Python, SQL") "gpt-4o"
  = get_cache_key Sample.sql_level (Sample.long_cv " Cobol") "gpt-4o".
Proof.
  assert (Hprefix : slice_to 1000 (Sample.long_cv " Python, SQL")
                    = slice_to 1000 (Sample.long_cv " Cobol"))
    by (vm_compute; reflexivity).
  split; [exact Hprefix |]. split; [vm_compute; discriminate |].
  exact (proj1 (get_cache_key_first_1000 Sample.sql_level Sample.sql_level "gpt-4o" "gpt-4o"
                  _ _ eq_refl eq_refl eq_refl eq_refl Hprefix)).
Defined.

Lemma reduce_votes_majority_median_witness :
  req_type Sample.python_required = "boolean" /\
  Forall (fun x => x == 0 \/ x == 1)%Q [1; 0; 1; 0]%Q /\
  reduce_votes Sample.python_required [1; 0; 1; 0]%Q = Ok 0%Q /\
  String.eqb (req_type Sample.sql_level) "boolean" = false /\
  exists m, reduce_votes Sample.sql_level [80; 40; 60]%Q = Ok m /\
            Spec.is_median [80; 40; 60]%Q m.
Proof.
  assert (Hvotes : Forall (fun x => x == 0 \/ x == 1)%Q [1; 0; 1; 0]%Q).
  { repeat constructor; (left; reflexivity) || (right; reflexivity). }
  split; [reflexivity |]. split; [exact Hvotes |].
  split.
  { exact (proj1 (proj1 (reduce_votes_majority_median Sample.python_required [1; 0; 1; 0]%Q)
                        eq_refl Hvotes)). }
  split; [reflexivity |].
  apply (proj1 (proj2 (reduce_votes_majority_median Sample.sql_level [80; 40; 60]%Q) eq_refl)).
  discriminate.
Defined.

Lemma weighted_score_formula_witness :
  Forall (fun r => Spec.valid_priority (priority r)) (snd (Sample.bob)) /\
  exists q,
    calculate_weighted_score (snd Sample.bob) = Ok q /\
    (q == Spec.composite (snd Sample.bob))%Q.
Proof.
  assert (Hvalid : Forall (fun r => Spec.valid_priority (priority r)) (snd Sample.bob)).
  { repeat constructor; unfold Spec.valid_priority; simpl; tauto. }
  split; [exact Hvalid |].
  exact (proj1 (weighted_score_formula (snd Sample.bob) Hvalid)).
Defined.

Lemma weighted_score_fails_fast_witness :
  Exists (fun r => ~ Spec.valid_priority (priority r)) Sample.mislabelled /\
  exists label,
    ~ Spec.valid_priority label /\
    calculate_weighted_score Sample.mislabelled = Raise (KeyError label).
Proof.
  assert (Hbad : Exists (fun r => ~ Spec.valid_priority (priority r)) Sample.mislabelled).
  { apply Exists_cons_tl, Exists_cons_hd. unfold Spec.valid_priority. simpl.
    intros [H | [H | H]]; discriminate H. }
  split; [exact Hbad |].
  exact (proj1 (weighted_score_fails_fast Sample.mislabelled) Hbad).
Defined.

Lemma apply_filters_keeps_witness :
  List.NoDup (map fst Sample.scored) /\
  Forall (fun doc => Forall (fun r => Spec.valid_priority (priority r)) (snd doc))
         Sample.scored /\
  exists filtered_results,
    apply_filters Sample.scored Sample.strict = Ok filtered_results /\
    forall cv_name recs,
      In (cv_name, recs) filtered_results <->
      exists scores, In (cv_name, scores) Sample.scored /\ Spec.kept Sample.strict scores recs.
Proof.
  assert (Hnodup : List.NoDup (map fst Sample.scored)).
  { simpl. repeat constructor; simpl; intuition discriminate. }
  assert (Hvalid : Forall (fun doc => Forall (fun r => Spec.valid_priority (priority r)) (snd doc))
                          Sample.scored).
  { repeat constructor; unfold Spec.valid_priority; simpl; tauto. }
  split; [exact Hnodup |]. split; [exact Hvalid |].
  exact (apply_filters_keeps Sample.scored Sample.strict Hnodup Hvalid).
Defined.

(** A tracker built while the clock stands still: no time has elapsed, and
    the query still answers. *)
Lemma eta_before_first_operation_witness :
  completed_operations (tracker (snd (init 3 2 Sample.standing))) = 0%Z /\
  get_estimated_time_remaining (snd (init 3 2 Sample.standing))
  = (Ok "Calculating...", snd (init 3 2 Sample.standing)).
Proof.
  split; [reflexivity |].
  exact (eta_before_first_operation (snd (init 3 2 Sample.standing)) eq_refl).
Defined.

Lemma get_progress_percentage_needs_operations_witness :
  (0 < 3 * 2)%Z /\
  get_progress_percentage (snd (init 3 2 Sample.standing))
  = (Ok (inject_Z 0 / inject_Z (3 * 2) * 100)%Q, snd (init 3 2 Sample.standing)) /\
  (0 = 0 \/ 2 = 0)%Z /\
  get_progress_percentage (snd (init 0 2 Sample.standing))
  = (Raise ZeroDivisionError, snd (init 0 2 Sample.standing)).
Proof.
  split; [reflexivity |]. split.
  { exact (proj1 (get_progress_percentage_needs_operations 3 2 Sample.standing)
                 eq_refl _ eq_refl). }
  split; [left; reflexivity |].
  exact (proj2 (get_progress_percentage_needs_operations 0 2 Sample.standing)
               (or_introl eq_refl)).
Defined.

End Instances.

(* ===================================================================== *)
(** * Further properties *)
(* ===================================================================== *)

(** ** Steps of the scoring functions *)

Section ScoringSteps.

Import AiScoring.

Lemma scoring_step_refl k s : scoring_step k s s.
Proof. split; [repeat split | split; [done | split; [lia | auto]]]. Qed.

Lemma scoring_step_trans k1 k2 s1 s2 s3 :
  scoring_step k1 s1 s2 -> scoring_step k2 s2 s3 -> scoring_step (k1 + k2) s1 s3.
Proof.
  intros [[O1 [C1 [R1 [Q1 [P1 [U1 T1]]]]]] [S1 [N1 I1]]]
         [[O2 [C2 [R2 [Q2 [P2 [U2 T2]]]]]] [S2 [N2 I2]]].
  split; [repeat split; congruence |].
  split; [etransitivity; eassumption |]. split; [lia | auto].
Qed.

Lemma scoring_step_weaken k k' s s' :
  (k <= k')%nat -> scoring_step k s s' -> scoring_step k' s s'.
Proof.
  intros Hk [F [S [N I]]]. split; [exact F |]. split; [exact S |]. split; [lia | exact I].
Qed.

Lemma scoring_step_asked s : scoring_step 1 s (asked s).
Proof. split; [repeat split | split; [done | split; [simpl; lia | auto]]]. Qed.

Lemma cache_in_range_insert c k v :
  (0 <= v <= 100)%Q -> cache_in_range c -> cache_in_range (<[k := v]> c).
Proof.
  intros Hv Hc k' v' Hlook. destruct (decide (k = k')) as [-> | Hne].
  - rewrite lookup_insert_eq in Hlook. injection Hlook as <-. exact Hv.
  - rewrite lookup_insert_ne in Hlook by exact Hne. eauto.
Qed.

Lemma scoring_step_stored s k v :
  score_cache s !! k = None -> (0 <= v <= 100)%Q ->
  scoring_step 1 s (set_score_cache (<[k := v]> (score_cache s)) (asked s)).
Proof.
  intros Hmiss Hv. split; [repeat split |]. simpl.
  split; [now apply insert_subseteq |].
  split; [lia | now apply cache_in_range_insert].
Qed.

Lemma in_type_range_percentage requirement v :
  in_type_range requirement v -> (0 <= v <= 100)%Q.
Proof.
  unfold in_type_range. destruct (String.eqb (req_type requirement) "boolean"); [| tauto].
  intros [-> | ->]; split; discriminate.
Qed.

Lemma normalise_in_range requirement x v :
  normalise requirement x = Ok v -> in_type_range requirement v.
Proof.
  unfold normalise, in_type_range, clamp_boolean, clamp_score.
  destruct (String.eqb (req_type requirement) "boolean").
  - destruct (Py.round x) as [n | e]; simpl; [| discriminate].
    intros [= <-].
    assert (Hn : Z.min 1 (Z.max 0 n) = 0 \/ Z.min 1 (Z.max 0 n) = 1) by lia.
    destruct Hn as [-> | ->]; [now left | now right].
  - intros [= <-]. destruct (clamp_finite x) as [q [-> Hq]]. exact Hq.
Qed.

Lemma fallback_in_range requirement : in_type_range requirement (fallback requirement).
Proof.
  unfold in_type_range, fallback.
  destruct (String.eqb (req_type requirement) "boolean"); [now left |].
  split; discriminate.
Qed.

Lemma zero_percentage : (0 <= 0 <= 100)%Q.
Proof. split; discriminate. Qed.

(** One call of the single-model function, with everything it guarantees. *)
Lemma get_openai_score_step requirement cv_text s :
  exists v s',
    get_openai_score requirement cv_text s = (Ok v, s') /\
    scoring_step 1 s s' /\
    (cache_in_range (score_cache s) -> (0 <= v <= 100)%Q) /\
    (score_cache s !! get_cache_key requirement cv_text "gpt-4o-mini" = None ->
     (0 <= v <= 100)%Q).
Proof.
  rewrite get_openai_score_run.
  destruct (score_cache s !! _) as [cached |] eqn:Ehit.
  { exists cached, s. split; [reflexivity |]. split; [apply scoring_step_refl |].
    split; [intros Hc; eapply Hc; exact Ehit | discriminate]. }
  pose proof zero_percentage as Hzero.
  destruct (oracle s _ _ _ _); [| eauto 10 using scoring_step_asked].
  destruct (float_of_str _) as [x |]; [| eauto 10 using scoring_step_asked].
  destruct (normalise requirement x) as [v | e] eqn:En; [| eauto 10 using scoring_step_asked].
  pose proof (in_type_range_percentage _ _ (normalise_in_range _ _ _ En)) as Hv.
  eexists _, _. split; [reflexivity |].
  split; [now apply scoring_step_stored | auto].
Qed.

(** One model's answer in the voting loop. *)
Lemma ask_model_step requirement cv_text results model s :
  exists v s',
    ask_model requirement cv_text results model s = (Ok (results ++ [v]), s') /\
    scoring_step 1 s s' /\
    (cache_in_range (score_cache s) -> (0 <= v <= 100)%Q) /\
    (forall cached,
       score_cache s !! get_cache_key requirement cv_text model = Some cached ->
       v = cached /\ s' = s).
Proof.
  unfold ask_model. unfold bind at 1. unfold get.
  destruct (score_cache s !! get_cache_key requirement cv_text model) as [cached |] eqn:Ehit.
  { exists cached, s. split; [reflexivity |]. split; [apply scoring_step_refl |].
    split; [intros Hc; eapply Hc; exact Ehit |]. intros c [= <-]. split; reflexivity. }
  pose proof (in_type_range_percentage _ _ (fallback_in_range requirement)) as Hfb.
  unfold try_except, bind at 1.
  destruct (completes_chat model voting_system (voting_prompt requirement cv_text) s)
    as [[c ->] | [msg ->]].
  2: { simpl. eexists _, _. split; [reflexivity |].
       split; [apply scoring_step_asked |]. split; [auto | discriminate]. }
  destruct (search_digits (strip c)) as [number_match |].
  2: { eexists _, _. split; [reflexivity |].
       split; [apply scoring_step_asked |]. split; [auto | discriminate]. }
  unfold bind, lift, Py.float, cache_put, modify, ret.
  destruct (float_of_str number_match) as [x |].
  2: { simpl. eexists _, _. split; [reflexivity |].
       split; [apply scoring_step_asked |]. split; [auto | discriminate]. }
  destruct (normalise requirement x) as [v | e] eqn:En.
  - pose proof (in_type_range_percentage _ _ (normalise_in_range _ _ _ En)) as Hv.
    eexists _, _. split; [reflexivity |].
    split; [exact (scoring_step_stored s _ v Ehit Hv) |]. split; [auto | discriminate].
  - rewrite (normalise_raises _ _ _ En).
    eexists _, _. split; [reflexivity |].
    split; [apply scoring_step_asked |]. split; [auto | discriminate].
Qed.

End ScoringSteps.

Section VotingSteps.

Import AiScoring.

Lemma nth_percentage (l : list Q) (i : nat) :
  Forall (fun x => 0 <= x <= 100)%Q l -> (0 <= nth i l 0 <= 100)%Q.
Proof.
  intros Hall. destruct (Nat.lt_ge_cases i (length l)) as [Hlt | Hge].
  - rewrite List.Forall_forall in Hall. apply Hall, nth_In, Hlt.
  - rewrite nth_overflow by exact Hge. split; discriminate.
Qed.

(** The median of percentages is a percentage. *)
Lemma median_percentage (l : list Q) (m : Q) :
  Spec.is_median l m -> Forall (fun x => 0 <= x <= 100)%Q l -> (0 <= m <= 100)%Q.
Proof.
  intros [sorted [Hperm [_ Hm]]] Hall.
  assert (Hsorted : Forall (fun x => 0 <= x <= 100)%Q sorted).
  { rewrite List.Forall_forall in *. intros x Hx. apply Hall.
    eapply Permutation_in; eassumption. }
  cbv zeta in Hm.
  pose proof (nth_percentage sorted (length sorted / 2 - 1) Hsorted) as Ha.
  pose proof (nth_percentage sorted (length sorted / 2) Hsorted) as Hb.
  destruct (Nat.even (length sorted)); rewrite Hm.
  - split.
    + apply Qle_shift_div_l; [reflexivity | lra].
    + apply Qle_shift_div_r; [reflexivity | lra].
  - exact Hb.
Qed.

Lemma reduce_votes_percentage requirement results m :
  results <> [] ->
  Forall (fun x => 0 <= x <= 100)%Q results ->
  reduce_votes requirement results = Ok m ->
  (0 <= m <= 100)%Q.
Proof.
  intros Hne Hall Hm. destruct (String.eqb (req_type requirement) "boolean") eqn:Ety.
  - unfold reduce_votes in Hm. rewrite Ety in Hm. injection Hm as <-.
    destruct (_ <? _); split; discriminate.
  - destruct (reduce_votes_median requirement results Ety Hne) as [m' [Hm' Hmed]].
    rewrite Hm in Hm'. injection Hm' as <-. eapply median_percentage; eassumption.
Qed.

(** One call of the voting function, with everything it guarantees. *)
Lemma get_openai_score_with_voting_step requirement cv_text s :
  exists v s',
    get_openai_score_with_voting requirement cv_text s = (Ok v, s') /\
    scoring_step 3 s s' /\
    (cache_in_range (score_cache s) -> (0 <= v <= 100)%Q) /\
    (is_Some (score_cache s !! get_cache_key requirement cv_text "gpt-4o-mini") ->
     (oracle_calls s' <= oracle_calls s + 2)%nat).
Proof.
  unfold get_openai_score_with_voting. unfold bind at 1. unfold get.
  destruct (score_cache s !! get_cache_key requirement cv_text "voting") as [cached |] eqn:Ehit.
  { exists cached, s. split; [reflexivity |]. split; [apply scoring_step_refl |].
    split; [intros Hc; eapply Hc; exact Ehit | lia]. }
  unfold models. simpl for_each.
  destruct (ask_model_step requirement cv_text [] "gpt-4o" s)
    as [v1 [s1 [H1 [A1 [R1 _]]]]].
  destruct (ask_model_step requirement cv_text ([] ++ [v1]) "gpt-4o-mini" s1)
    as [v2 [s2 [H2 [A2 [R2 M2]]]]].
  destruct (ask_model_step requirement cv_text (([] ++ [v1]) ++ [v2]) "gpt-4o-2024-11-20" s2)
    as [v3 [s3 [H3 [A3 [R3 _]]]]].
  destruct (reduce_votes_ok requirement ((([] ++ [v1]) ++ [v2]) ++ [v3])) as [m Hm];
    [discriminate |].
  pose proof (scoring_step_trans _ _ _ _ _ A1 A2) as A12.
  pose proof (scoring_step_trans _ _ _ _ _ A12 A3) as A123.
  destruct A123 as [F123 [S123 [N123 I123]]].
  exists m. eexists. split.
  { unfold bind. rewrite H1, H2, H3. unfold ret, lift. rewrite Hm.
    unfold cache_put, modify. reflexivity. }
  assert (Hrange : cache_in_range (score_cache s) -> (0 <= m <= 100)%Q).
  { intros Hc. destruct A1 as [_ [_ [_ I1]]]. destruct A2 as [_ [_ [_ I2]]].
    apply (reduce_votes_percentage requirement ((([] ++ [v1]) ++ [v2]) ++ [v3]) m);
      [discriminate | | exact Hm].
    simpl. constructor; [exact (R1 Hc) |].
    constructor; [exact (R2 (I1 Hc)) |].
    constructor; [exact (R3 (I2 (I1 Hc))) | constructor]. }
  split; [| split; [exact Hrange |]].
  - split; [exact F123 |]. simpl. split; [| split; [exact N123 |]].
    + apply insert_subseteq_r; [exact Ehit | exact S123].
    + intros Hc. apply cache_in_range_insert; auto.
  - intros [cached Hmini]. simpl.
    assert (Hmini1 : score_cache s1 !! get_cache_key requirement cv_text "gpt-4o-mini"
                     = Some cached).
    { destruct A1 as [_ [S1 _]]. eapply lookup_weaken; eassumption. }
    destruct (M2 cached Hmini1) as [_ ->].
    destruct A1 as [_ [_ [N1 _]]]. destruct A3 as [_ [_ [N3 _]]]. lia.
Qed.

(** With every model failing and nothing cached, the voting function
    returns the type's fallback after three requests and stores it under the
    voting key alone. *)
Lemma voting_all_fail requirement cv_text s :
  (forall n model system user, exists msg, oracle s n model system user = ClientError msg) ->
  score_cache s !! get_cache_key requirement cv_text "voting" = None ->
  (forall model, In model models ->
                 score_cache s !! get_cache_key requirement cv_text model = None) ->
  get_openai_score_with_voting requirement cv_text s =
  (Ok (fallback requirement),
   set_score_cache (<[get_cache_key requirement cv_text "voting" := fallback requirement]>
                      (score_cache s))
                   (asked (asked (asked s)))).
Proof.
  intros Hfail Hvoting Hmodels.
  assert (Hask : forall results model s0,
             oracle s0 = oracle s -> score_cache s0 = score_cache s -> In model models ->
             ask_model requirement cv_text results model s0
             = (Ok (results ++ [fallback requirement]), asked s0)).
  { intros results model s0 Ho Hc Hin. apply ask_model_fallback.
    - rewrite Hc. now apply Hmodels.
    - rewrite Ho. destruct (Hfail (oracle_calls s0) model voting_system
                                  (voting_prompt requirement cv_text)) as [msg ->].
      exact I. }
  unfold get_openai_score_with_voting. unfold bind at 1. unfold get.
  rewrite Hvoting. unfold models in *. simpl for_each. unfold bind.
  rewrite (Hask [] "gpt-4o"%string s eq_refl eq_refl) by (simpl; tauto).
  rewrite (Hask _ "gpt-4o-mini"%string (asked s) eq_refl eq_refl) by (simpl; tauto).
  rewrite (Hask _ "gpt-4o-2024-11-20"%string (asked (asked s)) eq_refl eq_refl)
    by (simpl; tauto).
  unfold ret, lift, reduce_votes, fallback, cache_put, modify.
  destruct (String.eqb (req_type requirement) "boolean"); reflexivity.
Qed.

End VotingSteps.

(** ** Running the batch functions *)

Section Runs.

Import AiScoring PdfProcessor BatchProcessing.

Lemma runs_ret {A} (a : A) s (Q : A -> Session -> Prop) : Q a s -> runs (ret a) s Q.
Proof. intros H. exists a, s. split; [reflexivity | exact H]. Qed.

Lemma runs_bind {A B} (m : M A) (f : A -> M B) s (P : A -> Session -> Prop)
    (Q : B -> Session -> Prop) :
  runs m s P ->
  (forall a s', P a s' -> runs (f a) s' Q) ->
  runs (bind m f) s Q.
Proof.
  intros [a [s1 [Hm HP]]] Hf. destruct (Hf a s1 HP) as [b [s2 [Hfa HQ]]].
  exists b, s2. split; [| exact HQ]. unfold bind. rewrite Hm. exact Hfa.
Qed.

Lemma runs_weaken {A} (m : M A) s (P Q : A -> Session -> Prop) :
  runs m s P -> (forall a s', P a s' -> Q a s') -> runs m s Q.
Proof. intros [a [s' [Hm HP]]] HPQ. exists a, s'. split; auto. Qed.

Lemma runs_try {A} (body : M A) catches handler s (Q : A -> Session -> Prop) :
  runs body s Q -> runs (try_except body catches handler) s Q.
Proof.
  intros [a [s' [Hb HQ]]]. exists a, s'. split; [| exact HQ].
  unfold try_except. rewrite Hb. reflexivity.
Qed.

Lemma runs_modify f s (Q : unit -> Session -> Prop) : Q tt (f s) -> runs (modify f) s Q.
Proof. intros H. exists tt, (f s). split; [reflexivity | exact H]. Qed.

Lemma runs_get_bind {B} (f : Session -> M B) s (Q : B -> Session -> Prop) :
  runs (f s) s Q -> runs (s0 <- get ;; f s0) s Q.
Proof. intros H. exact H. Qed.

Lemma runs_lift_bind {A B} (r : result A) (a : A) (f : A -> M B) s
    (Q : B -> Session -> Prop) :
  r = Ok a -> runs (f a) s Q -> runs (x <- lift r ;; f x) s Q.
Proof. intros -> H. exact H. Qed.

(** A loop keeps an invariant of the elements already handled. *)
Lemma runs_for_each {A B} (body : B -> A -> M B)
    (Inv : list A -> B -> Session -> Prop) (l : list A) :
  forall done acc s,
    Inv done acc s ->
    (forall done' x acc' s',
       In x l -> Inv done' acc' s' -> runs (body acc' x) s' (Inv (done' ++ [x]))) ->
    runs (for_each l acc body) s (Inv (done ++ l)).
Proof.
  induction l as [| x r IH]; intros done acc s Hinv Hbody; simpl.
  - rewrite app_nil_r. now apply runs_ret.
  - eapply runs_bind.
    + apply (Hbody done x acc s); [now left | exact Hinv].
    + intros acc' s' Hinv'. simpl in Hinv'.
      replace (done ++ x :: r) with ((done ++ [x]) ++ r) by now rewrite <- app_assoc.
      apply IH; [exact Hinv' |]. intros d y a0 s0 Hin. apply Hbody. now right.
Qed.

Lemma batch_step_refl s : batch_step 0 s s.
Proof. unfold batch_step. split; [| split; [| split; [| split]]]; try done. lia. Qed.

Lemma batch_step_trans k1 k2 s1 s2 s3 :
  batch_step k1 s1 s2 -> batch_step k2 s2 s3 -> batch_step (k1 + k2) s1 s3.
Proof.
  intros [O1 [C1 [R1 [S1 N1]]]] [O2 [C2 [R2 [S2 N2]]]].
  split; [congruence |]. split; [congruence |]. split; [congruence |].
  split; [etransitivity; eassumption | lia].
Qed.

Lemma batch_step_eq k k' s s' : k = k' -> batch_step k s s' -> batch_step k' s s'.
Proof. intros ->. auto. Qed.

Lemma batch_step_of_scoring k s s' :
  scoring_step k s s' -> batch_step (Z.of_nat k) s s'.
Proof.
  intros [[O [C [_ [R _]]]] [S [N _]]].
  split; [exact O |]. split; [exact C |]. split; [exact R |]. split; [exact S | lia].
Qed.

Lemma runs_start_file s : runs start_file s (fun _ s' => quiet s s').
Proof.
  eexists _, _. split; [reflexivity |]. split; [| repeat split].
  unfold batch_step. simpl. split; [| split; [| split; [| split]]]; try done. lia.
Qed.

Lemma runs_start_requirement s : runs start_requirement s (fun _ s' => quiet s s').
Proof.
  eexists _, _. split; [reflexivity |]. split; [| repeat split].
  unfold batch_step. simpl. split; [| split; [| split; [| split]]]; try done. lia.
Qed.

Lemma runs_complete_file s : runs complete_file s (fun _ s' => quiet s s').
Proof.
  unfold complete_file, runs, bind, get_tracker, get, ret. simpl.
  destruct (truthy (current_file_start (tracker s))); simpl;
    eexists _, _; (split; [reflexivity |]); (split; [| repeat split]);
    unfold batch_step; simpl; (split; [| split; [| split; [| split]]]); try done; lia.
Qed.

Lemma runs_complete_requirement s : runs complete_requirement s (fun _ s' => quiet s s').
Proof.
  unfold complete_requirement, runs, bind, get_tracker, get, ret. simpl.
  destruct (truthy (current_req_start (tracker s))); simpl;
    eexists _, _; (split; [reflexivity |]); (split; [| repeat split]);
    unfold batch_step; simpl; (split; [| split; [| split; [| split]]]); try done; lia.
Qed.

Lemma quiet_then k s1 s2 s3 :
  quiet s1 s2 -> batch_step k s2 s3 -> batch_step k s1 s3.
Proof.
  intros [B _] H. apply (batch_step_eq (0 + k)); [lia |].
  eapply batch_step_trans; eassumption.
Qed.

Lemma then_quiet k s1 s2 s3 :
  batch_step k s1 s2 -> quiet s2 s3 -> batch_step k s1 s3.
Proof.
  intros H [B _]. apply (batch_step_eq (k + 0)); [lia |].
  eapply batch_step_trans; eassumption.
Qed.

(** One requirement scored: one record appended, with the requirement's
    text, weight and type. *)
Lemma runs_score_requirement use_voting_system cv_text scores req s :
  runs (score_requirement use_voting_system cv_text scores req) s
       (fun scores' s' =>
          (exists x, scores' = scores ++ [ {| requirement := req_text req; score := x;
                                               priority := req_weight req;
                                               score_type := req_type req |} ]) /\
          batch_step (requests_per_requirement use_voting_system) s s' /\
          current_results s' = current_results s /\
          processed_files s' = processed_files s).
Proof.
  unfold score_requirement.
  eapply runs_bind; [apply runs_start_requirement |].
  intros u1 s1 Q1. cbv beta in Q1.
  eapply runs_bind with
    (P := fun _ s2 => batch_step (requests_per_requirement use_voting_system) s1 s2 /\
                      current_results s2 = current_results s1 /\
                      processed_files s2 = processed_files s1).
  { destruct use_voting_system.
    - destruct (get_openai_score_with_voting_step req cv_text s1) as [v [s2 [H [St _]]]].
      exists v, s2. split; [exact H |].
      split; [exact (batch_step_of_scoring 3 _ _ St) |].
      destruct St as [[_ [_ [_ [_ [P [U _]]]]]] _]. split; assumption.
    - destruct (get_openai_score_step req cv_text s1) as [v [s2 [H [St _]]]].
      exists v, s2. split; [exact H |].
      split; [exact (batch_step_of_scoring 1 _ _ St) |].
      destruct St as [[_ [_ [_ [_ [P [U _]]]]]] _]. split; assumption. }
  intros x s2 [B2 [U2 P2]].
  eapply runs_bind; [apply runs_complete_requirement |].
  intros u3 s3 Q3. cbv beta in Q3. apply runs_ret.
  split; [eauto |].
  destruct Q1 as [B1 [U1 [P1 _]]]. destruct Q3 as [B3 [U3 [P3 _]]].
  split; [| split; congruence].
  apply (batch_step_eq (0 + (requests_per_requirement use_voting_system + 0))); [lia |].
  eapply batch_step_trans; [exact B1 |]. eapply batch_step_trans; eassumption.
Qed.

Lemma shaped_snoc reqs scores req r :
  shaped reqs scores ->
  requirement r = req_text req /\ priority r = req_weight req /\ score_type r = req_type req ->
  shaped (reqs ++ [req]) (scores ++ [r]).
Proof.
  intros Hs Hr. apply Forall2_app; [exact Hs |]. constructor; [exact Hr | constructor].
Qed.

(** A document with text scored against every requirement. *)
Lemma runs_score_file filename cv_text use_voting_system s :
  runs (score_file filename cv_text use_voting_system) s
       (fun scores s' =>
          shaped (requirements s) scores /\
          batch_step (requests_per_requirement use_voting_system
                      * Z.of_nat (length (requirements s))) s s' /\
          current_results s' = current_results s /\
          processed_files s' = <[filename := cv_text]> (processed_files s)).
Proof.
  unfold score_file.
  eapply runs_bind with
    (P := fun _ s1 =>
            s1 = set_processed_files (<[filename := cv_text]> (processed_files s)) s);
    [apply runs_modify; reflexivity |].
  intros u1 s1 ->. apply runs_get_bind. simpl requirements.
  eapply runs_bind.
  - apply (runs_for_each _
             (fun done scores s' =>
                shaped done scores /\
                batch_step (requests_per_requirement use_voting_system
                            * Z.of_nat (length done))
                           (set_processed_files (<[filename := cv_text]> (processed_files s)) s)
                           s' /\
                current_results s' = current_results s /\
                processed_files s' = <[filename := cv_text]> (processed_files s))
             (requirements s) [] []).
    + split; [constructor |]. split; [| split; reflexivity].
      apply (batch_step_eq 0); [simpl; lia | apply batch_step_refl].
    + intros done req acc s2 _ [Hshape [Hstep [Hcur Hproc]]].
      eapply runs_weaken; [apply runs_score_requirement |].
      intros scores' s3 [[x ->] [B [U P]]].
      split; [apply shaped_snoc; [exact Hshape | simpl; tauto] |].
      split; [| split; congruence].
      rewrite length_app. simpl length.
      apply (batch_step_eq (requests_per_requirement use_voting_system * Z.of_nat (length done)
                            + requests_per_requirement use_voting_system)); [lia |].
      eapply batch_step_trans; eassumption.
  - intros scores s2 [Hshape [Hstep [Hcur Hproc]]]. simpl in Hshape, Hstep.
    eapply runs_bind; [apply runs_complete_file |].
    intros u3 s3 Q3. cbv beta in Q3. apply runs_ret.
    pose proof Q3 as [B3 [U3 [P3 _]]].
    split; [exact Hshape |]. split; [| split; congruence].
    eapply then_quiet; [| exact Q3].
    destruct Hstep as [O [C [R [S N]]]].
    split; [exact O |]. split; [exact C |]. split; [exact R |]. split; [exact S | exact N].
Qed.

End Runs.

Section BatchResults.

Import AiScoring PdfProcessor BatchProcessing.

Lemma dict_set_keys d k v :
  map fst (dict_set d k v) = if existsb (String.eqb k) (map fst d) then map fst d
                             else map fst d ++ [k].
Proof.
  induction d as [| [k' v'] r IH]; simpl; [reflexivity |].
  rewrite (String.eqb_sym k k').
  destruct (String.eqb_spec k' k) as [-> | Hne]; simpl; [reflexivity |].
  rewrite IH. destruct (existsb _ _); reflexivity.
Qed.

Lemma existsb_eqb_in k (l : list string) : existsb (String.eqb k) l = true <-> In k l.
Proof.
  rewrite existsb_exists. split.
  - intros [x [Hin Heq]]. apply String.eqb_eq in Heq. now subst.
  - intros Hin. exists k. split; [exact Hin | apply String.eqb_refl].
Qed.

Lemma dict_set_in_keys d k v n :
  In n (map fst (dict_set d k v)) <-> In n (map fst d) \/ n = k.
Proof.
  rewrite dict_set_keys. destruct (existsb (String.eqb k) (map fst d)) eqn:E.
  - apply existsb_eqb_in in E. split; [tauto |]. intros [H | ->]; assumption.
  - rewrite in_app_iff. simpl. split; intros [H | H]; try tauto.
    + destruct H as [<- | []]. now right.
    + subst. right. now left.
Qed.

Lemma dict_set_nodup d k v :
  List.NoDup (map fst d) -> List.NoDup (map fst (dict_set d k v)).
Proof.
  intros Hnd. rewrite dict_set_keys.
  destruct (existsb (String.eqb k) (map fst d)) eqn:E; [exact Hnd |].
  apply List.NoDup_app; [exact Hnd | repeat constructor; intros [] |].
  intros a Ha [<- | []]. apply existsb_eqb_in in Ha. congruence.
Qed.

Lemma dict_set_forall (P : string * list ScoreRecord -> Prop) d k v :
  Forall P d -> P (k, v) -> Forall P (dict_set d k v).
Proof.
  intros Hd Hkv. induction Hd as [| [k' v'] r Hx Hr IH]; simpl.
  - repeat constructor. exact Hkv.
  - destruct (String.eqb k' k); constructor; assumption.
Qed.

(** One document processed: what is returned and what the session keeps. *)
Lemma runs_process_single_file filename file_obj is_zip use_voting_system s :
  runs (process_single_file filename file_obj is_zip use_voting_system) s
       (fun out s' =>
          current_results s' = current_results s /\
          if Spec.has_text file_obj then
            batch_step (requests_per_requirement use_voting_system
                        * Z.of_nat (length (requirements s))) s s' /\
            exists scores,
              out = Some scores /\ shaped (requirements s) scores /\
              processed_files s' = <[filename := process_pdf file_obj]> (processed_files s)
          else
            batch_step 0 s s' /\ out = None /\ processed_files s' = processed_files s).
Proof.
  unfold process_single_file.
  eapply runs_bind; [apply runs_start_file |].
  intros u1 s1 Q1. cbv beta in Q1. pose proof Q1 as [[_ [_ [R1 _]]] [U1 [P1 _]]].
  eapply runs_bind with
    (P := fun attempt s2 =>
            current_results s2 = current_results s1 /\
            if Spec.has_text file_obj then
              batch_step (requests_per_requirement use_voting_system
                          * Z.of_nat (length (requirements s1))) s1 s2 /\
              exists scores,
                attempt = Some scores /\ shaped (requirements s1) scores /\
                processed_files s2 = <[filename := process_pdf file_obj]> (processed_files s1)
            else
              batch_step 0 s1 s2 /\ attempt = None /\ processed_files s2 = processed_files s1).
  - destruct (content file_obj) as [data |] eqn:Edata; [| destruct is_zip eqn:Ezip].
    + apply runs_try. unfold runs, bind at 1.
      rewrite extract_text_run, Edata. fold (Spec.has_text file_obj).
      destruct (Spec.has_text file_obj).
      * eapply runs_bind; [apply runs_score_file |].
        intros scores s2 [Hshape [Hstep [Hcur Hproc]]]. apply runs_ret.
        split; [exact Hcur |]. split; [exact Hstep |]. eauto.
      * apply runs_ret. split; [reflexivity |].
        split; [apply batch_step_refl | split; reflexivity].
    + rewrite (has_text_content _ Edata).
      exists None, s1. split.
      * unfold try_except, bind. rewrite extract_text_run, Edata. reflexivity.
      * split; [reflexivity |]. split; [apply batch_step_refl | split; reflexivity].
    + rewrite (has_text_content _ Edata).
      apply runs_try. unfold runs, bind at 1.
      rewrite extract_text_run, Edata. fold (Spec.has_text file_obj).
      rewrite (has_text_content _ Edata). apply runs_ret.
      split; [reflexivity |]. split; [apply batch_step_refl | split; reflexivity].
  - intros attempt s2 [U2 H2]. rewrite <- R1.
    destruct (Spec.has_text file_obj).
    + destruct H2 as [B2 [scores [-> [Hshape Hproc]]]]. apply runs_ret.
      split; [congruence |]. split; [eapply quiet_then; eassumption |].
      exists scores. split; [reflexivity |]. split; [exact Hshape | congruence].
    + destruct H2 as [B2 [-> Hproc]].
      eapply runs_bind; [apply runs_complete_file |].
      intros u3 s3 Q3. cbv beta in Q3. pose proof Q3 as [_ [U3 [P3 _]]].
      apply runs_ret. split; [congruence |].
      split; [| split; [reflexivity | congruence]].
      eapply quiet_then; [exact Q1 |]. eapply then_quiet; eassumption.
Qed.

Lemma shaped_nil_iff reqs scores : shaped reqs scores -> (scores = [] <-> reqs = []).
Proof. intros H. destruct H; split; intros; try reflexivity; discriminate. Qed.

Lemma batch_step_current_results k s0 s r :
  batch_step k s0 s -> batch_step k s0 (set_current_results r s).
Proof. intros H. exact H. Qed.

(** The invariant survives a document that yields no text. *)
Lemma batch_inv_skip s0 per_document names all_results s s1 :
  batch_inv s0 per_document names all_results s ->
  batch_step 0 s s1 ->
  current_results s1 = current_results s ->
  processed_files s1 = processed_files s ->
  batch_inv s0 per_document names all_results s1.
Proof.
  intros [B [Hnd [Hall [Hin [Hni [Hcur Hproc]]]]]] B1 U1 P1.
  split; [| split; [exact Hnd | split; [exact Hall | split; [exact Hin | split; [exact Hni |]]]]].
  - apply (batch_step_eq (per_document * Z.of_nat (length names) + 0)); [lia |].
    eapply batch_step_trans; eassumption.
  - split; [intros H0; rewrite U1; auto |].
    intros n Hn. rewrite P1. auto.
Qed.

(** The invariant survives a document that yields text: its name joins the
    names, and its score list, unless empty, the results. *)
Lemma batch_inv_record s0 use_voting_system names all_results s s1 filename text scores :
  let per_document :=
    requests_per_requirement use_voting_system * Z.of_nat (length (requirements s0)) in
  batch_inv s0 per_document names all_results s ->
  batch_step per_document s s1 ->
  current_results s1 = current_results s ->
  processed_files s1 = <[filename := text]> (processed_files s) ->
  text <> ""%string ->
  shaped (requirements s0) scores ->
  match scores with
  | [] => batch_inv s0 per_document (names ++ [filename]) all_results s1
  | _ :: _ =>
      batch_inv s0 per_document (names ++ [filename])
                (dict_set all_results filename scores)
                (set_current_results (dict_set (current_results s1) filename scores) s1)
  end.
Proof.
  intros per_document [B [Hnd [Hall [Hin [Hni [Hcur Hproc]]]]]] B1 U1 P1 Htext Hshape.
  assert (Hbudget : batch_step (per_document * Z.of_nat (length (names ++ [filename]))) s0 s1).
  { rewrite length_app. simpl length.
    apply (batch_step_eq (per_document * Z.of_nat (length names) + per_document)); [lia |].
    eapply batch_step_trans; eassumption. }
  assert (Hkept : forall n, In n (names ++ [filename]) ->
                            exists t, processed_files s1 !! n = Some t /\ t <> ""%string).
  { intros n Hn. rewrite P1. destruct (decide (filename = n)) as [-> | Hne].
    - exists text. split; [apply lookup_insert_eq | exact Htext].
    - rewrite lookup_insert_ne by exact Hne. apply Hproc.
      apply in_app_iff in Hn. destruct Hn as [Hn | [Hn | []]]; [exact Hn | congruence]. }
  destruct scores as [| r rest] eqn:Escores.
  - (* no requirement: nothing is recorded *)
    assert (Hnone : requirements s0 = []) by (apply (shaped_nil_iff _ _ Hshape); reflexivity).
    split; [exact Hbudget |]. split; [exact Hnd |]. split; [exact Hall |].
    split; [intros n Hn; apply in_app_iff; left; auto |].
    split; [intros Hsome; congruence |].
    split; [intros H0; rewrite U1; auto | exact Hkept].
  - split; [exact Hbudget |].
    split; [now apply dict_set_nodup |].
    split; [apply dict_set_forall; [exact Hall | simpl; split; [exact Hshape | discriminate]] |].
    split.
    { intros n Hn. apply dict_set_in_keys in Hn. apply in_app_iff. simpl.
      destruct Hn as [Hn | ->]; [left; auto | right; now left]. }
    split.
    { intros Hsome n Hn. apply dict_set_in_keys. apply in_app_iff in Hn.
      destruct Hn as [Hn | [<- | []]]; [left; auto | now right]. }
    split; [| exact Hkept].
    intros H0. simpl. rewrite U1, (Hcur H0). reflexivity.
Qed.

Lemma has_text_nonempty file_obj :
  Spec.has_text file_obj = true -> process_pdf file_obj <> ""%string.
Proof.
  unfold Spec.has_text. intros H C. rewrite C in H. discriminate.
Qed.

(** The invariant after [process_single_file] and the recording of its
    result, for the two places that do so. *)
Lemma batch_inv_processed s0 use_voting_system names all_results s filename file_obj out s1 :
  let per_document :=
    requests_per_requirement use_voting_system * Z.of_nat (length (requirements s0)) in
  batch_inv s0 per_document names all_results s ->
  current_results s1 = current_results s ->
  (if Spec.has_text file_obj then
     batch_step (requests_per_requirement use_voting_system
                 * Z.of_nat (length (requirements s))) s s1 /\
     exists scores,
       out = Some scores /\ shaped (requirements s) scores /\
       processed_files s1 = <[filename := process_pdf file_obj]> (processed_files s)
   else batch_step 0 s s1 /\ out = None /\ processed_files s1 = processed_files s) ->
  match nonempty out with
  | Some result =>
      batch_inv s0 per_document
                (names ++ (if Spec.has_text file_obj then [filename] else []))
                (dict_set all_results filename result)
                (set_current_results (dict_set (current_results s1) filename result) s1)
  | None =>
      batch_inv s0 per_document
                (names ++ (if Spec.has_text file_obj then [filename] else []))
                all_results s1
  end.
Proof.
  intros per_document Hinv U1 Hout.
  assert (Hreq : requirements s = requirements s0) by (destruct Hinv as [[_ [_ [R _]]] _]; exact R).
  destruct (Spec.has_text file_obj) eqn:Etext.
  - destruct Hout as [B1 [scores [-> [Hshape Hproc]]]]. rewrite Hreq in B1, Hshape.
    pose proof (batch_inv_record s0 use_voting_system names all_results s s1 filename
                  (process_pdf file_obj) scores Hinv B1 U1 Hproc
                  (has_text_nonempty _ Etext) Hshape) as Hrec.
    destruct scores; exact Hrec.
  - destruct Hout as [B1 [-> Hproc]]. simpl. rewrite app_nil_r.
    eapply batch_inv_skip; eassumption.
Qed.

(** One archive member. *)
Lemma runs_process_member s0 z use_voting_system names state filename s :
  let per_document :=
    requests_per_requirement use_voting_system * Z.of_nat (length (requirements s0)) in
  member_opens z filename = true ->
  batch_inv s0 per_document names (fst (fst state)) s ->
  runs (process_member z use_voting_system false state filename) s
       (fun state' s' =>
          batch_inv s0 per_document
                    (names ++ (if Spec.member_has_text z filename then [filename] else []))
                    (fst (fst state')) s').
Proof.
  intros per_document Hin Hinv. destruct (member_opens_file z filename Hin) as [f Hf].
  destruct state as [[all_results file_counter_value] i]. simpl in Hinv.
  unfold process_member, Spec.member_has_text. rewrite Hf.
  apply (runs_lift_bind (Ok f) f); [reflexivity |].
  eapply runs_bind; [apply runs_process_single_file |].
  intros out s1 [U1 Hout].
  pose proof (batch_inv_processed s0 use_voting_system names all_results s filename f out s1
                Hinv U1 Hout) as Hnext.
  destruct (nonempty out) as [result |].
  - eapply runs_bind with
      (P := fun all_results' s2 =>
              batch_inv s0 per_document
                        (names ++ (if Spec.has_text f then [filename] else []))
                        all_results' s2).
    + eapply runs_bind with
        (P := fun _ s2 =>
                s2 = set_current_results (dict_set (current_results s1) filename result) s1);
        [apply runs_modify; reflexivity |].
      intros u2 s2 ->. simpl andb. apply runs_ret. exact Hnext.
    + intros all_results' s2 Hinv2. apply runs_ret. exact Hinv2.
  - eapply runs_bind with
      (P := fun all_results' s2 =>
              batch_inv s0 per_document
                        (names ++ (if Spec.has_text f then [filename] else []))
                        all_results' s2).
    + apply runs_ret. exact Hnext.
    + intros all_results' s2 Hinv2. apply runs_ret. exact Hinv2.
Qed.

(** One upload. *)
Lemma runs_process_upload s0 use_voting_system names state uploaded_file s :
  let per_document :=
    requests_per_requirement use_voting_system * Z.of_nat (length (requirements s0)) in
  (String.eqb (type uploaded_file) "application/zip" = true -> archive uploaded_file <> None) ->
  upload_members_open uploaded_file = true ->
  batch_inv s0 per_document names (fst state) s ->
  runs (process_upload use_voting_system false state uploaded_file) s
       (fun state' s' =>
          batch_inv s0 per_document (names ++ text_names_in uploaded_file) (fst state') s').
Proof.
  intros per_document Hzip Hopen Hinv. destruct state as [all_results file_counter_value].
  simpl in Hinv. unfold process_upload, text_names_in. unfold upload_members_open in Hopen.
  destruct (String.eqb (type uploaded_file) "application/zip").
  - destruct (archive uploaded_file) as [z |] eqn:Ez; [| now destruct Hzip].
    rewrite forallb_forall in Hopen.
    unfold ZipFile. rewrite Ez. apply (runs_lift_bind (Ok z) z); [reflexivity |].
    eapply runs_bind.
    + apply (runs_for_each _
               (fun done state' s' =>
                  batch_inv s0 per_document
                            (names ++ List.filter (Spec.member_has_text z) done)
                            (fst (fst state')) s')
               (List.filter is_pdf_name (namelist z)) []).
      * simpl. rewrite app_nil_r. exact Hinv.
      * intros done filename state' s' Hin Hinv'.
        eapply runs_weaken.
        { apply (runs_process_member s0 z use_voting_system
                   (names ++ List.filter (Spec.member_has_text z) done) state' filename s');
            [apply Hopen, Hin | exact Hinv']. }
        intros state'' s'' Hinv''. cbv beta in Hinv''.
        rewrite List.filter_app. simpl List.filter.
        destruct (Spec.member_has_text z filename); rewrite <- app_assoc in Hinv'';
          [exact Hinv'' |]. simpl in Hinv''. simpl. rewrite app_nil_r.
        rewrite app_nil_r in Hinv''. exact Hinv''.
    + intros [[all_results' fcv'] i'] s' Hinv'. apply runs_ret. exact Hinv'.
  - destruct (String.eqb (type uploaded_file) "application/pdf").
    + eapply runs_bind; [apply runs_process_single_file |].
      intros out s1 [U1 Hout].
      pose proof (batch_inv_processed s0 use_voting_system names all_results s
                    (name uploaded_file) (file uploaded_file) out s1 Hinv U1 Hout) as Hnext.
      destruct (nonempty out) as [result |].
      * eapply runs_bind with
          (P := fun all_results' s2 =>
                  batch_inv s0 per_document
                            (names ++ (if Spec.has_text (file uploaded_file)
                                       then [name uploaded_file] else []))
                            all_results' s2).
        -- eapply runs_bind with
             (P := fun _ s2 =>
                     s2 = set_current_results
                            (dict_set (current_results s1) (name uploaded_file) result) s1);
             [apply runs_modify; reflexivity |].
           intros u2 s2 ->. apply runs_ret. exact Hnext.
        -- intros all_results' s2 Hinv2. apply runs_ret. exact Hinv2.
      * eapply runs_bind with
          (P := fun all_results' s2 =>
                  batch_inv s0 per_document
                            (names ++ (if Spec.has_text (file uploaded_file)
                                       then [name uploaded_file] else []))
                            all_results' s2).
        -- apply runs_ret. exact Hnext.
        -- intros all_results' s2 Hinv2. apply runs_ret. exact Hinv2.
    + apply runs_ret. simpl. rewrite app_nil_r. exact Hinv.
Qed.

Lemma batch_inv_start s0 per_document : batch_inv s0 per_document [] [] s0.
Proof.
  split; [apply (batch_step_eq 0); [simpl; lia | apply batch_step_refl] |].
  split; [constructor |]. split; [constructor |].
  split; [intros n [] |]. split; [intros _ n [] |].
  split; [auto | intros n []].
Qed.

(** The whole batch, run without partial-result reruns. *)
Lemma runs_process_files uploaded_files use_voting_system s :
  Forall (fun u => String.eqb (type u) "application/zip" = true -> archive u <> None)
         uploaded_files ->
  members_open uploaded_files ->
  runs (process_files uploaded_files use_voting_system false) s
       (fun all_results s' =>
          batch_inv s (requests_per_requirement use_voting_system
                       * Z.of_nat (length (requirements s)))
                    (text_names uploaded_files) all_results s').
Proof.
  intros Hvalid Hopen. unfold process_files.
  eapply runs_bind.
  - apply (runs_for_each _
             (fun done state' s' =>
                batch_inv s (requests_per_requirement use_voting_system
                             * Z.of_nat (length (requirements s)))
                          (text_names done) (fst state') s')
             uploaded_files [] ([], 0)).
    + apply batch_inv_start.
    + intros done u state' s' Hin Hinv'.
      eapply runs_weaken.
      { apply (runs_process_upload s use_voting_system (text_names done) state' u s');
          [| | exact Hinv'].
        - rewrite List.Forall_forall in Hvalid. now apply Hvalid.
        - unfold members_open in Hopen. rewrite List.Forall_forall in Hopen.
          now apply Hopen. }
      intros state'' s'' Hinv''. cbv beta in Hinv''.
      unfold text_names. rewrite flat_map_app. simpl. rewrite app_nil_r. exact Hinv''.
  - intros [all_results fcv] s' Hinv'. apply runs_ret. exact Hinv'.
Qed.

Lemma successes_text_names uploaded_files :
  Spec.successes uploaded_files = Z.of_nat (length (text_names uploaded_files)).
Proof.
  unfold Spec.successes, text_names.
  induction uploaded_files as [| u r IH]; simpl; [reflexivity |].
  rewrite length_app, Nat2Z.inj_add, IH. f_equal.
  unfold Spec.successes_in, text_names_in.
  destruct (String.eqb (type u) "application/zip").
  - destruct (archive u); reflexivity.
  - destruct (String.eqb (type u) "application/pdf"); [| reflexivity].
    destruct (Spec.has_text (file u)); reflexivity.
Qed.

End BatchResults.

(** ** The filter as a list function *)

Section FilterResults.

Import DataHandling Filters.

Lemma filter_step_raise p rest e :
  fold_left (filter_step p) rest (Raise e) = Raise e.
Proof. induction rest as [| [n sc] r IH]; simpl; auto. Qed.

Lemma kept_documents_keys p all_results n :
  In n (map fst (kept_documents p all_results)) -> In n (map fst all_results).
Proof.
  unfold kept_documents. induction all_results as [| [k sc] r IH]; simpl; [tauto |].
  rewrite map_app, in_app_iff. intros [H | H]; [| right; auto].
  destruct (keep p sc) as [[recs |] | e]; simpl in H; tauto.
Qed.

(** On a dictionary with valid labels the filter is a filter: it returns
    the kept documents in the order of the input. *)
Lemma apply_filters_from_exact p all_results :
  Forall (fun doc => Forall (fun r => Spec.valid_priority (priority r)) (snd doc)) all_results ->
  forall acc,
    List.NoDup (map fst acc ++ map fst all_results) ->
    fold_left (filter_step p) all_results (Ok acc) = Ok (acc ++ kept_documents p all_results).
Proof.
  induction 1 as [| [cv_name scores] rest Hvalid _ IH]; intros acc Hnodup.
  - simpl. now rewrite app_nil_r.
  - simpl in Hvalid. destruct (keep_kept p scores Hvalid) as [o [Hkeep _]].
    simpl fold_left. unfold kept_documents. simpl flat_map. rewrite Hkeep.
    simpl result_bind. fold (kept_documents p rest).
    assert (Hfresh : ~ In cv_name (map fst acc)).
    { simpl in Hnodup. apply NoDup_remove_2 in Hnodup.
      intros C. apply Hnodup, in_or_app. now left. }
    destruct o as [recs |].
    + rewrite (dict_set_fresh _ _ _ Hfresh), IH.
      * now rewrite <- app_assoc.
      * rewrite map_app, <- app_assoc. exact Hnodup.
    + rewrite IH; [reflexivity |].
      simpl in Hnodup. apply NoDup_remove_1 in Hnodup. exact Hnodup.
Qed.

Lemma kept_documents_sublist p all_results :
  sublist (map fst (kept_documents p all_results)) (map fst all_results).
Proof.
  unfold kept_documents. induction all_results as [| [k sc] r IH]; simpl; [constructor |].
  rewrite map_app. destruct (keep p sc) as [[recs |] | e]; simpl.
  - now constructor.
  - now constructor.
  - now constructor.
Qed.

End FilterResults.

(** ** Composite scores *)

Section Composite.

Import DataHandling Filters.

Lemma weight_nonneg label : 0 <= Spec.weight label.
Proof.
  unfold Spec.weight.
  destruct (String.eqb label "Low"); [lia |].
  destruct (String.eqb label "Medium"); [lia |].
  destruct (String.eqb label "High"); lia.
Qed.

Lemma value_on_scale r : on_scale r -> (0 <= Spec.value r <= 100)%Q.
Proof.
  unfold on_scale, Spec.value.
  destruct (String.eqb (score_type r) "boolean"); intros [Hlo Hhi]; split; lra.
Qed.

Lemma totals_on_scale scores :
  Forall (fun r => 0 <= Spec.value r <= 100)%Q scores ->
  (0 <= Spec.weighted_total scores <= 100 * inject_Z (Spec.weight_total scores))%Q
  /\ 0 <= Spec.weight_total scores.
Proof.
  induction 1 as [| r rest [Hlo Hhi] _ [[IHlo IHhi] IHw]]; simpl.
  - split; [split; unfold Qle; simpl; lia | lia].
  - pose proof (weight_nonneg (priority r)) as Hw.
    assert (Hwq : (0 <= inject_Z (Spec.weight (priority r)))%Q).
    { change 0%Q with (inject_Z 0). now rewrite <- Zle_Qle. }
    rewrite inject_Z_plus. split; [| lia]. split; nra.
Qed.

Lemma composite_on_scale scores :
  Forall (fun r => 0 <= Spec.value r <= 100)%Q scores ->
  (0 <= Spec.composite scores <= 100)%Q.
Proof.
  intros Hall. destruct (totals_on_scale scores Hall) as [[Hlo Hhi] Hw].
  unfold Spec.composite. destruct (Spec.weight_total scores =? 0) eqn:E.
  - split; discriminate.
  - apply Z.eqb_neq in E.
    assert (Hpos : (0 < inject_Z (Spec.weight_total scores))%Q).
    { change 0%Q with (inject_Z 0). rewrite <- Zlt_Qlt. lia. }
    split.
    + apply Qle_shift_div_l; [exact Hpos | lra].
    + apply Qle_shift_div_r; [exact Hpos | lra].
Qed.

Lemma totals_nonneg scores :
  Forall (fun r => 0 <= score r)%Q scores ->
  (0 <= Spec.weighted_total scores)%Q /\ 0 <= Spec.weight_total scores.
Proof.
  induction 1 as [| r rest Hlo _ [IHlo IHw]]; simpl.
  - split; [lra | lia].
  - pose proof (weight_nonneg (priority r)) as Hw.
    assert (Hwq : (0 <= inject_Z (Spec.weight (priority r)))%Q).
    { change 0%Q with (inject_Z 0). now rewrite <- Zle_Qle. }
    assert (Hv : (0 <= Spec.value r)%Q).
    { unfold Spec.value. destruct (String.eqb (score_type r) "boolean"); lra. }
    split; [nra | lia].
Qed.

Lemma composite_nonneg scores :
  Forall (fun r => 0 <= score r)%Q scores -> (0 <= Spec.composite scores)%Q.
Proof.
  intros Hall. destruct (totals_nonneg scores Hall) as [Hlo Hw].
  unfold Spec.composite. destruct (Spec.weight_total scores =? 0) eqn:E.
  - discriminate.
  - apply Z.eqb_neq in E.
    assert (Hpos : (0 < inject_Z (Spec.weight_total scores))%Q).
    { change 0%Q with (inject_Z 0). rewrite <- Zlt_Qlt. lia. }
    apply Qle_shift_div_l; [exact Hpos | lra].
Qed.

End Composite.

Section MoreOnAggregation.

Import DataHandling Filters DataHandlingMore App.

(** X4. With valid priority labels and every record on the scale of its type
    (a boolean score between 0 and 1, a score between 0 and 100) the
    composite lies between 0 and 100; for the empty list it is 0. *)
Theorem weighted_score_on_scale (scores : list ScoreRecord) :
  Forall (fun r => Spec.valid_priority (priority r)) scores ->
  Forall on_scale scores ->
  exists q,
    calculate_weighted_score scores = Ok q /\
    (0 <= q <= 100)%Q /\
    (scores = [] -> q = 0%Q).
Proof.
  intros Hvalid Hscale.
  destruct (calculate_weighted_score_valid _ Hvalid) as [q [Hq Hqc]].
  exists q. split; [exact Hq |]. split.
  - rewrite Hqc. apply composite_on_scale.
    rewrite List.Forall_forall in *. intros r Hr. apply value_on_scale, Hscale, Hr.
  - intros ->. simpl in Hq. now injection Hq as <-.
Qed.

Lemma kept_documents_nodup p all_results :
  List.NoDup (map fst all_results) -> List.NoDup (map fst (kept_documents p all_results)).
Proof.
  unfold kept_documents. induction all_results as [| [k sc] r IH]; simpl; intros Hnd.
  - constructor.
  - apply NoDup_cons_iff in Hnd. destruct Hnd as [Hk Hr].
    fold (kept_documents p r) in *.
    destruct (keep p sc) as [[recs |] | e]; simpl; try (now apply IH).
    constructor; [| now apply IH].
    intros C. apply Hk. eapply kept_documents_keys. exact C.
Qed.

(** X5. With valid priority labels the filter returns a dictionary whose
    names are a subsequence of the input's names, in the input's order,
    without repeats: it never adds or reorders documents. *)
Theorem apply_filters_in_order (all_results : ResultSet) (filter_params : FilterParams) :
  List.NoDup (map fst all_results) ->
  Forall (fun doc => Forall (fun r => Spec.valid_priority (priority r)) (snd doc))
         all_results ->
  exists filtered_results,
    apply_filters all_results filter_params = Ok filtered_results /\
    sublist (map fst filtered_results) (map fst all_results) /\
    List.NoDup (map fst filtered_results) /\
    (length filtered_results <= length all_results)%nat.
Proof.
  intros Hnodup Hvalid. exists (kept_documents filter_params all_results).
  split; [exact (apply_filters_from_exact filter_params all_results Hvalid [] Hnodup) |].
  pose proof (kept_documents_sublist filter_params all_results) as Hsub.
  split; [exact Hsub |]. split; [now apply kept_documents_nodup |].
  apply sublist_length in Hsub. rewrite !length_map in Hsub. exact Hsub.
Qed.

Lemma keep_no_filter scores :
  Forall (fun r => Spec.valid_priority (priority r)) scores ->
  Forall (fun r => 0 <= score r)%Q scores ->
  keep no_filter scores = Ok (Some scores).
Proof.
  intros Hvalid Hnonneg.
  destruct (calculate_weighted_score_valid _ Hvalid) as [q [Hq Hqc]].
  unfold keep. rewrite Hq. simpl.
  assert (Hlt : Py.lt q 0 = false).
  { apply lt_false_le. rewrite Hqc. now apply composite_nonneg. }
  rewrite Hlt. reflexivity.
Qed.

(** X6. The filter state the interface starts from (minimum 0, no selected
    requirement, booleans not required) returns results with valid labels
    and no negative score exactly as they are. *)
Theorem apply_filters_no_filter (all_results : ResultSet) :
  List.NoDup (map fst all_results) ->
  Forall (fun doc => Forall (fun r => Spec.valid_priority (priority r)) (snd doc))
         all_results ->
  Forall (fun doc => Forall (fun r => 0 <= score r)%Q (snd doc)) all_results ->
  apply_filters all_results no_filter = Ok all_results.
Proof.
  intros Hnodup Hvalid Hnonneg.
  pose proof (apply_filters_from_exact no_filter all_results Hvalid [] Hnodup) as Hrun.
  unfold apply_filters. change (fold_left _ all_results (Ok [])) with
    (fold_left (filter_step no_filter) all_results (Ok [])).
  rewrite Hrun. simpl. f_equal. clear Hrun Hnodup.
  unfold kept_documents. induction all_results as [| [k sc] r IH]; simpl; [reflexivity |].
  inversion Hvalid; subst. inversion Hnonneg; subst. simpl in *.
  rewrite keep_no_filter by assumption. simpl. f_equal. now apply IH.
Qed.

(** The first record with an unknown label, when there is one. *)
Lemma first_unknown_label (scores : list ScoreRecord) :
  Exists (fun r => ~ Spec.valid_priority (priority r)) scores ->
  exists pre r post,
    scores = pre ++ r :: post /\
    Forall (fun r => Spec.valid_priority (priority r)) pre /\
    ~ Spec.valid_priority (priority r).
Proof.
  induction scores as [| r rest IH]; intros Hbad; [inversion Hbad |].
  destruct (valid_priority_dec (priority r)) as [Hv | Hn].
  - destruct IH as [pre [r' [post [-> [Hpre Hr']]]]].
    { inversion Hbad; subst; [contradiction | assumption]. }
    exists (r :: pre), r', post. split; [reflexivity |]. split; [now constructor | exact Hr'].
  - exists [], r, rest. split; [reflexivity |]. split; [constructor | exact Hn].
Qed.

(** The composite raises at the first record with an unknown label, with
    that label as the key. *)
Lemma calculate_weighted_score_first_unknown pre r post :
  Forall (fun r => Spec.valid_priority (priority r)) pre ->
  ~ Spec.valid_priority (priority r) ->
  calculate_weighted_score (pre ++ r :: post) = Raise (KeyError (priority r)).
Proof.
  intros Hpre Hr. unfold calculate_weighted_score.
  rewrite fold_left_app, (accumulate_valid _ Hpre). simpl.
  rewrite (weight_map_invalid _ Hr). simpl. rewrite accumulate_raise. reflexivity.
Qed.

Lemma labels_dec (scores : list ScoreRecord) :
  {Forall (fun r => Spec.valid_priority (priority r)) scores}
  + {Exists (fun r => ~ Spec.valid_priority (priority r)) scores}.
Proof.
  induction scores as [| r rest [IH | IH]].
  - left. constructor.
  - destruct (valid_priority_dec (priority r)) as [Hv | Hn].
    + left. now constructor.
    + right. now apply Exists_cons_hd.
  - right. now apply Exists_cons_tl.
Qed.

(** The first document that holds a record with an unknown label. *)
Lemma first_unknown_document (all_results : ResultSet) :
  Exists (fun doc => Exists (fun r => ~ Spec.valid_priority (priority r)) (snd doc))
         all_results ->
  exists before doc after,
    all_results = before ++ doc :: after /\
    Forall (fun doc => Forall (fun r => Spec.valid_priority (priority r)) (snd doc)) before /\
    Exists (fun r => ~ Spec.valid_priority (priority r)) (snd doc).
Proof.
  induction all_results as [| doc rest IH]; intros Hbad; [inversion Hbad |].
  destruct (labels_dec (snd doc)) as [Hv | Hn].
  - destruct IH as [before [doc' [after [-> [Hbefore Hdoc']]]]].
    { inversion Hbad as [? ? Hhere | ? ? Hthere]; subst; [| exact Hthere].
      exfalso. clear -Hv Hhere.
      induction Hhere as [r l Hr | r l _ IHl]; inversion Hv; subst; auto. }
    exists (doc :: before), doc', after.
    split; [reflexivity |]. split; [now constructor | exact Hdoc'].
  - exists [], doc, rest. split; [reflexivity |]. split; [constructor | exact Hn].
Qed.

(** Documents with known labels never stop the loop. *)
Lemma filter_steps_known p (before : ResultSet) :
  Forall (fun doc => Forall (fun r => Spec.valid_priority (priority r)) (snd doc)) before ->
  forall acc, exists acc', fold_left (filter_step p) before (Ok acc) = Ok acc'.
Proof.
  induction 1 as [| [k sc] rest Hdoc _ IH]; intros acc; simpl; [eauto |].
  destruct (keep_kept p sc Hdoc) as [o [Hkeep _]]. rewrite Hkeep. simpl.
  destruct o; apply IH.
Qed.

(** X7. A record with a priority label other than Low, Medium or High, in
    any document, makes the filter raise [KeyError] for the whole result
    set, whatever the parameters; the key of the error is the label of the
    first such record of the first document that has one. *)
Theorem apply_filters_unknown_label (all_results : ResultSet) (filter_params : FilterParams) :
  Exists (fun doc => Exists (fun r => ~ Spec.valid_priority (priority r)) (snd doc))
         all_results ->
  exists before cv_name pre r post after,
    all_results = before ++ (cv_name, pre ++ r :: post) :: after /\
    Forall (fun doc => Forall (fun r => Spec.valid_priority (priority r)) (snd doc)) before /\
    Forall (fun r => Spec.valid_priority (priority r)) pre /\
    ~ Spec.valid_priority (priority r) /\
    apply_filters all_results filter_params = Raise (KeyError (priority r)).
Proof.
  intros Hbad.
  destruct (first_unknown_document all_results Hbad)
    as [before [[cv_name scores] [after [-> [Hbefore Hdoc]]]]].
  destruct (first_unknown_label scores Hdoc) as [pre [r [post [-> [Hpre Hr]]]]].
  exists before, cv_name, pre, r, post, after.
  split; [reflexivity |]. split; [exact Hbefore |]. split; [exact Hpre |].
  split; [exact Hr |].
  unfold apply_filters.
  change (fold_left _ (before ++ (cv_name, pre ++ r :: post) :: after) (Ok [])) with
    (fold_left (filter_step filter_params)
               (before ++ (cv_name, pre ++ r :: post) :: after) (Ok [])).
  rewrite fold_left_app.
  destruct (filter_steps_known filter_params before Hbefore []) as [acc Hacc].
  transitivity (fold_left (filter_step filter_params)
                          ((cv_name, pre ++ r :: post) :: after) (Ok acc)).
  { f_equal. exact Hacc. }
  simpl fold_left. unfold keep.
  rewrite (calculate_weighted_score_first_unknown pre r post Hpre Hr).
  simpl result_bind. apply filter_step_raise.
Qed.

(** X8. Raising the minimum score, the other parameters the same, only
    removes documents: what the stricter filter returns, the laxer one
    returns too, with the same records. *)
Theorem apply_filters_threshold (all_results : ResultSet) (p p' : FilterParams) :
  List.NoDup (map fst all_results) ->
  Forall (fun doc => Forall (fun r => Spec.valid_priority (priority r)) (snd doc))
         all_results ->
  (min_score p <= min_score p')%Q ->
  selected_requirements p' = selected_requirements p ->
  must_meet_all_boolean p' = must_meet_all_boolean p ->
  exists out out',
    apply_filters all_results p = Ok out /\
    apply_filters all_results p' = Ok out' /\
    forall cv_name recs, In (cv_name, recs) out' -> In (cv_name, recs) out.
Proof.
  intros Hnodup Hvalid Hmin Hsel Hbool.
  destruct (apply_filters_from p all_results Hvalid [] Hnodup) as [out [Hout [_ Hmem]]].
  destruct (apply_filters_from p' all_results Hvalid [] Hnodup) as [out' [Hout' [_ Hmem']]].
  exists out, out'. split; [exact Hout |]. split; [exact Hout' |].
  intros cv_name recs Hin. apply Hmem. right.
  apply Hmem' in Hin. destruct Hin as [[] | [scores [Hdoc Hkept]]].
  exists scores. split; [exact Hdoc |].
  destruct Hkept as [[c [Hc Hle]] [Hb [Hs Hp]]].
  split; [exists c; split; [exact Hc | eapply Qle_trans; eassumption] |].
  rewrite Hsel, Hbool in *. tauto.
Qed.

End MoreOnAggregation.

(** ** Statistics, risk and archive listing *)

Section Stats.

Import DataHandling Filters DataHandlingMore App PdfProcessor BatchProcessing.

Lemma filter_length_le {A} (f : A -> bool) (l : list A) :
  (length (List.filter f l) <= length l)%nat.
Proof.
  induction l as [| x r IH]; simpl; [lia |]. destruct (f x); simpl; lia.
Qed.

Lemma filter_implies_length {A} (f g : A -> bool) (l : list A) :
  (forall x, f x = true -> g x = true) ->
  (length (List.filter f l) <= length (List.filter g l))%nat.
Proof.
  intros Himp. induction l as [| x r IH]; simpl; [lia |].
  destruct (f x) eqn:Ef.
  - rewrite (Himp x Ef). simpl. lia.
  - destruct (g x); simpl; lia.
Qed.

Lemma filter_disjoint_length {A} (f g : A -> bool) (l : list A) :
  (forall x, f x = true -> g x = false) ->
  (length (List.filter f l) + length (List.filter g l) <= length l)%nat.
Proof.
  intros Hdis. induction l as [| x r IH]; simpl; [lia |].
  destruct (f x) eqn:Ef.
  - rewrite (Hdis x Ef). simpl. lia.
  - destruct (g x); simpl; lia.
Qed.

(** X9. The statistics never raise; the met booleans are among the boolean
    requirements, the high scores among the others, the two kinds add up to
    the number of records, and with no score requirement the average is 0. *)
Theorem get_requirement_stats_counts (scores : list ScoreRecord) :
  exists boolean_reqs met_boolean score_reqs high_scores score_based_avg,
    get_requirement_stats scores
    = Ok (boolean_reqs, met_boolean, score_reqs, high_scores, score_based_avg) /\
    0 <= met_boolean <= boolean_reqs /\
    0 <= high_scores <= score_reqs /\
    boolean_reqs + score_reqs = Z.of_nat (length scores) /\
    (score_reqs = 0 -> score_based_avg = 0%Q).
Proof.
  unfold get_requirement_stats.
  set (boolean_reqs := count_if (is_type "boolean") scores).
  set (score_reqs := Z.of_nat (length scores) - boolean_reqs).
  assert (Hmet : 0 <= count_if (fun r => is_type "boolean" r && Qeq_bool (score r) 1) scores
                 <= boolean_reqs).
  { unfold boolean_reqs, count_if. split; [lia |]. apply inj_le.
    apply filter_implies_length. intros r Hr. apply andb_true_iff in Hr. tauto. }
  assert (Hhigh : 0 <= count_if (fun r => is_type "score" r && Qle_bool 70 (score r)) scores
                  <= score_reqs).
  { unfold score_reqs, boolean_reqs, count_if. split; [lia |].
    pose proof (filter_disjoint_length
                  (fun r => is_type "score" r && Qle_bool 70 (score r))
                  (is_type "boolean") scores) as Hdis.
    assert (Hd : forall r, is_type "score" r && Qle_bool 70 (score r) = true ->
                           is_type "boolean" r = false).
    { intros r Hr. apply andb_true_iff in Hr. destruct Hr as [Hr _].
      unfold is_type in *. apply String.eqb_eq in Hr. rewrite Hr. reflexivity. }
    specialize (Hdis Hd). lia. }
  destruct (0 <? score_reqs) eqn:Epos.
  - apply Z.ltb_lt in Epos. rewrite truediv_nonzero by lia. simpl.
    eexists _, _, _, _, _. split; [reflexivity |].
    split; [exact Hmet |]. split; [exact Hhigh |]. split; [unfold score_reqs; lia | lia].
  - simpl. eexists _, _, _, _, _. split; [reflexivity |].
    split; [exact Hmet |]. split; [exact Hhigh |]. split; [unfold score_reqs; lia | reflexivity].
Qed.

Lemma count_if_le (f g : ScoreRecord -> bool) scores :
  (forall r, In r scores -> f r = true -> g r = true) ->
  count_if f scores <= count_if g scores.
Proof.
  intros H. unfold count_if. apply inj_le.
  induction scores as [| x r IH]; simpl; [lia |].
  assert (IH' : (length (List.filter f r) <= length (List.filter g r))%nat).
  { apply IH. intros y Hy. apply H. now right. }
  destruct (f x) eqn:Ef.
  - rewrite (H x (or_introl eq_refl) Ef). simpl. lia.
  - destruct (g x); simpl; lia.
Qed.

Lemma count_if_zero (f : ScoreRecord -> bool) scores :
  count_if f scores = 0 <-> Forall (fun r => f r = false) scores.
Proof.
  unfold count_if. induction scores as [| r rest IH]; simpl.
  - split; [constructor | reflexivity].
  - destruct (f r) eqn:E; simpl length.
    + split; [lia |]. intros H. inversion H; subst. congruence.
    + rewrite IH. split; [now constructor |]. intros H. now inversion H.
Qed.

Lemma lt_true_iff a b : Py.lt a b = true <-> (a < b)%Q.
Proof.
  unfold Py.lt. rewrite negb_true_iff. split.
  - intros H. apply Qnot_le_lt. intros C. apply Qle_bool_iff in C. congruence.
  - intros H. apply not_true_is_false. intros C. apply Qle_bool_iff in C.
    apply Qlt_not_le in H. contradiction.
Qed.

(** X10. The risk assessment compares raw scores with 40, booleans included:
    every boolean failure counts as a low score, the level is Low exactly
    when no score is under 40, and three boolean requirements (scored at
    most 1) always give High. *)
Theorem assess_candidate_risk_levels (scores : list ScoreRecord) :
  boolean_failures (assess_candidate_risk scores)
  <= low_score_requirements (assess_candidate_risk scores)
  /\ (overall_risk_level (assess_candidate_risk scores) = "Low"%string
      <-> Forall (fun r => 40 <= score r)%Q scores)
  /\ (Forall (fun r => score_type r = "boolean"%string -> score r <= 1)%Q scores ->
      3 <= count_if (is_type "boolean") scores ->
      overall_risk_level (assess_candidate_risk scores) = "High"%string).
Proof.
  unfold assess_candidate_risk. simpl.
  set (low := count_if (fun r => Py.lt (score r) 40) scores).
  set (failures := count_if (fun r => is_type "boolean" r && Qeq_bool (score r) 0) scores).
  assert (Hfl : failures <= low).
  { apply count_if_le. intros r _ Hr. apply andb_true_iff in Hr. destruct Hr as [_ Hz].
    apply Qeq_bool_iff in Hz. apply lt_true_iff. rewrite Hz. reflexivity. }
  assert (Hlow0 : 0 <= low) by (unfold low, count_if; lia).
  assert (Hzero : low = 0 <-> Forall (fun r => 40 <= score r)%Q scores).
  { unfold low. rewrite count_if_zero. rewrite !List.Forall_forall.
    split; intros H r Hr; specialize (H r Hr); now apply lt_false_le. }
  split; [exact Hfl |]. split.
  - rewrite <- Hzero.
    destruct (2 <? low) eqn:E2; [apply Z.ltb_lt in E2; split; [discriminate | lia] |].
    destruct (1 <? failures) eqn:E1; [apply Z.ltb_lt in E1; split; [discriminate | lia] |].
    destruct (0 <? low) eqn:E0; [apply Z.ltb_lt in E0; split; [discriminate | lia] |].
    apply Z.ltb_ge in E0. split; [lia | reflexivity].
  - intros Hbool Hthree.
    assert (Hle : count_if (is_type "boolean") scores <= low).
    { apply count_if_le. intros r Hin Hr. unfold is_type in Hr. apply String.eqb_eq in Hr.
      rewrite List.Forall_forall in Hbool. specialize (Hbool r Hin Hr).
      apply lt_true_iff. eapply Qle_lt_trans; [exact Hbool | reflexivity]. }
    destruct (2 <? low) eqn:E2; [reflexivity |]. apply Z.ltb_ge in E2. lia.
Qed.

Lemma member_content_opens z filename :
  member_content z filename <> None ->
  exists f data, zip_open z filename = Ok f /\ content f = Some data.
Proof.
  unfold member_content. destruct (zip_open z filename) as [f | e]; [| congruence].
  destruct (content f) as [data |] eqn:Edata; [eauto | congruence].
Qed.

Lemma collect_pdf_raise z l e : fold_left (collect_pdf z) l (Raise e) = Raise e.
Proof. induction l as [| x r IH]; simpl; auto. Qed.

Lemma get_pdfs_from_readable z (l : list string) :
  Forall (fun n => member_content z n <> None) (List.filter is_pdf_name l) ->
  forall acc,
    exists pdf_files,
      fold_left (collect_pdf z) l (Ok acc) = Ok (acc ++ pdf_files) /\
      map fst pdf_files = List.filter is_pdf_name l.
Proof.
  induction l as [| n r IH]; intros Hreadable acc.
  - exists []. split; [simpl; now rewrite app_nil_r | reflexivity].
  - cbn [fold_left]. simpl List.filter in *. unfold collect_pdf at 2. simpl result_bind.
    destruct (is_pdf_name n) eqn:Epdf.
    + inversion Hreadable as [| ? ? Hn Hrest]; subst.
      destruct (member_content_opens z n Hn) as [f [data [Hf Hdata]]].
      rewrite Hf. simpl result_bind. unfold read. rewrite Hdata. simpl result_bind.
      destruct (IH Hrest (acc ++ [(n, BytesIO data)])) as [more [Hrun Hnames]].
      exists ((n, BytesIO data) :: more). split.
      * rewrite Hrun, <- app_assoc. reflexivity.
      * simpl. now rewrite Hnames.
    + apply (IH Hreadable acc).
Qed.

Lemma get_pdfs_from_unreadable z (l : list string) :
  Exists (fun n => member_content z n = None) (List.filter is_pdf_name l) ->
  forall acc,
    exists e,
      fold_left (collect_pdf z) l (Ok acc) = Raise e /\
      (forallb (member_opens z) (List.filter is_pdf_name l) = true ->
       exists msg, e = IOError msg).
Proof.
  induction l as [| n r IH]; intros Hbad acc.
  - inversion Hbad.
  - cbn [fold_left]. simpl List.filter in *. unfold collect_pdf at 2. simpl result_bind.
    destruct (is_pdf_name n) eqn:Epdf; [| apply IH; exact Hbad].
    simpl forallb. unfold member_opens at 1.
    destruct (zip_open z n) as [f | e] eqn:Hf; simpl result_bind.
    + unfold read. destruct (content f) as [data |] eqn:Edata; simpl result_bind.
      * apply IH. inversion Hbad as [? ? Hn | ? ? Hrest]; subst; [| exact Hrest].
        unfold member_content in Hn. rewrite Hf in Hn. congruence.
      * rewrite collect_pdf_raise. eauto.
    + rewrite collect_pdf_raise. exists e. split; [reflexivity | discriminate].
Qed.

(** X11. [get_pdfs_from_zip] is all or nothing: when every PDF-named member
    can be read it returns them all, in the archive's order, as many as
    [count_total_files] counts for the archive; one unreadable member makes
    the whole call raise, with the error of the read when every member
    opens. *)
Theorem get_pdfs_from_zip_all_or_nothing (zip_file : UploadedFile)
    (z : list (string * result FileObj)) :
  archive zip_file = Some z ->
  (Forall (fun n => member_content z n <> None) (List.filter is_pdf_name (namelist z)) ->
   exists pdf_files,
     get_pdfs_from_zip zip_file = Ok pdf_files /\
     map fst pdf_files = List.filter is_pdf_name (namelist z) /\
     (String.eqb (type zip_file) "application/zip" = true ->
      count_total_files [zip_file] = Ok (Z.of_nat (length pdf_files))))
  /\ (Exists (fun n => member_content z n = None) (List.filter is_pdf_name (namelist z)) ->
      exists e,
        get_pdfs_from_zip zip_file = Raise e /\
        (forallb (member_opens z) (List.filter is_pdf_name (namelist z)) = true ->
         exists msg, e = IOError msg)).
Proof.
  intros Harchive. unfold get_pdfs_from_zip, ZipFile. rewrite Harchive. simpl result_bind.
  split.
  - intros Hreadable.
    destruct (get_pdfs_from_readable z (namelist z) Hreadable [])
      as [pdf_files [Hrun Hnames]].
    exists pdf_files. split; [exact Hrun |]. split; [exact Hnames |].
    intros Hzip. unfold count_total_files. simpl. rewrite Hzip.
    unfold ZipFile. rewrite Harchive. simpl.
    rewrite <- Hnames, length_map. reflexivity.
  - intros Hbad. exact (get_pdfs_from_unreadable z (namelist z) Hbad []).
Qed.

End Stats.

(** ** Scoring and batches *)

Section MoreOnScoring.

Import AiScoring PdfProcessor BatchProcessing DataHandling Filters.

Lemma score_with_step use_voting_system requirement cv_text s :
  exists v s',
    score_with use_voting_system requirement cv_text s = (Ok v, s') /\
    scoring_step (if use_voting_system then 3 else 1) s s' /\
    (cache_in_range (score_cache s) -> (0 <= v <= 100)%Q).
Proof.
  destruct use_voting_system; simpl.
  - destruct (get_openai_score_with_voting_step requirement cv_text s)
      as [v [s' [H [St [R _]]]]]. eauto.
  - destruct (get_openai_score_step requirement cv_text s) as [v [s' [H [St [R _]]]]]. eauto.
Qed.

(** X12. On a cache miss the single-model function returns a value of the
    requirement's range, whatever the oracle does: 0 or 1 for a boolean
    requirement, between 0 and 100 otherwise. *)
Theorem get_openai_score_on_scale (requirement : Requirement) (cv_text : string)
    (s : Session) :
  score_cache s !! get_cache_key requirement cv_text "gpt-4o-mini" = None ->
  exists v s',
    get_openai_score requirement cv_text s = (Ok v, s') /\ in_type_range requirement v.
Proof.
  intros Hmiss. rewrite get_openai_score_run, Hmiss.
  assert (Hzero : in_type_range requirement 0).
  { unfold in_type_range. destruct (String.eqb _ _); [now left | split; discriminate]. }
  destruct (oracle s _ _ _ _); [| eauto].
  destruct (float_of_str _) as [x |]; [| eauto].
  destruct (normalise requirement x) as [v | e] eqn:En; [| eauto].
  eauto using normalise_in_range.
Qed.

(** X13. A cache that holds percentages keeps holding percentages through
    either scoring function, and the value returned is a percentage. *)
Theorem scoring_keeps_percentages (use_voting_system : bool) (requirement : Requirement)
    (cv_text : string) (s : Session) :
  cache_in_range (score_cache s) ->
  exists v s',
    score_with use_voting_system requirement cv_text s = (Ok v, s') /\
    (0 <= v <= 100)%Q /\
    cache_in_range (score_cache s').
Proof.
  intros Hcache.
  destruct (score_with_step use_voting_system requirement cv_text s)
    as [v [s' [H [[_ [_ [_ I]]] R]]]].
  exists v, s'. auto.
Qed.

(** X14. Either scoring function returns, only adds entries to the cache,
    makes at most one oracle request (three with voting) and leaves the
    rest of the session as it was. *)
Theorem scoring_only_adds_to_cache (use_voting_system : bool) (requirement : Requirement)
    (cv_text : string) (s : Session) :
  exists v s',
    score_with use_voting_system requirement cv_text s = (Ok v, s') /\
    score_cache s ⊆ score_cache s' /\
    (oracle_calls s <= oracle_calls s'
     <= oracle_calls s + (if use_voting_system then 3 else 1))%nat /\
    requirements s' = requirements s /\
    tracker s' = tracker s /\
    processed_files s' = processed_files s /\
    current_results s' = current_results s /\
    clock_reads s' = clock_reads s.
Proof.
  destruct (score_with_step use_voting_system requirement cv_text s)
    as [v [s' [H [[[_ [_ [C [R [P [U T]]]]]] [S [N _]]] _]]]].
  exists v, s'. repeat (split; [assumption |]). assumption.
Qed.

(** X15. The voting function shares the per-model cache with the
    single-model function: once the latter has stored gpt-4o-mini's answer,
    a voting call for the same requirement and text makes at most two
    requests. *)
Theorem voting_reuses_single_model_answer (requirement : Requirement) (cv_text : string)
    (s : Session) (v : Q) :
  score_cache s !! get_cache_key requirement cv_text "gpt-4o-mini" = None ->
  answers requirement cv_text s v ->
  exists s1 w s2,
    get_openai_score requirement cv_text s = (Ok v, s1) /\
    get_openai_score_with_voting requirement cv_text s1 = (Ok w, s2) /\
    (oracle_calls s2 <= oracle_calls s1 + 2)%nat.
Proof.
  intros Hmiss Hans.
  pose proof (get_openai_score_success requirement cv_text s v Hmiss Hans) as Hfirst.
  destruct (get_openai_score_with_voting_step requirement cv_text
              (set_score_cache
                 (<[get_cache_key requirement cv_text "gpt-4o-mini" := v]> (score_cache s))
                 (asked s))) as [w [s2 [Hsecond [_ [_ Hshared]]]]].
  eexists _, w, s2. split; [exact Hfirst |]. split; [exact Hsecond |].
  apply Hshared. simpl. rewrite lookup_insert_eq. eauto.
Qed.

(** X16. When every model's request fails and nothing is cached, the voting
    function returns the fallback of the requirement's type (0 for boolean,
    50 otherwise) after exactly three requests, and stores it under the
    voting key only. *)
Theorem voting_falls_back_when_all_fail (requirement : Requirement) (cv_text : string)
    (s : Session) :
  (forall n model system user, exists msg, oracle s n model system user = ClientError msg) ->
  score_cache s !! get_cache_key requirement cv_text "voting" = None ->
  (forall model, In model models ->
                 score_cache s !! get_cache_key requirement cv_text model = None) ->
  exists s',
    get_openai_score_with_voting requirement cv_text s = (Ok (fallback requirement), s') /\
    oracle_calls s' = (oracle_calls s + 3)%nat /\
    score_cache s'
    = <[get_cache_key requirement cv_text "voting" := fallback requirement]> (score_cache s).
Proof.
  intros Hfail Hvoting Hmodels. eexists. split; [now apply voting_all_fail |].
  simpl. split; [lia | reflexivity].
Qed.

End MoreOnScoring.

Section MoreOnBatches.

Import AiScoring PdfProcessor BatchProcessing DataHandling Filters.

Lemma archives_open_valid uploaded_files :
  archives_open uploaded_files ->
  Forall (fun u => String.eqb (type u) "application/zip" = true -> archive u <> None)
         uploaded_files.
Proof. intros H. exact H. Qed.

(** X17. When every archive and every PDF-named archive member opens, the
    batch returns a dictionary: distinct document names, each with a
    non-empty list of one record per requirement, in the order of the
    requirements and with their text, weight and type. *)
Theorem process_files_results_shape (uploaded_files : list UploadedFile)
    (use_voting_system : bool) (s : Session) :
  archives_open uploaded_files ->
  members_open uploaded_files ->
  exists all_results s',
    process_files uploaded_files use_voting_system false s = (Ok all_results, s') /\
    List.NoDup (map fst all_results) /\
    Forall (fun doc => shaped (requirements s) (snd doc) /\ snd doc <> []) all_results.
Proof.
  intros Hopen Hmembers.
  destruct (runs_process_files uploaded_files use_voting_system s Hopen Hmembers)
    as [all_results [s' [Hrun [_ [Hnd [Hshape _]]]]]].
  exists all_results, s'. auto.
Qed.

Lemma shaped_valid reqs scores :
  Forall (fun req => Spec.valid_priority (req_weight req)) reqs ->
  shaped reqs scores ->
  Forall (fun r => Spec.valid_priority (priority r)) scores.
Proof.
  intros Hvalid Hshape. induction Hshape as [| req r reqs scores [_ [Hp _]] _ IH].
  - constructor.
  - inversion Hvalid; subst. constructor; [now rewrite Hp | now apply IH].
Qed.

(** X18. Batch and filter compose: when every archive and every PDF-named
    archive member opens and every requirement's weight is Low, Medium or
    High, the batch returns and its results can be filtered with any
    parameters without an error. *)
Theorem process_files_then_apply_filters (uploaded_files : list UploadedFile)
    (use_voting_system : bool) (s : Session) (filter_params : FilterParams) :
  archives_open uploaded_files ->
  members_open uploaded_files ->
  Forall (fun req => Spec.valid_priority (req_weight req)) (requirements s) ->
  exists all_results s' filtered_results,
    process_files uploaded_files use_voting_system false s = (Ok all_results, s') /\
    apply_filters all_results filter_params = Ok filtered_results.
Proof.
  intros Hopen Hmembers Hweights.
  destruct (runs_process_files uploaded_files use_voting_system s Hopen Hmembers)
    as [all_results [s' [Hrun [_ [Hnd [Hshape _]]]]]].
  assert (Hvalid : Forall (fun doc => Forall (fun r => Spec.valid_priority (priority r))
                                             (snd doc)) all_results).
  { rewrite List.Forall_forall in Hshape. apply List.Forall_forall. intros doc Hdoc.
    destruct (Hshape doc Hdoc) as [Hs _]. eapply shaped_valid; eassumption. }
  destruct (apply_filters_from filter_params all_results Hvalid [] Hnd) as [out [Hout _]].
  exists all_results, s', out. split; [exact Hrun | exact Hout].
Qed.

(** X19. When every archive and every PDF-named archive member opens, the
    batch asks the oracle at most once per requirement of each document that
    yields text, three times with voting, and asks nothing for the others;
    what was cached before stays cached. *)
Theorem process_files_request_budget (uploaded_files : list UploadedFile)
    (use_voting_system : bool) (s : Session) :
  archives_open uploaded_files ->
  members_open uploaded_files ->
  exists all_results s',
    process_files uploaded_files use_voting_system false s = (Ok all_results, s') /\
    Z.of_nat (oracle_calls s') <=
      Z.of_nat (oracle_calls s)
      + requests_per_requirement use_voting_system
        * Z.of_nat (length (requirements s)) * Spec.successes uploaded_files /\
    score_cache s ⊆ score_cache s'.
Proof.
  intros Hopen Hmembers.
  destruct (runs_process_files uploaded_files use_voting_system s Hopen Hmembers)
    as [all_results [s' [Hrun [[_ [_ [_ [Hcache Hcalls]]]] _]]]].
  exists all_results, s'. split; [exact Hrun |].
  rewrite successes_text_names. split; [lia | exact Hcache].
Qed.

(** X20. When every archive and every PDF-named archive member opens, a
    document is in the results only if its extraction yielded text, and, as
    soon as there is a requirement, every document that yielded text is in
    the results.  With no requirement the results are empty. *)
Theorem process_files_result_names (uploaded_files : list UploadedFile)
    (use_voting_system : bool) (s : Session) :
  archives_open uploaded_files ->
  members_open uploaded_files ->
  exists all_results s',
    process_files uploaded_files use_voting_system false s = (Ok all_results, s') /\
    (forall n, In n (map fst all_results) -> In n (text_names uploaded_files)) /\
    (requirements s <> [] ->
     forall n, In n (text_names uploaded_files) -> In n (map fst all_results)) /\
    (requirements s = [] -> all_results = []).
Proof.
  intros Hopen Hmembers.
  destruct (runs_process_files uploaded_files use_voting_system s Hopen Hmembers)
    as [all_results [s' [Hrun [_ [_ [Hshape [Hin [Hni _]]]]]]]].
  exists all_results, s'. split; [exact Hrun |]. split; [exact Hin |].
  split; [exact Hni |].
  intros Hnone. destruct all_results as [| doc rest]; [reflexivity |]. exfalso.
  inversion Hshape as [| ? ? [Hdoc Hnonempty] _]; subst.
  rewrite Hnone in Hdoc. inversion Hdoc; subst. now apply Hnonempty.
Qed.

(** X21. When every archive and every PDF-named archive member opens, a
    batch started with no current results, as the application does, leaves
    the session's current results equal to what it returns. *)
Theorem process_files_current_results (uploaded_files : list UploadedFile)
    (use_voting_system : bool) (s : Session) :
  archives_open uploaded_files ->
  members_open uploaded_files ->
  current_results s = [] ->
  exists all_results s',
    process_files uploaded_files use_voting_system false s = (Ok all_results, s') /\
    current_results s' = all_results.
Proof.
  intros Hopen Hmembers Hempty.
  destruct (runs_process_files uploaded_files use_voting_system s Hopen Hmembers)
    as [all_results [s' [Hrun [_ [_ [_ [_ [_ [Hcur _]]]]]]]]].
  exists all_results, s'. auto.
Qed.


Lemma count_from_raise rest :
  fold_left
    (fun acc f =>
       result_bind acc (fun total =>
         if String.eqb (type f) "application/zip" then
           result_bind (ZipFile f) (fun z =>
             Ok (total + Z.of_nat (length (List.filter is_pdf_name (namelist z)))))
         else if String.eqb (type f) "application/pdf" then Ok (total + 1)
         else Ok total))
    rest (Raise BadZipFile) = Raise BadZipFile.
Proof. induction rest as [| u r IH]; simpl; auto. Qed.

Lemma count_total_files_from uploaded_files :
  archives_open uploaded_files ->
  forall total,
    fold_left
      (fun acc f =>
         result_bind acc (fun total =>
           if String.eqb (type f) "application/zip" then
             result_bind (ZipFile f) (fun z =>
               Ok (total + Z.of_nat (length (List.filter is_pdf_name (namelist z)))))
           else if String.eqb (type f) "application/pdf" then Ok (total + 1)
           else Ok total))
      uploaded_files (Ok total)
    = Ok (total + fold_right Z.add 0 (map documents_in uploaded_files)).
Proof.
  induction 1 as [| u rest Hu _ IH]; intros total; simpl.
  - f_equal. lia.
  - unfold documents_in at 1. destruct (String.eqb (type u) "application/zip").
    + unfold ZipFile. destruct (archive u) as [z |]; [| now destruct Hu].
      simpl. rewrite IH. f_equal. lia.
    + destruct (String.eqb (type u) "application/pdf"); rewrite IH; f_equal; lia.
Qed.

Lemma successes_le_documents uploaded_files :
  0 <= Spec.successes uploaded_files <= fold_right Z.add 0 (map documents_in uploaded_files).
Proof.
  unfold Spec.successes. induction uploaded_files as [| u r IH]; simpl; [lia |].
  assert (Hu : 0 <= Spec.successes_in u <= documents_in u).
  { unfold Spec.successes_in, documents_in.
    destruct (String.eqb (type u) "application/zip").
    - destruct (archive u) as [z |]; [| lia]. split; [lia |]. apply inj_le.
      clear. induction (List.filter is_pdf_name (namelist z)) as [| x l IHl]; simpl; [lia |].
      destruct (Spec.member_has_text z x); simpl; lia.
    - destruct (String.eqb (type u) "application/pdf"); [| lia].
      destruct (Spec.has_text (file u)); lia. }
  lia.
Qed.

(** X23. [count_total_files] counts the PDF uploads and the PDF-named
    members of the archives, never fewer than the documents that will yield
    text, and raises [BadZipFile] when an upload declared as an archive
    does not open. *)
Theorem count_total_files_counts (uploaded_files : list UploadedFile) :
  (archives_open uploaded_files ->
   exists n,
     count_total_files uploaded_files = Ok n /\
     n = fold_right Z.add 0 (map documents_in uploaded_files) /\
     0 <= Spec.successes uploaded_files <= n)
  /\ (~ archives_open uploaded_files ->
      count_total_files uploaded_files = Raise BadZipFile).
Proof.
  split.
  - intros Hopen. eexists. split; [apply (count_total_files_from _ Hopen 0) |].
    split; [lia |]. rewrite Z.add_0_l. apply successes_le_documents.
  - intros Hnot. unfold count_total_files. generalize 0.
    induction uploaded_files as [| u rest IH]; intros total.
    + exfalso. apply Hnot. constructor.
    + simpl. destruct (String.eqb (type u) "application/zip") eqn:Ezip.
      * unfold ZipFile. destruct (archive u) as [z |] eqn:Ez.
        -- simpl. apply IH. intros Hrest. apply Hnot. constructor; [congruence | exact Hrest].
        -- simpl. apply count_from_raise.
      * assert (Hrest : ~ archives_open rest).
        { intros Hrest. apply Hnot. constructor; [congruence | exact Hrest]. }
        destruct (String.eqb (type u) "application/pdf"); now apply IH.
Qed.

(** X24. After a batch on uploads whose archive members all open, the
    progress percentage exists and lies between 0 and 100, whatever
    extraction failed. *)
Theorem batch_progress_within_bounds (uploaded_files : list UploadedFile)
    (use_voting_system : bool) (s : Session) (n : Z) :
  count_total_files uploaded_files = Ok n ->
  members_open uploaded_files ->
  0 < n * Z.of_nat (length (requirements s)) ->
  exists all_results s' pct,
    (init n (Z.of_nat (length (requirements s))) ;;
     process_files uploaded_files use_voting_system false) s = (Ok all_results, s') /\
    get_progress_percentage s' = (Ok pct, s') /\
    (0 <= pct <= 100)%Q.
Proof.
  intros Hcount Hmembers Hpos. set (M := Z.of_nat (length (requirements s))) in *.
  destruct (init_run n M s) as [s1 [Hinit [Hreq [Htotal Hdone]]]].
  pose proof (count_total_files_archives _ _ Hcount) as Harchives.
  destruct (completes_process_files uploaded_files use_voting_system s1 Harchives Hmembers)
    as [all_results [s' [Hrun [_ [Htotal' Hdone']]]]].
  rewrite Hreq in Hdone'. fold M in Hdone'.
  pose proof (count_total_files_from _ Harchives 0) as Hn'.
  change (count_total_files uploaded_files
          = Ok (0 + fold_right Z.add 0 (map documents_in uploaded_files))) in Hn'.
  rewrite Hcount, Z.add_0_l in Hn'. injection Hn' as Hn'.
  pose proof (successes_le_documents uploaded_files) as Hbound. rewrite <- Hn' in Hbound.
  exists all_results, s'. eexists. split.
  { unfold bind. rewrite Hinit. exact Hrun. }
  rewrite get_progress_percentage_run, Htotal', Htotal.
  destruct (n * M =? 0) eqn:E; [apply Z.eqb_eq in E; lia |].
  split; [reflexivity |].
  rewrite Hdone', Hdone, Z.add_0_l.
  assert (HM : 0 <= M) by (unfold M; lia).
  assert (Hq : (0 < inject_Z (n * M))%Q).
  { change 0%Q with (inject_Z 0). rewrite <- Zlt_Qlt. lia. }
  assert (Hc : (0 <= inject_Z (M * Spec.successes uploaded_files) <= inject_Z (n * M))%Q).
  { change 0%Q with (inject_Z 0). rewrite <- !Zle_Qle. nia. }
  split.
  - apply Qmult_le_0_compat; [| discriminate].
    apply Qle_shift_div_l; [exact Hq | lra].
  - assert (Hdiv : (inject_Z (M * Spec.successes uploaded_files) / inject_Z (n * M) <= 1)%Q).
    { apply Qle_shift_div_r; [exact Hq | lra]. }
    lra.
Qed.

(** X25. With every operation completed and time elapsed since the tracker
    was built, the time remaining is ["0:00:00"]. *)
Theorem eta_when_done (s : Session) :
  0 < completed_operations (tracker s) ->
  total_operations (tracker s) = completed_operations (tracker s) ->
  (start_time (tracker s) < clock s (clock_reads s))%Q ->
  fst (get_estimated_time_remaining s) = Ok "0:00:00"%string.
Proof.
  intros Hdone Htotal Helapsed.
  unfold get_estimated_time_remaining, get_tracker.
  unfold bind, get, ret, time_time, lift. cbv beta iota.
  destruct (completed_operations (tracker s) =? 0) eqn:E; [apply Z.eqb_eq in E; lia |].
  simpl tracker. simpl fst.
  set (elapsed := (clock s (clock_reads s) - start_time (tracker s))%Q).
  assert (Hel : (0 < elapsed)%Q) by (unfold elapsed; lra).
  unfold truediv at 1.
  destruct (Qeq_bool elapsed 0) eqn:Ez; [apply Qeq_bool_iff in Ez; lra |].
  set (rate := (inject_Z (completed_operations (tracker s)) / elapsed)%Q).
  assert (Hrate : (0 < rate)%Q).
  { unfold rate. apply Qlt_shift_div_l; [exact Hel |].
    rewrite Qmult_0_l. change 0%Q with (inject_Z 0). rewrite <- Zlt_Qlt. exact Hdone. }
  assert (Hlt : Py.lt 0 rate = true).
  { unfold Py.lt. apply negb_true_iff, not_true_is_false. intros C.
    apply Qle_bool_iff in C. lra. }
  rewrite Hlt. rewrite Htotal, Z.sub_diag. unfold truediv.
  destruct (Qeq_bool rate 0) eqn:Er; [apply Qeq_bool_iff in Er; lra |].
  reflexivity.
Qed.

Lemma members_open_forallb uploaded_files :
  members_open uploaded_files <-> forallb upload_members_open uploaded_files = true.
Proof. unfold members_open. rewrite forallb_forall, List.Forall_forall. tauto. Qed.

(** A loop whose body returns on the elements that are [ok] and raises on
    the others ends at the first that is not, with its exception. *)
Lemma for_each_first_failure {A B} (body : B -> A -> M B) (ok : A -> bool)
    (P : A -> exn -> Prop) (l : list A) :
  (forall acc x s, In x l -> ok x = true -> exists acc' s', body acc x s = (Ok acc', s')) ->
  (forall acc x s, In x l -> ok x = false ->
                   exists e s', body acc x s = (Raise e, s') /\ P x e) ->
  forallb ok l = false ->
  forall acc s,
    exists pre x post e s',
      l = pre ++ x :: post /\ forallb ok pre = true /\ ok x = false /\
      for_each l acc body s = (Raise e, s') /\ P x e.
Proof.
  induction l as [| x r IH]; intros Hok Hbad Hall acc s; [discriminate |].
  simpl in Hall. simpl for_each. unfold bind.
  destruct (ok x) eqn:Ex.
  - destruct (Hok acc x s (or_introl eq_refl) Ex) as [acc' [s' Hrun]]. rewrite Hrun.
    destruct (IH (fun a y t Hy => Hok a y t (or_intror Hy))
                 (fun a y t Hy => Hbad a y t (or_intror Hy)) Hall acc' s')
      as [pre [y [post [e [s'' [-> [Hpre [Hy [Hrest HP]]]]]]]]].
    exists (x :: pre), y, post, e, s''. simpl. rewrite Ex, Hpre. auto.
  - destruct (Hbad acc x s (or_introl eq_refl) Ex) as [e [s' [Hrun HP]]].
    exists [], x, r, e, s'. rewrite Hrun. auto.
Qed.

Lemma process_upload_member_fails use_voting_system state u s :
  upload_members_open u = false ->
  exists e s',
    process_upload use_voting_system false state u s = (Raise e, s') /\
    exists z pre filename post,
      String.eqb (type u) "application/zip" = true /\
      archive u = Some z /\
      List.filter is_pdf_name (namelist z) = pre ++ filename :: post /\
      forallb (member_opens z) pre = true /\
      zip_open z filename = Raise e.
Proof.
  intros Hbad. destruct state as [all_results file_counter_value].
  unfold upload_members_open in Hbad. unfold process_upload.
  destruct (String.eqb (type u) "application/zip"); [| discriminate].
  destruct (archive u) as [z |] eqn:Ez; [| discriminate].
  unfold ZipFile. rewrite Ez. unfold bind at 1, lift. unfold bind at 1.
  destruct (for_each_first_failure
              (process_member z use_voting_system false) (member_opens z)
              (fun filename e => zip_open z filename = Raise e)
              (List.filter is_pdf_name (namelist z))) with
    (acc := (all_results, file_counter_value, 0)) (s := s)
    as [pre [filename [post [e [s' [Hsplit [Hpre [_ [Hrun Hraise]]]]]]]]].
  - intros acc x t _ Hx.
    destruct (completes_process_member z use_voting_system acc x t Hx) as [a [t' [H _]]].
    eauto.
  - intros acc x t Hin Hx. unfold member_opens in Hx.
    destruct (zip_open z x) as [f | e] eqn:Hopen; [discriminate |].
    exists e, t. split; [now apply process_member_raises | reflexivity].
  - exact Hbad.
  - rewrite Hrun. exists e, s'. split; [reflexivity |].
    exists z, pre, filename, post. auto.
Qed.

(** X28. When the archives open but a PDF-named member of one does not,
    the batch does not return: the member is opened outside
    [process_single_file]'s [try], and the exception of the first member
    that does not open, in the order of the uploads and of each archive's
    names, ends [process_files]. *)
Theorem process_files_member_fails (uploaded_files : list UploadedFile)
    (use_voting_system : bool) (s : Session) :
  archives_open uploaded_files ->
  ~ members_open uploaded_files ->
  exists e s',
    process_files uploaded_files use_voting_system false s = (Raise e, s') /\
    exists before u after z pre filename post,
      uploaded_files = before ++ u :: after /\
      members_open before /\
      String.eqb (type u) "application/zip" = true /\
      archive u = Some z /\
      List.filter is_pdf_name (namelist z) = pre ++ filename :: post /\
      forallb (member_opens z) pre = true /\
      zip_open z filename = Raise e.
Proof.
  intros Hopen Hnot.
  assert (Hall : forallb upload_members_open uploaded_files = false).
  { destruct (forallb upload_members_open uploaded_files) eqn:E; [| reflexivity].
    exfalso. apply Hnot. now apply members_open_forallb. }
  unfold process_files. unfold bind at 1.
  destruct (for_each_first_failure
              (process_upload use_voting_system false) upload_members_open
              (fun u e => exists z pre filename post,
                            String.eqb (type u) "application/zip" = true /\
                            archive u = Some z /\
                            List.filter is_pdf_name (namelist z) = pre ++ filename :: post /\
                            forallb (member_opens z) pre = true /\
                            zip_open z filename = Raise e)
              uploaded_files) with
    (acc := @pair ResultSet Z [] 0) (s := s)
    as [before [u [after [e [s' [Hsplit [Hbefore [_ [Hrun Hwhich]]]]]]]]].
  - intros acc u t Hin Hu.
    assert (Hzip : String.eqb (type u) "application/zip" = true -> archive u <> None).
    { unfold archives_open in Hopen. rewrite List.Forall_forall in Hopen. now apply Hopen. }
    destruct (completes_process_upload use_voting_system acc u t Hzip Hu) as [a [t' [H _]]].
    eauto.
  - intros acc u t Hin Hu.
    exact (process_upload_member_fails use_voting_system acc u t Hu).
  - exact Hall.
  - unfold ResultSet in Hrun. rewrite Hrun. exists e, s'. split; [reflexivity |].
    destruct Hwhich as [z [pre [filename [post [Hzip [Hz [Hnames [Hpre Hraise]]]]]]]].
    exists before, u, after, z, pre, filename, post.
    split; [exact Hsplit |]. split; [now apply members_open_forallb |]. auto.
Qed.

End MoreOnBatches.

(** ** Skill verification *)

Section Skills.

Import SkillVerification.

Lemma findall_count_search pattern text :
  forall skip, (0 < findall_count pattern text skip)%nat -> search pattern text = true.
Proof.
  induction text as [| c rest IH]; intros skip Hcount; simpl in *.
  - destruct skip; [| lia]. destruct (matches_here pattern EmptyString); [reflexivity | lia].
  - destruct skip as [| k].
    + destruct (matches_here pattern (String c rest)) eqn:E; [reflexivity |].
      simpl. now apply (IH 0%nat).
    + rewrite (IH k Hcount). apply orb_true_r.
Qed.

(** X26. The basic skill check gives at most 90; at least 50 when the skill
    is named in the text, in any letter case, and at most 30 when it is
    not. *)
Theorem basic_skill_check_levels (skill cv_text : string) :
  0 <= basic_skill_check skill cv_text <= 90
  /\ (search skill cv_text = true -> 50 <= basic_skill_check skill cv_text)
  /\ (search skill cv_text = false -> basic_skill_check skill cv_text <= 30).
Proof.
  unfold basic_skill_check. cbn [fold_left].
  destruct (search skill cv_text) eqn:Esearch.
  - destruct (any_in context_words (lower cv_text));
      destruct (1 <? findall_count skill cv_text 0)%nat;
      destruct (any_in related_words (lower cv_text)); simpl;
      repeat split; try lia; discriminate.
  - assert (Hnone : (1 <? findall_count skill cv_text 0)%nat = false).
    { apply Nat.ltb_ge. destruct (findall_count skill cv_text 0) as [| n] eqn:Ecount; [lia |].
      assert (Hs : search skill cv_text = true)
        by (apply (findall_count_search _ _ 0%nat); lia).
      congruence. }
    rewrite Hnone.
    destruct (any_in context_words (lower cv_text));
      destruct (any_in related_words (lower cv_text)); simpl;
      repeat split; try lia; discriminate.
Qed.



End Skills.

(** ** Instances of the further properties *)

Section MoreInstances.

Import AiScoring DataHandling Filters PdfProcessor BatchProcessing.
Import DataHandlingMore App SkillVerification.
Local Open Scope string_scope.

Lemma eta_divides_by_elapsed_witness :
  completed_operations (tracker MoreSamples.finished_at_once) <> 0%Z /\
  (clock MoreSamples.finished_at_once (clock_reads MoreSamples.finished_at_once)
   == start_time (tracker MoreSamples.finished_at_once))%Q /\
  fst (get_estimated_time_remaining MoreSamples.finished_at_once) = Raise ZeroDivisionError.
Proof.
  assert (Hdone : completed_operations (tracker MoreSamples.finished_at_once) <> 0%Z)
    by (vm_compute; discriminate).
  assert (Hnow : (clock MoreSamples.finished_at_once (clock_reads MoreSamples.finished_at_once)
                  == start_time (tracker MoreSamples.finished_at_once))%Q)
    by (vm_compute; reflexivity).
  split; [exact Hdone |]. split; [exact Hnow |].
  exact (eta_divides_by_elapsed MoreSamples.finished_at_once Hdone Hnow).
Defined.

Lemma eta_when_done_witness :
  (0 < completed_operations (tracker MoreSamples.finished))%Z /\
  total_operations (tracker MoreSamples.finished)
  = completed_operations (tracker MoreSamples.finished) /\
  (start_time (tracker MoreSamples.finished)
   < clock MoreSamples.finished (clock_reads MoreSamples.finished))%Q /\
  fst (get_estimated_time_remaining MoreSamples.finished) = Ok "0:00:00".
Proof.
  assert (Hdone : (0 < completed_operations (tracker MoreSamples.finished))%Z)
    by (vm_compute; reflexivity).
  assert (Htotal : total_operations (tracker MoreSamples.finished)
                   = completed_operations (tracker MoreSamples.finished))
    by (vm_compute; reflexivity).
  assert (Helapsed : (start_time (tracker MoreSamples.finished)
                      < clock MoreSamples.finished (clock_reads MoreSamples.finished))%Q)
    by (vm_compute; reflexivity).
  split; [exact Hdone |]. split; [exact Htotal |]. split; [exact Helapsed |].
  exact (eta_when_done MoreSamples.finished Hdone Htotal Helapsed).
Defined.

Lemma cache_in_range_empty : cache_in_range ∅.
Proof. intros k v H. rewrite lookup_empty in H. discriminate. Qed.

Lemma get_openai_score_on_scale_witness :
  score_cache Sample.answering !! get_cache_key Sample.python_required "cv" "gpt-4o-mini"
  = None /\
  exists v s',
    get_openai_score Sample.python_required "cv" Sample.answering = (Ok v, s') /\
    in_type_range Sample.python_required v.
Proof.
  assert (Hmiss : score_cache Sample.answering
                  !! get_cache_key Sample.python_required "cv" "gpt-4o-mini" = None)
    by (vm_compute; reflexivity).
  split; [exact Hmiss |].
  exact (get_openai_score_on_scale Sample.python_required "cv" Sample.answering Hmiss).
Defined.

Lemma scoring_keeps_percentages_witness :
  cache_in_range (score_cache Sample.answering) /\
  exists v s',
    score_with true Sample.sql_level "cv" Sample.answering = (Ok v, s') /\
    (0 <= v <= 100)%Q /\
    cache_in_range (score_cache s').
Proof.
  assert (Hcache : cache_in_range (score_cache Sample.answering))
    by exact cache_in_range_empty.
  split; [exact Hcache |].
  exact (scoring_keeps_percentages true Sample.sql_level "cv" Sample.answering Hcache).
Defined.

Lemma voting_reuses_single_model_answer_witness :
  score_cache Sample.answering !! get_cache_key Sample.sql_level "cv" "gpt-4o-mini" = None /\
  answers Sample.sql_level "cv" Sample.answering 80%Q /\
  exists s1 w s2,
    get_openai_score Sample.sql_level "cv" Sample.answering = (Ok 80%Q, s1) /\
    get_openai_score_with_voting Sample.sql_level "cv" s1 = (Ok w, s2) /\
    (oracle_calls s2 <= oracle_calls s1 + 2)%nat.
Proof.
  assert (Hmiss : score_cache Sample.answering
                  !! get_cache_key Sample.sql_level "cv" "gpt-4o-mini" = None)
    by (vm_compute; reflexivity).
  assert (Hans : answers Sample.sql_level "cv" Sample.answering 80%Q).
  { exists "80", (Finite 80). repeat split; vm_compute; reflexivity. }
  split; [exact Hmiss |]. split; [exact Hans |].
  exact (voting_reuses_single_model_answer Sample.sql_level "cv" Sample.answering 80%Q
           Hmiss Hans).
Defined.

Lemma voting_falls_back_when_all_fail_witness :
  (forall n model system user,
      exists msg, oracle Sample.timing_out n model system user = ClientError msg) /\
  score_cache Sample.timing_out !! get_cache_key Sample.sql_level "cv" "voting" = None /\
  (forall model, In model models ->
                 score_cache Sample.timing_out
                 !! get_cache_key Sample.sql_level "cv" model = None) /\
  exists s',
    get_openai_score_with_voting Sample.sql_level "cv" Sample.timing_out
    = (Ok (fallback Sample.sql_level), s') /\
    oracle_calls s' = (oracle_calls Sample.timing_out + 3)%nat /\
    score_cache s'
    = <[get_cache_key Sample.sql_level "cv" "voting" := fallback Sample.sql_level]>
        (score_cache Sample.timing_out).
Proof.
  assert (Hfail : forall n model system user,
             exists msg, oracle Sample.timing_out n model system user = ClientError msg).
  { intros n model system user. exists "timeout". reflexivity. }
  assert (Hvoting : score_cache Sample.timing_out
                    !! get_cache_key Sample.sql_level "cv" "voting" = None)
    by (vm_compute; reflexivity).
  assert (Hmodels : forall model, In model models ->
             score_cache Sample.timing_out
             !! get_cache_key Sample.sql_level "cv" model = None).
  { intros model _. apply lookup_empty. }
  split; [exact Hfail |]. split; [exact Hvoting |]. split; [exact Hmodels |].
  exact (voting_falls_back_when_all_fail Sample.sql_level "cv" Sample.timing_out
           Hfail Hvoting Hmodels).
Defined.

Lemma weighted_score_on_scale_witness :
  Forall (fun r => Spec.valid_priority (priority r)) (snd Sample.ann) /\
  Forall on_scale (snd Sample.ann) /\
  (exists q, calculate_weighted_score (snd Sample.ann) = Ok q /\ (0 <= q <= 100)%Q) /\
  calculate_weighted_score [] = Ok 0%Q.
Proof.
  assert (Hvalid : Forall (fun r => Spec.valid_priority (priority r)) (snd Sample.ann)).
  { repeat constructor; unfold Spec.valid_priority; simpl; tauto. }
  assert (Hscale : Forall on_scale (snd Sample.ann)).
  { repeat constructor; discriminate. }
  split; [exact Hvalid |]. split; [exact Hscale |]. split.
  - destruct (weighted_score_on_scale (snd Sample.ann) Hvalid Hscale) as [q [Hq [Hb _]]].
    exists q. split; [exact Hq | exact Hb].
  - destruct (weighted_score_on_scale [] (List.Forall_nil _) (List.Forall_nil _)) as [q [Hq [_ Hz]]].
    rewrite Hq, (Hz eq_refl). reflexivity.
Defined.

Lemma scored_nodup : List.NoDup (map fst Sample.scored).
Proof. simpl. repeat constructor; simpl; intuition discriminate. Qed.

Lemma scored_valid :
  Forall (fun doc => Forall (fun r => Spec.valid_priority (priority r)) (snd doc))
         Sample.scored.
Proof. repeat constructor; unfold Spec.valid_priority; simpl; tauto. Qed.

Lemma apply_filters_in_order_witness :
  List.NoDup (map fst Sample.scored) /\
  Forall (fun doc => Forall (fun r => Spec.valid_priority (priority r)) (snd doc))
         Sample.scored /\
  exists filtered_results,
    apply_filters Sample.scored Sample.strict = Ok filtered_results /\
    sublist (map fst filtered_results) (map fst Sample.scored) /\
    List.NoDup (map fst filtered_results) /\
    (length filtered_results <= length Sample.scored)%nat.
Proof.
  split; [exact scored_nodup |]. split; [exact scored_valid |].
  exact (apply_filters_in_order Sample.scored Sample.strict scored_nodup scored_valid).
Defined.

Lemma apply_filters_no_filter_witness :
  List.NoDup (map fst Sample.scored) /\
  Forall (fun doc => Forall (fun r => Spec.valid_priority (priority r)) (snd doc))
         Sample.scored /\
  Forall (fun doc => Forall (fun r => 0 <= score r)%Q (snd doc)) Sample.scored /\
  apply_filters Sample.scored no_filter = Ok Sample.scored.
Proof.
  assert (Hnonneg : Forall (fun doc => Forall (fun r => 0 <= score r)%Q (snd doc))
                           Sample.scored).
  { repeat constructor; discriminate. }
  split; [exact scored_nodup |]. split; [exact scored_valid |]. split; [exact Hnonneg |].
  exact (apply_filters_no_filter Sample.scored scored_nodup scored_valid Hnonneg).
Defined.

Lemma apply_filters_unknown_label_witness :
  Exists (fun doc => Exists (fun r => ~ Spec.valid_priority (priority r)) (snd doc))
         MoreSamples.with_mislabelled /\
  apply_filters MoreSamples.with_mislabelled no_filter = Raise (KeyError "Urgent") /\
  exists before cv_name pre r post after,
    MoreSamples.with_mislabelled
    = (before ++ (cv_name, (pre ++ r :: post)%list) :: after)%list /\
    Forall (fun doc => Forall (fun r => Spec.valid_priority (priority r)) (snd doc)) before /\
    Forall (fun r => Spec.valid_priority (priority r)) pre /\
    ~ Spec.valid_priority (priority r) /\
    apply_filters MoreSamples.with_mislabelled no_filter = Raise (KeyError (priority r)).
Proof.
  assert (Hbad : Exists (fun doc => Exists (fun r => ~ Spec.valid_priority (priority r))
                                           (snd doc))
                        MoreSamples.with_mislabelled).
  { apply Exists_cons_tl, Exists_cons_hd, Exists_cons_tl, Exists_cons_hd.
    unfold Spec.valid_priority. simpl. intros [H | [H | H]]; discriminate H. }
  split; [exact Hbad |]. split; [vm_compute; reflexivity |].
  exact (apply_filters_unknown_label MoreSamples.with_mislabelled no_filter Hbad).
Defined.

Lemma apply_filters_threshold_witness :
  List.NoDup (map fst Sample.scored) /\
  Forall (fun doc => Forall (fun r => Spec.valid_priority (priority r)) (snd doc))
         Sample.scored /\
  (min_score no_filter <= min_score MoreSamples.seventy)%Q /\
  exists out out',
    apply_filters Sample.scored no_filter = Ok out /\
    apply_filters Sample.scored MoreSamples.seventy = Ok out' /\
    forall cv_name recs, In (cv_name, recs) out' -> In (cv_name, recs) out.
Proof.
  assert (Hmin : (min_score no_filter <= min_score MoreSamples.seventy)%Q) by discriminate.
  split; [exact scored_nodup |]. split; [exact scored_valid |]. split; [exact Hmin |].
  exact (apply_filters_threshold Sample.scored no_filter MoreSamples.seventy
           scored_nodup scored_valid Hmin eq_refl eq_refl).
Defined.

Lemma assess_candidate_risk_levels_witness :
  Forall (fun r => score_type r = "boolean" -> score r <= 1)%Q MoreSamples.all_met /\
  (3 <= count_if (is_type "boolean") MoreSamples.all_met)%Z /\
  boolean_failures (assess_candidate_risk MoreSamples.all_met) = 0%Z /\
  overall_risk_level (assess_candidate_risk MoreSamples.all_met) = "High".
Proof.
  assert (Hbool : Forall (fun r => score_type r = "boolean" -> score r <= 1)%Q
                         MoreSamples.all_met).
  { repeat constructor; intros _; discriminate. }
  assert (Hthree : (3 <= count_if (is_type "boolean") MoreSamples.all_met)%Z)
    by (vm_compute; discriminate).
  split; [exact Hbool |]. split; [exact Hthree |]. split; [reflexivity |].
  exact (proj2 (proj2 (assess_candidate_risk_levels MoreSamples.all_met)) Hbool Hthree).
Defined.

Lemma get_pdfs_from_zip_all_or_nothing_witness :
  archive Sample.two_cvs
  = Some [("ann.pdf", Ok Sample.readable); ("notes.txt", Ok Sample.broken);
          ("eve.PDF", Ok Sample.readable)] /\
  (exists pdf_files,
      get_pdfs_from_zip Sample.two_cvs = Ok pdf_files /\
      map fst pdf_files = ["ann.pdf"; "eve.PDF"] /\
      (String.eqb (type Sample.two_cvs) "application/zip" = true ->
       count_total_files [Sample.two_cvs] = Ok (Z.of_nat (length pdf_files)))) /\
  (exists z,
      archive Sample.three_cvs = Some z /\
      Exists (fun n => member_content z n = None) (List.filter is_pdf_name (namelist z)) /\
      forallb (member_opens z) (List.filter is_pdf_name (namelist z)) = true /\
      exists msg, get_pdfs_from_zip Sample.three_cvs = Raise (IOError msg)) /\
  exists z,
    archive Sample.damaged_cvs = Some z /\
    Exists (fun n => member_content z n = None) (List.filter is_pdf_name (namelist z)) /\
    exists e, get_pdfs_from_zip Sample.damaged_cvs = Raise e.
Proof.
  split; [reflexivity |]. split.
  { apply (proj1 (get_pdfs_from_zip_all_or_nothing Sample.two_cvs _ eq_refl)).
    repeat constructor; discriminate. }
  split.
  - eexists. split; [reflexivity |].
    assert (Hbad : Exists (fun n => member_content
                                      [("ann.pdf", Ok Sample.readable);
                                       ("bob.pdf", Ok Sample.broken);
                                       ("eve.PDF", Ok Sample.readable)] n = None)
                          (List.filter is_pdf_name
                             (namelist [("ann.pdf", Ok Sample.readable);
                                        ("bob.pdf", Ok Sample.broken);
                                        ("eve.PDF", Ok Sample.readable)]))).
    { apply Exists_cons_tl, Exists_cons_hd. reflexivity. }
    split; [exact Hbad |]. split; [reflexivity |].
    destruct (proj2 (get_pdfs_from_zip_all_or_nothing Sample.three_cvs _ eq_refl) Hbad)
      as [e [Hraise Hio]].
    destruct (Hio eq_refl) as [msg ->]. exists msg. exact Hraise.
  - eexists. split; [reflexivity |].
    assert (Hbad : Exists (fun n => member_content
                                      [("ann.pdf", Ok Sample.readable);
                                       ("bob.pdf", Raise BadZipFile);
                                       ("eve.PDF", Ok Sample.readable)] n = None)
                          (List.filter is_pdf_name
                             (namelist [("ann.pdf", Ok Sample.readable);
                                        ("bob.pdf", Raise BadZipFile);
                                        ("eve.PDF", Ok Sample.readable)]))).
    { apply Exists_cons_tl, Exists_cons_hd. reflexivity. }
    split; [exact Hbad |].
    destruct (proj2 (get_pdfs_from_zip_all_or_nothing Sample.damaged_cvs _ eq_refl) Hbad)
      as [e [Hraise _]].
    exists e. exact Hraise.
Defined.

Lemma three_cvs_open : archives_open [Sample.three_cvs].
Proof. constructor; [intros _; discriminate | constructor]. Qed.

Lemma three_cvs_members_open : members_open [Sample.three_cvs].
Proof. repeat constructor. Qed.

Lemma process_files_results_shape_witness :
  archives_open [Sample.three_cvs] /\
  members_open [Sample.three_cvs] /\
  exists all_results s',
    process_files [Sample.three_cvs] true false Sample.answering = (Ok all_results, s') /\
    List.NoDup (map fst all_results) /\
    Forall (fun doc => shaped (requirements Sample.answering) (snd doc) /\ snd doc <> [])
           all_results.
Proof.
  split; [exact three_cvs_open |]. split; [exact three_cvs_members_open |].
  exact (process_files_results_shape [Sample.three_cvs] true Sample.answering three_cvs_open three_cvs_members_open).
Defined.

Lemma process_files_then_apply_filters_witness :
  archives_open [Sample.three_cvs] /\
  members_open [Sample.three_cvs] /\
  Forall (fun req => Spec.valid_priority (req_weight req)) (requirements Sample.answering) /\
  exists all_results s' filtered_results,
    process_files [Sample.three_cvs] false false Sample.answering = (Ok all_results, s') /\
    apply_filters all_results Sample.strict = Ok filtered_results.
Proof.
  assert (Hweights : Forall (fun req => Spec.valid_priority (req_weight req))
                            (requirements Sample.answering)).
  { repeat constructor; unfold Spec.valid_priority; simpl; tauto. }
  split; [exact three_cvs_open |]. split; [exact three_cvs_members_open |]. split; [exact Hweights |].
  exact (process_files_then_apply_filters [Sample.three_cvs] false Sample.answering
           Sample.strict three_cvs_open three_cvs_members_open Hweights).
Defined.

Lemma process_files_request_budget_witness :
  archives_open [Sample.three_cvs] /\
  members_open [Sample.three_cvs] /\
  exists all_results s',
    process_files [Sample.three_cvs] true false Sample.answering = (Ok all_results, s') /\
    (Z.of_nat (oracle_calls s') <=
       Z.of_nat (oracle_calls Sample.answering)
       + requests_per_requirement true
         * Z.of_nat (length (requirements Sample.answering))
         * Spec.successes [Sample.three_cvs])%Z /\
    score_cache Sample.answering ⊆ score_cache s'.
Proof.
  split; [exact three_cvs_open |]. split; [exact three_cvs_members_open |].
  exact (process_files_request_budget [Sample.three_cvs] true Sample.answering
           three_cvs_open three_cvs_members_open).
Defined.

Lemma process_files_result_names_witness :
  archives_open [Sample.three_cvs] /\
  members_open [Sample.three_cvs] /\
  requirements Sample.answering <> [] /\
  text_names [Sample.three_cvs] = ["ann.pdf"; "eve.PDF"] /\
  (exists all_results s',
      process_files [Sample.three_cvs] false false Sample.answering = (Ok all_results, s') /\
      forall n, In n (map fst all_results) <-> In n ["ann.pdf"; "eve.PDF"]) /\
  requirements Sample.timing_out = [] /\
  exists s', process_files [Sample.three_cvs] false false Sample.timing_out = (Ok [], s').
Proof.
  assert (Hreqs : requirements Sample.answering <> []) by discriminate.
  split; [exact three_cvs_open |]. split; [exact three_cvs_members_open |].
  split; [exact Hreqs |]. split; [reflexivity |]. split.
  - destruct (process_files_result_names [Sample.three_cvs] false Sample.answering
                three_cvs_open three_cvs_members_open)
      as [all_results [s' [Hrun [Honly [Hall _]]]]].
    exists all_results, s'. split; [exact Hrun |].
    intros n. split; [apply Honly | apply (Hall Hreqs)].
  - split; [reflexivity |].
    destruct (process_files_result_names [Sample.three_cvs] false Sample.timing_out
                three_cvs_open three_cvs_members_open)
      as [all_results [s' [Hrun [_ [_ Hnone]]]]].
    exists s'. rewrite Hrun, (Hnone eq_refl). reflexivity.
Defined.

Lemma process_files_current_results_witness :
  archives_open [Sample.three_cvs] /\
  members_open [Sample.three_cvs] /\
  current_results Sample.answering = [] /\
  exists all_results s',
    process_files [Sample.three_cvs] false false Sample.answering = (Ok all_results, s') /\
    current_results s' = all_results.
Proof.
  split; [exact three_cvs_open |]. split; [exact three_cvs_members_open |]. split; [reflexivity |].
  exact (process_files_current_results [Sample.three_cvs] false Sample.answering
           three_cvs_open three_cvs_members_open eq_refl).
Defined.


Lemma count_total_files_counts_witness :
  archives_open [Sample.three_cvs] /\
  (exists n,
      count_total_files [Sample.three_cvs] = Ok n /\
      n = fold_right Z.add 0%Z (map documents_in [Sample.three_cvs]) /\
      (0 <= Spec.successes [Sample.three_cvs] <= n)%Z) /\
  ~ archives_open [Sample.three_cvs; MoreSamples.not_an_archive] /\
  count_total_files [Sample.three_cvs; MoreSamples.not_an_archive] = Raise BadZipFile.
Proof.
  assert (Hnot : ~ archives_open [Sample.three_cvs; MoreSamples.not_an_archive]).
  { intros H. inversion H as [| u l _ Hrest]; subst.
    inversion Hrest as [| u' l' Hu _]; subst. now apply Hu. }
  split; [exact three_cvs_open |].
  split; [exact (proj1 (count_total_files_counts [Sample.three_cvs]) three_cvs_open) |].
  split; [exact Hnot |].
  exact (proj2 (count_total_files_counts [Sample.three_cvs; MoreSamples.not_an_archive])
               Hnot).
Defined.

Lemma batch_progress_within_bounds_witness :
  count_total_files [Sample.three_cvs] = Ok 3%Z /\
  members_open [Sample.three_cvs] /\
  (0 < 3 * Z.of_nat (length (requirements Sample.answering)))%Z /\
  exists all_results s' pct,
    (init 3 (Z.of_nat (length (requirements Sample.answering))) ;;
     process_files [Sample.three_cvs] true false) Sample.answering = (Ok all_results, s') /\
    get_progress_percentage s' = (Ok pct, s') /\
    (0 <= pct <= 100)%Q.
Proof.
  assert (Hcount : count_total_files [Sample.three_cvs] = Ok 3%Z)
    by (vm_compute; reflexivity).
  assert (Hpos : (0 < 3 * Z.of_nat (length (requirements Sample.answering)))%Z)
    by reflexivity.
  split; [exact Hcount |]. split; [exact three_cvs_members_open |]. split; [exact Hpos |].
  exact (batch_progress_within_bounds [Sample.three_cvs] true Sample.answering 3
           Hcount three_cvs_members_open Hpos).
Defined.

Lemma basic_skill_check_levels_witness :
  search "python" "Worked on PYTHON projects; Python expert." = true /\
  (50 <= basic_skill_check "python" "Worked on PYTHON projects; Python expert.")%Z /\
  search "cobol" "Worked on PYTHON projects; Python expert." = false /\
  (basic_skill_check "cobol" "Worked on PYTHON projects; Python expert." <= 30)%Z.
Proof.
  assert (Hfound : search "python" "Worked on PYTHON projects; Python expert." = true)
    by (vm_compute; reflexivity).
  assert (Hnone : search "cobol" "Worked on PYTHON projects; Python expert." = false)
    by (vm_compute; reflexivity).
  split; [exact Hfound |]. split.
  { exact (proj1 (proj2 (basic_skill_check_levels
                           "python" "Worked on PYTHON projects; Python expert.")) Hfound). }
  split; [exact Hnone |].
  exact (proj2 (proj2 (basic_skill_check_levels
                         "cobol" "Worked on PYTHON projects; Python expert.")) Hnone).
Defined.


Lemma process_files_member_fails_witness :
  archives_open [Sample.three_cvs; Sample.damaged_cvs] /\
  ~ members_open [Sample.three_cvs; Sample.damaged_cvs] /\
  fst (process_files [Sample.three_cvs; Sample.damaged_cvs] false false Sample.answering)
  = Raise BadZipFile /\
  exists e s',
    process_files [Sample.three_cvs; Sample.damaged_cvs] false false Sample.answering
    = (Raise e, s') /\
    exists before u after z pre filename post,
      [Sample.three_cvs; Sample.damaged_cvs] = (before ++ u :: after)%list /\
      members_open before /\
      String.eqb (type u) "application/zip" = true /\
      archive u = Some z /\
      List.filter is_pdf_name (namelist z) = (pre ++ filename :: post)%list /\
      forallb (member_opens z) pre = true /\
      zip_open z filename = Raise e.
Proof.
  assert (Hopen : archives_open [Sample.three_cvs; Sample.damaged_cvs]).
  { repeat constructor; intros _; discriminate. }
  assert (Hnot : ~ members_open [Sample.three_cvs; Sample.damaged_cvs]).
  { intros H. inversion H as [| u l _ Hrest]; subst.
    inversion Hrest as [| u' l' Hu _]; subst. discriminate Hu. }
  split; [exact Hopen |]. split; [exact Hnot |]. split; [vm_compute; reflexivity |].
  exact (process_files_member_fails [Sample.three_cvs; Sample.damaged_cvs] false
           Sample.answering Hopen Hnot).
Defined.

End MoreInstances.
